(** * Analytics engine: KPI aggregation, anomaly detection, weather
      correlation and benchmark comparison

    A shallow embedding of [backend/kpi_calculator.py],
    [backend/anomaly_detector.py], [backend/weather_analyzer.py],
    [backend/benchmarking.py] and the upload filter of [backend/app.py].

    Numbers.  The Python code computes with IEEE doubles (pandas / numpy).
    The embedding keeps the special values that drive the control flow of the
    code (NaN doubles as pandas' "missing", the two infinities come out of a
    vectorised division by zero) and represents every finite double by the
    rational it denotes.  A decimal literal of the source is the double it
    denotes.  Rounding is not modelled: finite arithmetic is exact rational
    arithmetic, which is what the code computes as long as no step rounds,
    as on the small integers of the samples.  What is proved of the guard
    on a standard deviation of 0 is proved for any mean and any standard
    deviation the library may return. *)

From Stdlib Require Import QArith Qabs ZArith List String Bool Lia Lqa.
From Stdlib Require Import Sorted Permutation Ascii.
Import ListNotations.


(* ------------------------------------------------------------------------- *)
(** ** Floating-point values *)

Module Float.

Inductive float : Type :=
| Fin (q : Q)
| PInf
| NInf
| NaN.

Definition zero : float := Fin 0.
Definition hundred : float := Fin 100.

Definition Qltb (a b : Q) : bool := negb (Qle_bool b a).

(** Comparisons: every ordered comparison with NaN is [false]. *)
Definition ltb (x y : float) : bool :=
  match x, y with
  | NaN, _ | _, NaN => false
  | Fin a, Fin b => Qltb a b
  | NInf, NInf => false
  | NInf, _ => true
  | _, PInf => match x with PInf => false | _ => true end
  | _, _ => false
  end.

Definition gtb (x y : float) : bool := ltb y x.

Definition eqb (x y : float) : bool :=
  match x, y with
  | Fin a, Fin b => Qeq_bool a b
  | PInf, PInf | NInf, NInf => true
  | _, _ => false
  end.

Definition leb (x y : float) : bool := ltb x y || eqb x y.
Definition geb (x y : float) : bool := leb y x.
Definition neb (x y : float) : bool := negb (eqb x y).

Definition is_nan (x : float) : bool :=
  match x with NaN => true | _ => false end.

Definition sign_of (q : Q) : float :=
  if Qltb 0 q then PInf else if Qltb q 0 then NInf else NaN.

Definition opp (x : float) : float :=
  match x with
  | Fin a => Fin (Qred (- a))
  | PInf => NInf
  | NInf => PInf
  | NaN => NaN
  end.

Definition abs (x : float) : float :=
  match x with
  | Fin a => Fin (Qred (Qabs a))
  | PInf | NInf => PInf
  | NaN => NaN
  end.

Definition add (x y : float) : float :=
  match x, y with
  | NaN, _ | _, NaN => NaN
  | Fin a, Fin b => Fin (Qred (a + b))
  | PInf, NInf | NInf, PInf => NaN
  | PInf, _ | _, PInf => PInf
  | NInf, _ | _, NInf => NInf
  end.

Definition sub (x y : float) : float := add x (opp y).

Definition mul (x y : float) : float :=
  match x, y with
  | NaN, _ | _, NaN => NaN
  | Fin a, Fin b => Fin (Qred (a * b))
  | Fin a, PInf | PInf, Fin a => sign_of a
  | Fin a, NInf | NInf, Fin a => sign_of (- a)
  | PInf, PInf | NInf, NInf => PInf
  | PInf, NInf | NInf, PInf => NaN
  end.

(** Division as numpy and pandas perform it: a zero divisor gives an
    infinity, or NaN for [0 / 0]; nothing is raised. *)
Definition div (x y : float) : float :=
  match x, y with
  | NaN, _ | _, NaN => NaN
  | Fin a, Fin b => if Qeq_bool b 0 then sign_of a else Fin (Qred (a / b))
  | Fin _, _ => zero
  | PInf, Fin b => if Qltb b 0 then NInf else PInf
  | NInf, Fin b => if Qltb b 0 then PInf else NInf
  | _, _ => NaN
  end.

(** Square root.  The rational model has no exact root; the root is
    approximated from below to 53 binary digits after the point.  It is
    exact at zero and positive on every positive argument. *)
Definition Qsqrt (q : Q) : Q :=
  Qred (Z.sqrt (Qnum q * Zpos (Qden q) * 2 ^ 106) # (Qden q * 2 ^ 53)).

Definition sqrt (x : float) : float :=
  match x with
  | Fin a => if Qltb a 0 then NaN else Fin (Qsqrt a)
  | PInf => PInf
  | NInf | NaN => NaN
  end.

Definition of_nat (n : nat) : float := Fin (inject_Z (Z.of_nat n)).

(** Decimal literals.  A literal of the source that is not a binary
    fraction denotes the binary64 number nearest to it, given here as its
    integer significand over a power of two: [0.6] lies a little below
    6/10, [0.05] a little above 5/100. *)
Definition double_0_6 : float :=
  Fin (5404319552844595 # 9007199254740992).
Definition double_0_7 : float :=
  Fin (3152519739159347 # 4503599627370496).
Definition double_0_05 : float :=
  Fin (3602879701896397 # 72057594037927936).
Definition double_0_65 : float :=
  Fin (5854679515581645 # 9007199254740992).
Definition double_0_01 : float :=
  Fin (5764607523034235 # 576460752303423488).
Definition double_0_9 : float :=
  Fin (8106479329266893 # 9007199254740992).
Definition double_0_2 : float :=
  Fin (3602879701896397 # 18014398509481984).

End Float.

Import Float.

Declare Scope float_scope.
Delimit Scope float_scope with float.
Bind Scope float_scope with float.
Infix "+" := add : float_scope.
Infix "-" := sub : float_scope.
Infix "*" := mul : float_scope.
Infix "/" := div : float_scope.
Infix "<?" := ltb (at level 70, no associativity) : float_scope.
Infix ">?" := gtb (at level 70, no associativity) : float_scope.
Infix "<=?" := leb (at level 70, no associativity) : float_scope.
Infix ">=?" := geb (at level 70, no associativity) : float_scope.
Infix "==?" := eqb (at level 70, no associativity) : float_scope.
Infix "!=?" := neb (at level 70, no associativity) : float_scope.

Local Open Scope string_scope.

(* ------------------------------------------------------------------------- *)
(** ** pandas Series and DataFrame *)

(** A numeric Series is the list of its values in row order; a missing value
    is NaN.  The reductions skip missing values, as pandas does; they are
    the exact sum, mean and sample standard deviation, without the
    rounding of the library's floating-point loops. *)
Module Series.

Definition dropna (s : list float) : list float :=
  filter (fun x => negb (is_nan x)) s.

Definition count (s : list float) : nat := List.length (dropna s).

Definition sum (s : list float) : float :=
  fold_left add (dropna s) zero.

Definition mean (s : list float) : float :=
  match count s with
  | O => NaN
  | n => (sum s / of_nat n)%float
  end.

(** Sample standard deviation (pandas' default, one degree of freedom
    removed); undefined below two values. *)
Definition std (s : list float) : float :=
  match count s with
  | O | S O => NaN
  | S n =>
      let m := mean s in
      let sq := map (fun x => ((x - m) * (x - m))%float) (dropna s) in
      sqrt (fold_left add sq zero / of_nat n)%float
  end.

Definition max (s : list float) : float :=
  match dropna s with
  | [] => NaN
  | x :: l => fold_left (fun b y => if (y >? b)%float then y else b) l x
  end.

Definition min (s : list float) : float :=
  match dropna s with
  | [] => NaN
  | x :: l => fold_left (fun b y => if (y <? b)%float then y else b) l x
  end.

Definition fillna (v : float) (s : list float) : list float :=
  map (fun x => if is_nan x then v else x) s.

End Series.

Module Frame.

(** Cell contents: a number, a category label, or a calendar date counted in
    days since 1970-01-01. *)
Inductive cell : Type :=
| Num (x : float)
| Str (s : string)
| Day (d : Z).

Definition row : Type := list (string * cell).

Record DataFrame : Type := mkFrame {
  columns : list string;
  rows : list row
}.

Definition has_col (df : DataFrame) (c : string) : bool :=
  existsb (String.eqb c) (columns df).

Fixpoint get (r : row) (c : string) : cell :=
  match r with
  | [] => Num NaN
  | (k, v) :: r' => if String.eqb k c then v else get r' c
  end.

(** The number in a cell of a numeric column; see the column types
    below for cells that hold no number. *)
Definition num (r : row) (c : string) : float :=
  match get r c with
  | Num x => x
  | _ => NaN
  end.

(** [df[c]] on a numeric column. *)
Definition series (rs : list row) (c : string) : list float :=
  map (fun r => num r c) rs.

(** [a == b] on cells. *)
Definition cell_eqb (a b : cell) : bool :=
  match a, b with
  | Num x, Num y => eqb x y
  | Str s, Str t => String.eqb s t
  | Day d, Day e => Z.eqb d e
  | _, _ => false
  end.

(** Identity of group keys, as [unique()] sees them: NaN is one key. *)
Definition cell_same (a b : cell) : bool :=
  match a, b with
  | Num NaN, Num NaN => true
  | _, _ => cell_eqb a b
  end.

(** [unique()]: the distinct values in order of first appearance. *)
Fixpoint unique_from (seen : list cell) (l : list cell) : list cell :=
  match l with
  | [] => []
  | x :: l' =>
      if existsb (cell_same x) seen then unique_from seen l'
      else x :: unique_from (x :: seen) l'
  end.

Definition unique (rs : list row) (c : string) : list cell :=
  unique_from [] (map (fun r => get r c) rs).

(** [df[df[c] == v]]. *)
Definition select (rs : list row) (c : string) (v : cell) : list row :=
  filter (fun r => cell_eqb (get r c) v) rs.

(** No element is the same key as an earlier one. *)
Fixpoint distinct_keys (l : list cell) : Prop :=
  match l with
  | [] => True
  | x :: l' => existsb (cell_same x) l' = false /\ distinct_keys l'
  end.

(** Column types.  [num] and [series] read a column of dtype int64 or
    float64; on such a column they are what pandas returns.  A column of
    dtype object (text, or text mixed with numbers) is outside their
    domain: there the reductions and comparisons of the source raise
    [TypeError], and the correlation routine rejects infinite values.
    Statements that the source raises nothing, or raises in given cases
    only, are made for frames whose columns read as numbers are
    [numeric]: every cell a finite number or a missing value. *)
Definition is_number (c : cell) : bool :=
  match c with
  | Num (Fin _) | Num NaN => true
  | _ => false
  end.

Definition numeric_col (rs : list row) (c : string) : bool :=
  forallb (fun r => is_number (get r c)) rs.

Definition numeric (df : DataFrame) (cs : list string) : bool :=
  forallb (numeric_col (rows df)) cs.

(** The date column holds dates or missing values. *)
Definition is_date (c : cell) : bool :=
  match c with
  | Day _ | Num NaN => true
  | _ => false
  end.

Definition dated (df : DataFrame) : bool :=
  forallb (fun r => is_date (get r "date")) (rows df).

End Frame.

Import Frame.

(** Python dictionaries keep insertion order; they are association lists
    here, with assignment to an existing key updating it in place. *)
Module Dict.

Section WithKey.
Context {K V : Type} (keq : K -> K -> bool).

Fixpoint lookup (d : list (K * V)) (k : K) : option V :=
  match d with
  | [] => None
  | (k', v) :: d' => if keq k' k then Some v else lookup d' k
  end.

Fixpoint set (d : list (K * V)) (k : K) (v : V) : list (K * V) :=
  match d with
  | [] => [(k, v)]
  | (k', v') :: d' =>
      if keq k' k then (k', v) :: d' else (k', v') :: set d' k v
  end.

End WithKey.

End Dict.

(** Python built-ins on lists. *)
Module Py.

Section Keyed.
Context {A : Type} (key : A -> float).

(** [sorted(l, key=key, reverse=True)]: a stable sort, largest key first,
    elements with equal keys in their original order. *)
Fixpoint insert_desc (a : A) (l : list A) : list A :=
  match l with
  | [] => [a]
  | b :: l' =>
      if (key b >? key a)%float then b :: insert_desc a l'
      else a :: l
  end.

Definition sorted_desc (l : list A) : list A :=
  fold_right insert_desc [] l.

(** Neighbours in a list sorted largest key first. *)
Definition desc (x y : A) : Prop := (key y >? key x)%float = false.

(** [max(l, key=key)] and [min(l, key=key)]: the first extremal element. *)
Definition max_by (l : list A) : option A :=
  match l with
  | [] => None
  | x :: l' =>
      Some (fold_left (fun b y => if (key y >? key b)%float then y else b)
                      l' x)
  end.

Definition min_by (l : list A) : option A :=
  match l with
  | [] => None
  | x :: l' =>
      Some (fold_left (fun b y => if (key y <? key b)%float then y else b)
                      l' x)
  end.

End Keyed.

(** Ordering of values of any kind, as [<] sees them: two values of one
    kind are ordered, two values of different kinds are not comparable and
    [<] raises [TypeError]. *)
Definition same_kind (a b : cell) : bool :=
  match a, b with
  | Num _, Num _ | Str _, Str _ | Day _, Day _ => true
  | _, _ => false
  end.

Definition cell_ltb (a b : cell) : bool :=
  match a, b with
  | Num x, Num y => (x <? y)%float
  | Str s, Str t => String.ltb s t
  | Day d, Day e => (d <? e)%Z
  | _, _ => false
  end.

Section CellKeyed.
Context {A : Type} (key : A -> cell).

Fixpoint insert_by (reverse : bool) (a : A) (l : list A) : list A :=
  match l with
  | [] => [a]
  | b :: l' =>
      if (if reverse then cell_ltb (key a) (key b)
          else cell_ltb (key b) (key a))
      then b :: insert_by reverse a l'
      else a :: l
  end.

Definition comparable (l : list A) : bool :=
  match l with
  | [] => true
  | x :: l' => forallb (fun y => same_kind (key x) (key y)) l'
  end.

(** [sorted(l, key=key, reverse=reverse)]: a stable sort, smallest key
    first, or largest first when reversed.  A comparison sort of two or more
    elements compares keys of different kinds whenever the list has keys
    of different kinds, so that it raises exactly then ([None]).  On keys
    without NaN every stable sort returns the list computed here. *)
Definition sorted (reverse : bool) (l : list A) : option (list A) :=
  if comparable l then Some (fold_right (insert_by reverse) [] l)
  else None.

End CellKeyed.

(** [l[:n]]: a negative [n] counts from the end. *)
Definition slice_to {A : Type} (n : Z) (l : list A) : list A :=
  if (0 <=? n)%Z then firstn (Z.to_nat n) l
  else firstn (List.length l - Z.to_nat (- n)) l.


Section CellOrder.
Context {A : Type} (key : A -> cell).

(** [a] may stand before [b] in the sorted list. *)
Definition in_order (reverse : bool) (a b : A) : Prop :=
  if reverse then cell_ltb (key a) (key b) = false
  else cell_ltb (key b) (key a) = false.

(** The key is a number, and not NaN. *)
Definition number_key (x : A) : Prop :=
  exists q, key x = Num q /\ is_nan q = false.

End CellOrder.


End Py.

Notation "x <- e ;; k" :=
  (match e with Some x => k | None => None end)
  (at level 61, e at next level, right associativity, only parsing).

(* ------------------------------------------------------------------------- *)
(** ** [kpi_calculator.py] *)

Module KPICalculator.

Local Open Scope float_scope.

(** [rs[c].sum()]; indexing a column the frame does not have raises
    [KeyError], which is [None] here. *)
Definition col_sum (df : DataFrame) (rs : list row) (c : string)
  : option float :=
  if has_col df c then Some (Series.sum (series rs c)) else None.

Record overall_kpis : Type := {
  total_impressions : float;
  total_clicks : float;
  total_conversions : float;
  total_spend : float;
  total_revenue : float;
  total_visits : float;
  ctr : float;
  cpc : float;
  cvr : float;
  cpa : float;
  roas : float;
  avg_daily_impressions : float;
  avg_daily_clicks : float;
  avg_daily_conversions : float
}.

Definition calculate_basic_kpis (df : DataFrame) : option overall_kpis :=
  ti <- col_sum df (rows df) "impressions" ;;
  tc <- col_sum df (rows df) "clicks" ;;
  tv <- col_sum df (rows df) "conversions" ;;
  ts <- col_sum df (rows df) "spend" ;;
  tr <- col_sum df (rows df) "revenue" ;;
  let visits :=
    if has_col df "visits" then Series.sum (series (rows df) "visits")
    else zero in
  let num_days := List.length (rows df) in
  let daily (t : float) :=
    match num_days with O => zero | _ => t / of_nat num_days end in
  Some {| total_impressions := ti;
          total_clicks := tc;
          total_conversions := tv;
          total_spend := ts;
          total_revenue := tr;
          total_visits := visits;
          ctr := if ti >? zero then tc / ti * hundred else zero;
          cpc := if tc >? zero then ts / tc else zero;
          cvr := if tc >? zero then tv / tc * hundred else zero;
          cpa := if tv >? zero then ts / tv else zero;
          roas := if ts >? zero then tr / ts else zero;
          avg_daily_impressions := daily ti;
          avg_daily_clicks := daily tc;
          avg_daily_conversions := daily tv |}.

(** The record built per channel and per campaign. *)
Record group_kpi : Type := {
  g_key : cell;
  g_impressions : float;
  g_clicks : float;
  g_conversions : float;
  g_spend : float;
  g_revenue : float;
  g_ctr : float;
  g_cpc : float;
  g_cvr : float;
  g_cpa : float;
  g_roas : float
}.

Definition group_record (df : DataFrame) (c : string) (v : cell)
  : option group_kpi :=
  let sub := select (rows df) c v in
  ti <- col_sum df sub "impressions" ;;
  tc <- col_sum df sub "clicks" ;;
  tv <- col_sum df sub "conversions" ;;
  ts <- col_sum df sub "spend" ;;
  tr <- col_sum df sub "revenue" ;;
  Some {| g_key := v;
          g_impressions := ti;
          g_clicks := tc;
          g_conversions := tv;
          g_spend := ts;
          g_revenue := tr;
          g_ctr := if ti >? zero then tc / ti * hundred else zero;
          g_cpc := if tc >? zero then ts / tc else zero;
          g_cvr := if tc >? zero then tv / tc * hundred else zero;
          g_cpa := if tv >? zero then ts / tv else zero;
          g_roas := if ts >? zero then tr / ts else zero |}.

(** The loop over the distinct values of a grouping column, building the
    dictionary key by key; an exception in an iteration aborts the loop. *)
Fixpoint for_each {A : Type} (f : cell -> option A) (keys : list cell)
  : option (list (cell * A)) :=
  match keys with
  | [] => Some []
  | k :: ks =>
      a <- f k ;;
      rest <- for_each f ks ;;
      Some ((k, a) :: rest)
  end.

Definition calculate_by_channel (df : DataFrame)
  : option (list (cell * group_kpi)) :=
  if negb (has_col df "channel") then Some []
  else for_each (group_record df "channel") (unique (rows df) "channel").

Definition calculate_by_campaign (df : DataFrame)
  : option (list (cell * group_kpi)) :=
  if negb (has_col df "campaign") then Some []
  else for_each (group_record df "campaign") (unique (rows df) "campaign").

Record city_kpi : Type := {
  c_city : cell;
  c_visits : float;
  c_conversions : float;
  c_spend : float;
  c_revenue : float;
  c_conversion_rate : float;
  c_revenue_per_visit : float;
  c_roas : float
}.

Definition city_record (df : DataFrame) (v : cell) : option city_kpi :=
  let sub := select (rows df) "city" v in
  let visits :=
    if has_col df "visits" then Series.sum (series sub "visits") else zero in
  tv <- col_sum df sub "conversions" ;;
  ts <- col_sum df sub "spend" ;;
  tr <- col_sum df sub "revenue" ;;
  Some {| c_city := v;
          c_visits := visits;
          c_conversions := tv;
          c_spend := ts;
          c_revenue := tr;
          c_conversion_rate :=
            if visits >? zero then tv / visits * hundred else zero;
          c_revenue_per_visit :=
            if visits >? zero then tr / visits else zero;
          c_roas := if ts >? zero then tr / ts else zero |}.

Definition calculate_by_city (df : DataFrame)
  : option (list (cell * city_kpi)) :=
  if negb (has_col df "city") then Some []
  else for_each (city_record df) (unique (rows df) "city").

(** Day of week. 1970-01-01 was a Thursday. *)
Definition day_names : list string :=
  ["Monday"; "Tuesday"; "Wednesday"; "Thursday"; "Friday"; "Saturday";
   "Sunday"].

Definition day_name (c : cell) : option string :=
  match c with
  | Day d => nth_error day_names (Z.to_nat ((d + 3) mod 7))
  | _ => None
  end.

Record dow_kpi : Type := {
  w_day : string;
  w_impressions : float;
  w_clicks : float;
  w_conversions : float;
  w_spend : float;
  w_revenue : float;
  w_ctr : float;
  w_cpa : float;
  w_roas : float;
  w_avg_spend : float
}.

Definition dow_record (df : DataFrame) (day : string) (sub : list row)
  : option dow_kpi :=
  ti <- col_sum df sub "impressions" ;;
  tc <- col_sum df sub "clicks" ;;
  tv <- col_sum df sub "conversions" ;;
  ts <- col_sum df sub "spend" ;;
  tr <- col_sum df sub "revenue" ;;
  Some {| w_day := day;
          w_impressions := ti;
          w_clicks := tc;
          w_conversions := tv;
          w_spend := ts;
          w_revenue := tr;
          w_ctr := if ti >? zero then tc / ti * hundred else zero;
          w_cpa := if tv >? zero then ts / tv else zero;
          w_roas := if ts >? zero then tr / ts else zero;
          w_avg_spend :=
            match List.length sub with
            | O => zero
            | n => ts / of_nat n
            end |}.

Fixpoint dow_loop (df : DataFrame) (days : list string)
  : option (list (string * dow_kpi)) :=
  match days with
  | [] => Some []
  | day :: ds =>
      let sub :=
        filter (fun r => match day_name (get r "date") with
                         | Some n => String.eqb n day
                         | None => false
                         end) (rows df) in
      match sub with
      | [] => dow_loop df ds
      | _ =>
          k <- dow_record df day sub ;;
          rest <- dow_loop df ds ;;
          Some ((day, k) :: rest)
      end
  end.

Definition get_day_of_week_analysis (df : DataFrame)
  : option (list (string * dow_kpi)) :=
  if negb (has_col df "date") then Some [] else dow_loop df day_names.

(** [groupby('date')]: one group per distinct date, in increasing order;
    rows without a date belong to no group. *)
Fixpoint insert_day (d : Z) (l : list Z) : list Z :=
  match l with
  | [] => [d]
  | e :: l' =>
      if (d <? e)%Z then d :: l
      else if (d =? e)%Z then l
      else e :: insert_day d l'
  end.

Definition group_days (rs : list row) : list Z :=
  fold_left (fun acc r => match get r "date" with
                          | Day d => insert_day d acc
                          | _ => acc
                          end) rs [].

Record daily_kpi : Type := {
  d_date : Z;
  d_impressions : float;
  d_clicks : float;
  d_conversions : float;
  d_spend : float;
  d_revenue : float;
  d_visits : float;
  d_ctr : float;
  d_cpc : float;
  d_cvr : float;
  d_cpa : float;
  d_roas : float
}.

(** [.fillna(0)] on one element of a Series. *)
Definition fillna0 (x : float) : float := if is_nan x then zero else x.

Definition daily_record (rs : list row) (d : Z) : daily_kpi :=
  let sub := select rs "date" (Day d) in
  let ti := Series.sum (series sub "impressions") in
  let tc := Series.sum (series sub "clicks") in
  let tv := Series.sum (series sub "conversions") in
  let ts := Series.sum (series sub "spend") in
  let tr := Series.sum (series sub "revenue") in
  {| d_date := d;
     d_impressions := ti;
     d_clicks := tc;
     d_conversions := tv;
     d_spend := ts;
     d_revenue := tr;
     d_visits := Series.sum (series sub "visits");
     d_ctr := fillna0 (tc / ti * hundred);
     d_cpc := fillna0 (ts / tc);
     d_cvr := fillna0 (tv / tc * hundred);
     d_cpa := fillna0 (ts / tv);
     d_roas := fillna0 (tr / ts) |}.

(** The aggregation names six columns; a frame lacking one of them makes
    [agg] raise. *)
Definition calculate_by_date (df : DataFrame) : option (list daily_kpi) :=
  if negb (has_col df "date") then Some []
  else if forallb (has_col df)
            ["impressions"; "clicks"; "conversions"; "spend"; "revenue";
             "visits"]
  then Some (map (daily_record (rows df)) (group_days (rows df)))
  else None.

(** The columns every aggregation sums. *)
Definition required_columns : list string :=
  ["impressions"; "clicks"; "conversions"; "spend"; "revenue"].

(** *** Ranking of campaigns and the summary *)

(** The calculator object: its frame, [self.kpis['overall']] and the
    entries of [self.aggregations]; an entry not yet assigned is [None]. *)
Record calculator : Type := {
  kdf : DataFrame;
  kpis_overall : option overall_kpis;
  agg_by_channel : option (list (cell * group_kpi));
  agg_by_campaign : option (list (cell * group_kpi));
  agg_by_date : option (list daily_kpi);
  agg_by_city : option (list (cell * city_kpi));
  agg_by_day_of_week : option (list (string * dow_kpi))
}.

Definition init (combined_df : DataFrame) : calculator :=
  {| kdf := combined_df;
     kpis_overall := None;
     agg_by_channel := None;
     agg_by_campaign := None;
     agg_by_date := None;
     agg_by_city := None;
     agg_by_day_of_week := None |}.

(** [x.get(metric, default)] on a campaign record. *)
Definition kpi_get (metric : string) (default : float) (x : group_kpi)
  : cell :=
  if String.eqb metric "campaign" then g_key x
  else if String.eqb metric "impressions" then Num (g_impressions x)
  else if String.eqb metric "clicks" then Num (g_clicks x)
  else if String.eqb metric "conversions" then Num (g_conversions x)
  else if String.eqb metric "spend" then Num (g_spend x)
  else if String.eqb metric "revenue" then Num (g_revenue x)
  else if String.eqb metric "ctr" then Num (g_ctr x)
  else if String.eqb metric "cpc" then Num (g_cpc x)
  else if String.eqb metric "cvr" then Num (g_cvr x)
  else if String.eqb metric "cpa" then Num (g_cpa x)
  else if String.eqb metric "roas" then Num (g_roas x)
  else Num default.

(** [metric.startswith('c')] *)
Definition startswith_c (metric : string) : bool :=
  match metric with
  | String c _ => Ascii.eqb c "c"%char
  | EmptyString => false
  end.

(** The methods below return [None] when the Python method raises, and
    otherwise the result with the calculator as the call leaves it. *)

Definition run_calculate_by_campaign (self : calculator)
  : option (list (cell * group_kpi) * calculator) :=
  r <- calculate_by_campaign (kdf self) ;;
  if has_col (kdf self) "campaign" then
    Some (r, {| kdf := kdf self;
                kpis_overall := kpis_overall self;
                agg_by_channel := agg_by_channel self;
                agg_by_campaign := Some r;
                agg_by_date := agg_by_date self;
                agg_by_city := agg_by_city self;
                agg_by_day_of_week := agg_by_day_of_week self |})
  else Some (r, self).

(** The campaigns to rank: computed on demand, and read from
    [self.aggregations['by_campaign']], which raises [KeyError] when the
    entry is still not there. *)
Definition campaigns_of (self : calculator)
  : option (list group_kpi * calculator) :=
  self1 <- match agg_by_campaign self with
           | Some _ => Some self
           | None =>
               rc <- run_calculate_by_campaign self ;;
               Some (snd rc)
           end ;;
  by_campaign <- agg_by_campaign self1 ;;
  Some (map snd by_campaign, self1).

Definition get_top_performers (self : calculator) (metric : string) (n : Z)
  : option (list group_kpi * calculator) :=
  cs <- campaigns_of self ;;
  sorted_campaigns <-
    (if startswith_c metric
     then Py.sorted (kpi_get metric PInf) false (fst cs)
     else Py.sorted (kpi_get metric zero) true (fst cs)) ;;
  Some (Py.slice_to n sorted_campaigns, snd cs).

Definition get_worst_performers (self : calculator) (metric : string) (n : Z)
  : option (list group_kpi * calculator) :=
  cs <- campaigns_of self ;;
  sorted_campaigns <-
    (if startswith_c metric
     then Py.sorted (kpi_get metric zero) true (fst cs)
     else Py.sorted (kpi_get metric PInf) false (fst cs)) ;;
  Some (Py.slice_to n sorted_campaigns, snd cs).

Record kpi_summary : Type := {
  s_overall : option overall_kpis;
  s_by_channel : list (cell * group_kpi);
  s_by_campaign : list (cell * group_kpi);
  s_by_city : list (cell * city_kpi);
  s_by_day_of_week : list (string * dow_kpi);
  s_top_campaigns : list group_kpi;
  s_worst_campaigns : list group_kpi;
  s_daily_trend : list daily_kpi
}.

Definition list_or_empty {A : Type} (o : option (list A)) : list A :=
  match o with Some l => l | None => [] end.

Definition generate_kpi_summary (self : calculator)
  : option (kpi_summary * calculator) :=
  top <- get_top_performers self "roas" 5 ;;
  worst <- get_worst_performers (snd top) "roas" 5 ;;
  let self2 := snd worst in
  Some ({| s_overall := kpis_overall self;
           s_by_channel := list_or_empty (agg_by_channel self);
           s_by_campaign := list_or_empty (agg_by_campaign self);
           s_by_city := list_or_empty (agg_by_city self);
           s_by_day_of_week := list_or_empty (agg_by_day_of_week self);
           s_top_campaigns := fst top;
           s_worst_campaigns := fst worst;
           s_daily_trend := list_or_empty (agg_by_date self2) |},
        self2).

(** [get_day_of_week_analysis] stores the day names in a new column of
    [self.df]. *)
Definition with_day_of_week (d : DataFrame) : DataFrame :=
  mkFrame
    (if has_col d "day_of_week" then columns d
     else (columns d ++ ["day_of_week"])%list)
    (map (fun r => ("day_of_week",
                    match day_name (get r "date") with
                    | Some name => Str name
                    | None => Num NaN
                    end) :: r)
         (rows d)).

Definition calculate_all (self : calculator)
  : option (kpi_summary * calculator) :=
  let d := kdf self in
  overall <- calculate_basic_kpis d ;;
  channel <- calculate_by_channel d ;;
  campaign <- calculate_by_campaign d ;;
  date <- calculate_by_date d ;;
  city <- calculate_by_city d ;;
  dow <- get_day_of_week_analysis d ;;
  let keep {A : Type} (c : string) (old : option A) (new : A) :=
    if has_col d c then Some new else old in
  generate_kpi_summary
    {| kdf := if has_col d "date" then with_day_of_week d else d;
       kpis_overall := Some overall;
       agg_by_channel := keep "channel" (agg_by_channel self) channel;
       agg_by_campaign := keep "campaign" (agg_by_campaign self) campaign;
       agg_by_date := keep "date" (agg_by_date self) date;
       agg_by_city := keep "city" (agg_by_city self) city;
       agg_by_day_of_week :=
         keep "date" (agg_by_day_of_week self) dow |}.


End KPICalculator.

(* ------------------------------------------------------------------------- *)
(** ** [anomaly_detector.py] *)

Module AnomalyDetector.

Local Open Scope float_scope.

Inductive severity : Type := critical | warning | info.

Definition severity_eqb (a b : severity) : bool :=
  match a, b with
  | critical, critical | warning, warning | info, info => true
  | _, _ => false
  end.

(** An anomaly dictionary.  The formatted ['text'] entry is left out; the
    entries a constructor does not set are [None]. *)
Record anomaly : Type := {
  a_date : option cell;
  a_metric : string;
  a_value : float;
  a_z_score : float;
  a_severity : severity;
  a_pct_change : float;
  a_baseline_mean : option float;
  a_group : option cell;
  a_group_col : option string
}.

(** The detector object: its fields, with [self.anomalies] the only one
    that is assigned after construction. *)
Record detector : Type := {
  df : DataFrame;
  z_score_threshold : float;
  lookback_days : Z;
  anomalies : list anomaly
}.

Definition init (combined_df : DataFrame) (threshold : float) (days : Z)
  : detector :=
  {| df := combined_df;
     z_score_threshold := threshold;
     lookback_days := days;
     anomalies := [] |}.

Definition default_threshold : float := Fin 2.

Definition _calculate_severity (z_score : float) : severity :=
  if z_score >? Fin 3 then critical
  else if z_score >? Fin (5 # 2) then warning
  else info.

(** What every record built by a detection loop satisfies. *)
Definition flagged_ok (self : detector) (a : anomaly) : Prop :=
  (a_z_score a >? z_score_threshold self) = true /\
  (a_z_score a ==? z_score_threshold self) = false /\
  a_severity a = _calculate_severity (a_z_score a).

(** The order of the severity levels. *)
Definition severity_rank (s : severity) : nat :=
  match s with info => 0 | warning => 1 | critical => 2 end.

Definition date_of (d : DataFrame) (r : row) : option cell :=
  if has_col d "date" then Some (get r "date") else None.

Definition pct_change_from (value mean : float) : float :=
  if mean !=? zero then (value - mean) / mean * hundred else zero.

(** The detection functions call the reductions [mean()] and [std()] of
    pandas.  They are written here over any two reductions, so that what
    is proved of them does not depend on how the library sums and rounds;
    below they are instantiated with [Series.mean] and [Series.std]. *)
Section Reductions.

Variables mean std : list float -> float.

(** The returned Series, by row position; the empty Series is [[]]. *)
Definition calculate_z_scores_with (self : detector) (metric : string)
  : list float :=
  if negb (has_col (df self) metric) then []
  else
    let col := series (rows (df self)) metric in
    let data := Series.dropna col in
    if (List.length data <? 2)%nat then []
    else
      let mean := mean data in
      let std := std data in
      if std ==? zero then map (fun _ => zero) col
      else map (fun x => abs ((x - mean) / std)) col.

(** The Z-scores [_detect_within_group] computes for one group: no test of
    the deviation against zero is made here. *)
Definition group_z_scores_with (group_data : list row) (metric : string)
  : list float :=
  let col := series group_data metric in
  map (fun x => abs ((x - mean col) / std col)) col.

Definition _detect_within_group_with (self : detector)
  (group_data : list row) (metric : string) (group_value : cell)
  (group_col : string) : list anomaly :=
  if (List.length group_data <? 3)%nat then []
  else
    let col := series group_data metric in
    let z_scores := group_z_scores_with group_data metric in
    flat_map
      (fun rz : row * float =>
         let (r, z_score) := rz in
         if z_score >? z_score_threshold self then
           let value := num r metric in
           let mean := mean col in
           [{| a_date := date_of (df self) r;
               a_metric := metric;
               a_value := value;
               a_z_score := z_score;
               a_severity := _calculate_severity z_score;
               a_pct_change := pct_change_from value mean;
               a_baseline_mean := Some mean;
               a_group := Some group_value;
               a_group_col := Some group_col |}]
         else [])
      (combine group_data z_scores).

Definition detect_anomalies_by_metric_with (self : detector)
  (metric : string) (by_group : option string) : list anomaly :=
  if negb (has_col (df self) metric) then []
  else
    let grouped :=
      match by_group with
      | Some g => if negb (String.eqb g "") && has_col (df self) g
                  then Some g else None
      | None => None
      end in
    match grouped with
    | Some g =>
        flat_map
          (fun group_value =>
             _detect_within_group_with self
               (select (rows (df self)) g group_value)
               metric group_value g)
          (unique (rows (df self)) g)
    | None =>
        let z_scores := calculate_z_scores_with self metric in
        flat_map
          (fun rz : row * float =>
             let (r, z_score) := rz in
             if z_score >? z_score_threshold self then
               let value := num r metric in
               let mean := mean (series (rows (df self)) metric) in
               [{| a_date := date_of (df self) r;
                   a_metric := metric;
                   a_value := value;
                   a_z_score := z_score;
                   a_severity := _calculate_severity z_score;
                   a_pct_change := pct_change_from value mean;
                   a_baseline_mean := Some mean;
                   a_group := None;
                   a_group_col := None |}]
             else [])
          (combine (rows (df self)) z_scores)
    end.

End Reductions.

Definition calculate_z_scores : detector -> string -> list float :=
  calculate_z_scores_with Series.mean Series.std.

Definition group_z_scores : list row -> string -> list float :=
  group_z_scores_with Series.mean Series.std.

Definition _detect_within_group
  : detector -> list row -> string -> cell -> string -> list anomaly :=
  _detect_within_group_with Series.mean Series.std.

Definition detect_anomalies_by_metric
  : detector -> string -> option string -> list anomaly :=
  detect_anomalies_by_metric_with Series.mean Series.std.

(** [select_dtypes(include=[np.number]).columns]. *)
Definition numeric_columns (d : DataFrame) : list string :=
  filter (fun c => forallb (fun r => match get r c with
                                     | Num _ => true
                                     | _ => false
                                     end) (rows d))
         (columns d).

(** The sweep over several metrics.  It returns the per-metric dictionary
    and the detector with [self.anomalies] assigned. *)
Definition detect_all_anomalies (self : detector)
  (metrics_to_check : option (list string))
  : list (string * list anomaly) * detector :=
  let metrics :=
    match metrics_to_check with
    | Some ms => ms
    | None => numeric_columns (df self)
    end in
  let all_anomalies :=
    fold_left
      (fun (acc : list (string * list anomaly)) metric =>
         match detect_anomalies_by_metric self metric None with
         | [] => acc
         | found => Dict.set String.eqb acc metric found
         end)
      metrics [] in
  (all_anomalies,
   {| df := df self;
      z_score_threshold := z_score_threshold self;
      lookback_days := lookback_days self;
      anomalies := flat_map snd all_anomalies |}).

Definition get_critical_anomalies (self : detector) : list anomaly :=
  filter (fun a => severity_eqb (a_severity a) critical) (anomalies self).

Definition get_top_anomalies (self : detector) (n : nat)
  (sev : option severity) : list anomaly :=
  let filtered :=
    match sev with
    | Some s => filter (fun a => severity_eqb (a_severity a) s)
                       (anomalies self)
    | None => anomalies self
    end in
  firstn n (Py.sorted_desc a_z_score filtered).

(** The grouping of anomalies by metric name, keys in order of first
    appearance. *)
Definition by_metric (l : list anomaly) : list (string * list anomaly) :=
  fold_left
    (fun (acc : list (string * list anomaly)) a =>
       match Dict.lookup String.eqb acc (a_metric a) with
       | Some old => Dict.set String.eqb acc (a_metric a) (old ++ [a])%list
       | None => Dict.set String.eqb acc (a_metric a) [a]
       end)
    l [].

Inductive rec_type : Type :=
| urgent_investigation
| recurring_anomaly (metric : string)
| spike_investigation
| drop_investigation.

Inductive priority : Type := p_critical | p_high | p_medium.

Record recommendation : Type := {
  r_type : rec_type;
  r_priority : priority;
  r_count : option nat;
  r_detail : option anomaly
}.

Definition generate_anomaly_recommendations (self : detector)
  : list recommendation :=
  let crit := get_critical_anomalies self in
  let urgent :=
    match crit with
    | [] => []
    | _ => [{| r_type := urgent_investigation;
               r_priority := p_critical;
               r_count := Some (List.length crit);
               r_detail := None |}]
    end in
  let recurring :=
    flat_map
      (fun kv : string * list anomaly =>
         let (metric, anomalies_list) := kv in
         if (2 <? List.length anomalies_list)%nat then
           [{| r_type := recurring_anomaly metric;
               r_priority := p_high;
               r_count := Some (List.length anomalies_list);
               r_detail := None |}]
         else [])
      (by_metric (anomalies self)) in
  let spikes :=
    map
      (fun a =>
         if a_pct_change a >? zero then
           {| r_type := spike_investigation;
              r_priority := p_high;
              r_count := None;
              r_detail := Some a |}
         else
           {| r_type := drop_investigation;
              r_priority := p_critical;
              r_count := None;
              r_detail := Some a |})
      (firstn 3 crit) in
  (urgent ++ recurring ++ spikes)%list.

Definition is_spike_or_drop (r : recommendation) : bool :=
  match r_type r with
  | spike_investigation | drop_investigation => true
  | _ => false
  end.

(** The "recent window" view: flags restricted to the rows dated within
    [days] of the latest date, with Z-scores of the whole frame. *)
Definition max_day (rs : list row) : option Z :=
  fold_left (fun acc r => match get r "date", acc with
                          | Day d, Some m => Some (Z.max d m)
                          | Day d, None => Some d
                          | _, _ => acc
                          end) rs None.

Definition detect_recent_anomalies (self : detector) (metric : string)
  (days : Z) : list anomaly :=
  if negb (has_col (df self) "date") || negb (has_col (df self) metric)
  then []
  else
    match max_day (rows (df self)) with
    | None => []
    | Some latest =>
        let recent_date := (latest - days)%Z in
        flat_map
          (fun rz : row * float =>
             let (r, z_score) := rz in
             match get r "date" with
             | Day d =>
                 if (recent_date <=? d)%Z
                    && (z_score >? z_score_threshold self) then
                   let value := num r metric in
                   let mean :=
                     Series.mean (series (rows (df self)) metric) in
                   [{| a_date := Some (Day d);
                       a_metric := metric;
                       a_value := value;
                       a_z_score := z_score;
                       a_severity := _calculate_severity z_score;
                       a_pct_change := pct_change_from value mean;
                       a_baseline_mean := None;
                       a_group := None;
                       a_group_col := None |}]
                 else []
             | _ => []
             end)
          (combine (rows (df self)) (calculate_z_scores self metric))
    end.

Inductive insight : Type :=
| critical_anomalies (count : nat)
| top_critical_detail (detail : anomaly)
| warning_anomalies (count : nat)
| metric_insight (metric : string) (count : nat) (avg_deviation : float).

(** [np.mean] of a Python list: no value is skipped. *)
Definition np_mean (l : list float) : float :=
  match l with
  | [] => NaN
  | _ => fold_left add l zero / of_nat (List.length l)
  end.

Definition generate_anomaly_insights (self : detector) : list insight :=
  let crit :=
    filter (fun a => severity_eqb (a_severity a) critical)
           (anomalies self) in
  let warnings :=
    filter (fun a => severity_eqb (a_severity a) warning)
           (anomalies self) in
  let critical_part :=
    match Py.sorted_desc a_z_score crit with
    | [] => []
    | top_critical :: _ =>
        [critical_anomalies (List.length crit);
         top_critical_detail top_critical]
    end in
  let warning_part :=
    match warnings with
    | [] => []
    | _ => [warning_anomalies (List.length warnings)]
    end in
  let metric_part :=
    flat_map
      (fun kv : string * list anomaly =>
         let (metric, anomaly_list) := kv in
         if (0 <? List.length anomaly_list)%nat then
           [metric_insight metric (List.length anomaly_list)
              (np_mean (map (fun a => abs (a_pct_change a)) anomaly_list))]
         else [])
      (by_metric (anomalies self)) in
  (critical_part ++ warning_part ++ metric_part)%list.

(** *** The summary and the complete run *)

Record summary : Type := {
  total_anomalies : nat;
  s_critical : nat;
  s_warning : nat;
  s_info : nat;
  s_anomalies : list anomaly;
  s_top_anomalies : list anomaly;
  s_insights : list insight;
  s_recommendations : list recommendation
}.

Definition get_summary (self : detector) : summary :=
  {| total_anomalies := List.length (anomalies self);
     s_critical := List.length (get_critical_anomalies self);
     s_warning :=
       List.length
         (filter (fun a => severity_eqb (a_severity a) warning)
                 (anomalies self));
     s_info :=
       List.length
         (filter (fun a => severity_eqb (a_severity a) info)
                 (anomalies self));
     s_anomalies := anomalies self;
     s_top_anomalies := get_top_anomalies self 5 None;
     s_insights := generate_anomaly_insights self;
     s_recommendations := generate_anomaly_recommendations self |}.

Definition analyze_all (self : detector)
  (metrics_to_check : option (list string)) : summary * detector :=
  let self1 := snd (detect_all_anomalies self metrics_to_check) in
  (get_summary self1, self1).

(** The count an insight reports for one metric. *)
Definition metric_count (i : insight) : nat :=
  match i with
  | metric_insight _ count _ => count
  | _ => 0
  end.

(** The anomalies of one metric, in their order. *)
Definition of_metric (m : string) (l : list anomaly) : list anomaly :=
  filter (fun a => String.eqb (a_metric a) m) l.

(** One turn of the loop that groups anomalies by metric, and the group
    of a metric after more anomalies of it were seen. *)
Definition step (acc : list (string * list anomaly)) (a : anomaly)
  : list (string * list anomaly) :=
  match Dict.lookup String.eqb acc (a_metric a) with
  | Some old => Dict.set String.eqb acc (a_metric a) (old ++ [a])%list
  | None => Dict.set String.eqb acc (a_metric a) [a]
  end.

Definition join (o : option (list anomaly)) (f : list anomaly)
  : option (list anomaly) :=
  match o, f with
  | None, [] => None
  | None, _ => Some f
  | Some old, _ => Some (old ++ f)%list
  end.

(** The fields a recent-window record shares with the record of the
    ungrouped detection. *)
Definition same_finding (a b : anomaly) : Prop :=
  a_date a = a_date b /\ a_metric a = a_metric b /\
  a_value a = a_value b /\ a_z_score a = a_z_score b /\
  a_severity a = a_severity b /\ a_pct_change a = a_pct_change b.


End AnomalyDetector.

(* ------------------------------------------------------------------------- *)
(** ** [weather_analyzer.py] *)

Module WeatherAnalyzer.

Local Open Scope float_scope.

Record correlation_result : Type := {
  correlation : float;
  p_value : float;
  significant : bool
}.

(** [{metric: {weather_type: result}}] *)
Definition correlation_table : Type :=
  list (string * list (string * correlation_result)).

Record analyzer : Type := {
  df : DataFrame;
  correlations : correlation_table
}.

Definition init (combined_df : DataFrame) : analyzer :=
  {| df := combined_df; correlations := [] |}.

Definition weather_cols : list string := ["temperature_c"; "rainfall_mm"].

Definition performance_cols : list string :=
  ["conversions"; "revenue"; "visits"; "clicks"; "impressions"].

Definition check_weather_data_available (self : analyzer) : bool :=
  forallb (has_col (df self)) weather_cols.

(** [df[[a, b]].dropna()]: the rows where both values are present. *)
Definition dropna2 (rs : list row) (a b : string) : list row :=
  filter (fun r => negb (is_nan (num r a)) && negb (is_nan (num r b))) rs.

Section Correlation.

(** [scipy.stats.pearsonr]: the coefficient and its two-sided p-value. *)
Variable pearsonr : list float -> list float -> float * float.

Definition correlate_pair (self : analyzer) (perf_col weather_col : string)
  : list (string * correlation_result) :=
  let valid_data := dropna2 (rows (df self)) perf_col weather_col in
  if (2 <? List.length valid_data)%nat then
    let (corr, p) :=
      pearsonr (series valid_data weather_col)
               (series valid_data perf_col) in
    [(weather_col,
      {| correlation := corr;
         p_value := p;
         significant := p <? double_0_05 |})]
  else [].

(** Returns the table and the analyzer with [self.correlations] assigned;
    without weather data the early return leaves the analyzer as it is. *)
Definition calculate_correlations (self : analyzer)
  : correlation_table * analyzer :=
  if negb (check_weather_data_available self) then ([], self)
  else
    let available_perf_cols :=
      filter (has_col (df self)) performance_cols in
    let table :=
      map (fun perf_col =>
             (perf_col,
              flat_map (correlate_pair self perf_col) weather_cols))
          available_perf_cols in
    (table, {| df := df self; correlations := table |}).

End Correlation.

(** A pair of metric and weather variable listed in a table, with its
    result. *)
Definition reported (t : correlation_table) (metric weather_type : string)
  (data : correlation_result) : Prop :=
  exists inner, In (metric, inner) t /\ In (weather_type, data) inner.

Definition is_strong (threshold : float) (data : correlation_result) : bool :=
  (abs (correlation data) >=? threshold) && significant data.

(** The keys of [self.correlations] are distinct, so that filling
    [strong[metric][weather_type]] entry by entry is a filter of each inner
    dictionary, a metric being listed when an entry of it passes. *)
Definition get_strong_correlations (self : analyzer) (threshold : float)
  : correlation_table :=
  flat_map
    (fun mw : string * list (string * correlation_result) =>
       let (metric, weather_corr) := mw in
       match filter (fun wd => is_strong threshold (snd wd)) weather_corr with
       | [] => []
       | kept => [(metric, kept)]
       end)
    (correlations self).

Definition default_strong_threshold : float := double_0_6.

(** *** Rainy against dry days *)

Record rainy_metric : Type := {
  rainy_avg : float;
  non_rainy_avg : float;
  rm_pct_change : float;
  increase : bool
}.

Record rainy_analysis : Type := {
  rainy_days_count : nat;
  non_rainy_days_count : nat;
  rainy_metrics : list (string * rainy_metric)
}.

Definition analyze_rainy_days (self : analyzer) : option rainy_analysis :=
  if negb (has_col (df self) "rainfall_mm") then None
  else
    let rainy_threshold := Fin 1 in
    let rainy_days :=
      filter (fun r => num r "rainfall_mm" >? rainy_threshold)
             (rows (df self)) in
    let non_rainy_days :=
      filter (fun r => num r "rainfall_mm" <=? rainy_threshold)
             (rows (df self)) in
    let available_metrics :=
      filter (has_col (df self))
             ["conversions"; "revenue"; "visits"; "clicks"] in
    Some
      {| rainy_days_count := List.length rainy_days;
         non_rainy_days_count := List.length non_rainy_days;
         rainy_metrics :=
           flat_map
             (fun metric =>
                match rainy_days, non_rainy_days with
                | _ :: _, _ :: _ =>
                    let ra := Series.mean (series rainy_days metric) in
                    let na := Series.mean (series non_rainy_days metric) in
                    let pct :=
                      if na >? zero then (ra - na) / na * hundred
                      else zero in
                    [(metric,
                      {| rainy_avg := ra;
                         non_rainy_avg := na;
                         rm_pct_change := pct;
                         increase := pct >? zero |})]
                | _, _ => []
                end)
             available_metrics |}.

(** *** Temperature bands *)

Definition temp_ranges : list (string * (float * float)) :=
  [("cold", (Fin 0, Fin 10));
   ("cool", (Fin 10, Fin 15));
   ("mild", (Fin 15, Fin 20));
   ("warm", (Fin 20, Fin 25));
   ("hot", (Fin 25, Fin 50))].

Record metric_stats : Type := {
  avg : float;
  total : float;
  max : float;
  min : float
}.

Record range_analysis : Type := {
  count : nat;
  metrics : list (string * metric_stats)
}.

Definition in_range (min_t max_t : float) (r : row) : bool :=
  (num r "temperature_c" >=? min_t) && (num r "temperature_c" <? max_t).

Definition analyze_temperature_ranges (self : analyzer)
  : list (string * range_analysis) :=
  if negb (has_col (df self) "temperature_c") then []
  else
    let available_metrics :=
      filter (has_col (df self))
             ["conversions"; "revenue"; "visits"; "clicks"] in
    flat_map
      (fun band : string * (float * float) =>
         let '(temp_name, (min_t, max_t)) := band in
         let temp_data := filter (in_range min_t max_t) (rows (df self)) in
         match temp_data with
         | [] => []
         | _ =>
             [(temp_name,
               {| count := List.length temp_data;
                  metrics :=
                    map (fun metric =>
                           (metric,
                            {| avg := Series.mean (series temp_data metric);
                               total := Series.sum (series temp_data metric);
                               max := Series.max (series temp_data metric);
                               min := Series.min (series temp_data metric)
                            |}))
                        available_metrics |})]
         end)
      temp_ranges.

(** *** Insights and recommendations *)

Inductive insight : Type :=
| correlation_insight (metric weather_factor : string) (corr : float)
    (increases strong : bool)
| rainy_day (metric : string) (pct_change : float)
| temperature_range (best_temp worst_temp : string).

(** The sort key of a band: its average conversions, 0 when absent. *)
Definition conversions_avg (item : string * range_analysis) : float :=
  match Dict.lookup String.eqb (metrics (snd item)) "conversions" with
  | Some st => avg st
  | None => zero
  end.

Definition correlation_insights (self : analyzer) : list insight :=
  flat_map
    (fun mw : string * list (string * correlation_result) =>
       map (fun wd : string * correlation_result =>
              let corr_value := correlation (snd wd) in
              correlation_insight (fst mw) (fst wd) corr_value
                (corr_value >? zero)
                (abs corr_value >? double_0_7))
           (snd mw))
    (get_strong_correlations self default_strong_threshold).

Definition rainy_insights (self : analyzer) : list insight :=
  match analyze_rainy_days self with
  | None => []
  | Some ra =>
      flat_map
        (fun md : string * rainy_metric =>
           let pct := rm_pct_change (snd md) in
           if abs pct >? Fin 10 then [rainy_day (fst md) pct] else [])
        (rainy_metrics ra)
  end.

Definition temperature_insights (self : analyzer) : list insight :=
  let temp_analysis := analyze_temperature_ranges self in
  match Py.max_by conversions_avg temp_analysis,
        Py.min_by conversions_avg temp_analysis with
  | Some best_temp, Some worst_temp =>
      if negb (String.eqb (fst best_temp) (fst worst_temp)) then
        [temperature_range (fst best_temp) (fst worst_temp)]
      else []
  | _, _ => []
  end.

Definition generate_weather_insights (self : analyzer) : list insight :=
  (correlation_insights self ++ rainy_insights self
     ++ temperature_insights self)%list.

Inductive recommendation : Type :=
| increase_budget_when_favorable (weather_type metric : string)
| shift_to_digital_when_unfavorable (weather_type metric : string)
| capitalize_on_rainy_days (pct_change : float)
| reduce_spend_on_rainy_days (pct_change : float)
| optimize_for_best_temperature (best_temp : string).

Definition correlation_recommendations (self : analyzer)
  : list recommendation :=
  flat_map
    (fun mw : string * list (string * correlation_result) =>
       flat_map
         (fun wd : string * correlation_result =>
            if correlation (snd wd) >? double_0_6 then
              [increase_budget_when_favorable (fst wd) (fst mw)]
            else if correlation (snd wd) <? opp double_0_6 then
              [shift_to_digital_when_unfavorable (fst wd) (fst mw)]
            else [])
         (snd mw))
    (get_strong_correlations self default_strong_threshold).

Definition rainy_recommendations (self : analyzer) : list recommendation :=
  match analyze_rainy_days self with
  | None => []
  | Some ra =>
      let pct :=
        match Dict.lookup String.eqb (rainy_metrics ra) "conversions" with
        | Some m => rm_pct_change m
        | None => zero
        end in
      if pct >? Fin 10 then [capitalize_on_rainy_days pct]
      else if pct <? Fin (- 10) then [reduce_spend_on_rainy_days pct]
      else []
  end.

Definition temperature_recommendations (self : analyzer)
  : list recommendation :=
  let temp_analysis := analyze_temperature_ranges self in
  if (1 <? List.length temp_analysis)%nat then
    match Py.max_by conversions_avg temp_analysis with
    | Some best_temp => [optimize_for_best_temperature (fst best_temp)]
    | None => []
    end
  else [].

Definition generate_recommendations (self : analyzer)
  : list recommendation :=
  (correlation_recommendations self ++ rainy_recommendations self
     ++ temperature_recommendations self)%list.

(** *** Per-channel impact, the summary and the complete run *)

Record channel_impact : Type := {
  temperature_correlation : correlation_result;
  rainfall_correlation : correlation_result
}.

(** [df[[a, b, c]].dropna()] *)
Definition dropna3 (rs : list row) (a b c : string) : list row :=
  filter (fun r => negb (is_nan (num r a)) && negb (is_nan (num r b))
                   && negb (is_nan (num r c))) rs.

Record weather_summary : Type := {
  data_available : bool;
  sum_correlations : correlation_table;
  strong_correlations : correlation_table;
  rainy_day_analysis : option rainy_analysis;
  temperature_range_analysis : list (string * range_analysis);
  by_channel_impact : list (cell * channel_impact);
  sum_insights : list insight;
  sum_recommendations : list recommendation
}.

Section Impact.

Variable pearsonr : list float -> list float -> float * float.

(** The loop over the channels.  Selecting the three columns raises
    [KeyError] when the frame has no conversions column ([None]). *)
Fixpoint impact_loop (self : analyzer) (channels : list cell)
  : option (list (cell * channel_impact)) :=
  match channels with
  | [] => Some []
  | channel :: rest =>
      if negb (has_col (df self) "conversions") then None
      else
        let channel_df := select (rows (df self)) "channel" channel in
        let valid_data :=
          dropna3 channel_df "conversions" "temperature_c" "rainfall_mm" in
        rest_impact <- impact_loop self rest ;;
        if (2 <? List.length valid_data)%nat then
          let (temp_corr, temp_p) :=
            pearsonr (series valid_data "temperature_c")
                     (series valid_data "conversions") in
          let (rain_corr, rain_p) :=
            pearsonr (series valid_data "rainfall_mm")
                     (series valid_data "conversions") in
          Some ((channel,
                 {| temperature_correlation :=
                      {| correlation := temp_corr; p_value := temp_p;
                         significant := temp_p <? double_0_05 |};
                    rainfall_correlation :=
                      {| correlation := rain_corr; p_value := rain_p;
                         significant := rain_p <? double_0_05 |} |})
                :: rest_impact)
        else Some rest_impact
  end.

Definition get_by_channel_weather_impact (self : analyzer)
  : option (list (cell * channel_impact)) :=
  if negb (has_col (df self) "channel")
     || negb (check_weather_data_available self)
  then Some []
  else impact_loop self (unique (rows (df self)) "channel").

(** The summary; [self.insights] and [self.recommendations] are passed
    in. *)
Definition generate_summary (self : analyzer) (insights : list insight)
  (recommendations : list recommendation) : option weather_summary :=
  impact <- get_by_channel_weather_impact self ;;
  Some {| data_available := check_weather_data_available self;
          sum_correlations := correlations self;
          strong_correlations :=
            get_strong_correlations self default_strong_threshold;
          rainy_day_analysis := analyze_rainy_days self;
          temperature_range_analysis := analyze_temperature_ranges self;
          by_channel_impact := impact;
          sum_insights := insights;
          sum_recommendations := recommendations |}.

(** The complete run: [None] when it raises, [Some (None, _)] for the
    empty dictionary returned without weather data. *)
Definition analyze_all (self : analyzer)
  : option (option weather_summary * analyzer) :=
  if negb (check_weather_data_available self) then Some (None, self)
  else
    let self1 := snd (calculate_correlations pearsonr self) in
    summary <- generate_summary self1 (generate_weather_insights self1)
                                (generate_recommendations self1) ;;
    Some (Some summary, self1).

End Impact.

(** The number of rows of a band, 0 for a band that is not reported. *)
Definition band_rows (analysis : list (string * range_analysis)) : nat :=
  list_sum (map (fun item => count (snd item)) analysis).


End WeatherAnalyzer.

(* ------------------------------------------------------------------------- *)
(** ** [benchmarking.py] *)

Module BenchmarkAnalyzer.

Local Open Scope float_scope.

Definition kpi_dict : Type := list (string * float).

(** The KPI summary handed over by the aggregator; an absent key is
    [None]. *)
Record kpi_summary_t : Type := {
  overall : option kpi_dict;
  by_channel : option (list (string * kpi_dict))
}.

Inductive status_t : Type := above | below.
Inductive performance_t : Type := better | worse.
Inductive tier_t : Type :=
  in_line | top_20 | top_40 | bottom_20 | bottom_40 | average.

Definition tier_eqb (a b : tier_t) : bool :=
  match a, b with
  | in_line, in_line | top_20, top_20 | top_40, top_40
  | bottom_20, bottom_20 | bottom_40, bottom_40 | average, average => true
  | _, _ => false
  end.

(** A comparison dictionary.  The overall comparison sets every entry; the
    channel comparison stores no ['difference'], ['status'] or
    ['performance'], which are [None] there.  The badge and the text are
    functions of the other entries and left out. *)
Record comparison : Type := {
  client_value : float;
  benchmark_value : float;
  difference : option float;
  pct_difference : float;
  status : option status_t;
  performance : option performance_t;
  tier : tier_t
}.

Definition comparison_dict : Type := list (string * comparison).

Record analyzer : Type := {
  kpi_summary : kpi_summary_t;
  benchmarks : list (string * kpi_dict);
  comparisons_overall : option comparison_dict;
  comparisons_by_channel : option (list (string * comparison_dict))
}.

Definition init (summary : kpi_summary_t)
  (loaded : list (string * kpi_dict)) : analyzer :=
  {| kpi_summary := summary;
     benchmarks := loaded;
     comparisons_overall := None;
     comparisons_by_channel := None |}.

Definition kpi_bench_map : list (string * string) :=
  [("ctr", "avg_ctr");
   ("cpc", "avg_cpc");
   ("cvr", "avg_conversion_rate");
   ("cpa", "avg_cpa");
   ("roas", "avg_roas")].

Definition is_cost (kpi_name : string) : bool :=
  existsb (String.eqb kpi_name) ["cpc"; "cpa"].

Definition pct_of (diff benchmark : float) : float :=
  if benchmark !=? zero then diff / benchmark * hundred else zero.

Definition overall_tier (pct : float) : tier_t :=
  if abs pct <? Fin 5 then in_line
  else if pct >? Fin 20 then top_20
  else if pct >? Fin 10 then top_40
  else if pct <? Fin (- 20) then bottom_20
  else if pct <? Fin (- 10) then bottom_40
  else average.

Definition channel_tier (pct : float) : tier_t :=
  if abs pct <? Fin 5 then in_line
  else if pct >? Fin 15 then top_20
  else if pct >? Fin 5 then top_40
  else if pct <? Fin (- 15) then bottom_20
  else if pct <? Fin (- 5) then bottom_40
  else average.

Definition compare_overall_entry (kpi_name : string) (client bench : float)
  : comparison :=
  let diff := client - bench in
  let pct := pct_of diff bench in
  {| client_value := client;
     benchmark_value := bench;
     difference := Some diff;
     pct_difference := pct;
     status := Some (if diff >? zero then above else below);
     performance :=
       Some (if is_cost kpi_name
             then (if diff >? zero then worse else better)
             else (if diff >? zero then better else worse));
     tier := overall_tier pct |}.

Definition compare_channel_entry (kpi_name : string) (client bench : float)
  : comparison :=
  let diff := client - bench in
  let pct := pct_of diff bench in
  {| client_value := client;
     benchmark_value := bench;
     difference := None;
     pct_difference := pct;
     status := None;
     performance := None;
     tier := channel_tier pct |}.

(** The loop over [kpi_bench_map] shared by both comparisons: an entry is
    made when both sides have a value. *)
Definition compare_dicts (entry : string -> float -> float -> comparison)
  (client bench : kpi_dict) : comparison_dict :=
  flat_map
    (fun kb : string * string =>
       let (kpi_name, bench_name) := kb in
       match Dict.lookup String.eqb client kpi_name,
             Dict.lookup String.eqb bench bench_name with
       | Some c, Some b => [(kpi_name, entry kpi_name c b)]
       | _, _ => []
       end)
    kpi_bench_map.

(** The sign rule of the overall comparison, for the entry of one KPI. *)
Definition sign_rule (kpi_name : string) (e : comparison) : Prop :=
  exists diff,
    difference e = Some diff /\
    diff = client_value e - benchmark_value e /\
    status e = Some (if diff >? zero then above else below) /\
    (In kpi_name ["cpc"; "cpa"] ->
     performance e = Some (if diff >? zero then worse else better)) /\
    (In kpi_name ["ctr"; "cvr"; "roas"] ->
     performance e = Some (if diff >? zero then better else worse)) /\
    In kpi_name ["ctr"; "cpc"; "cvr"; "cpa"; "roas"].

Definition or_empty {A : Type} (o : option (list A)) : list A :=
  match o with Some l => l | None => [] end.

Definition compare_overall_metrics (self : analyzer)
  : comparison_dict * analyzer :=
  match Dict.lookup String.eqb (benchmarks self) "overall" with
  | None => ([], self)
  | Some overall_bench =>
      let cmp :=
        compare_dicts compare_overall_entry
          (or_empty (overall (kpi_summary self))) overall_bench in
      (cmp,
       {| kpi_summary := kpi_summary self;
          benchmarks := benchmarks self;
          comparisons_overall := Some cmp;
          comparisons_by_channel := comparisons_by_channel self |})
  end.

Definition is_empty {A : Type} (l : list A) : bool :=
  match l with [] => true | _ => false end.

Definition compare_by_channel (self : analyzer)
  : list (string * comparison_dict) * analyzer :=
  match by_channel (kpi_summary self) with
  | None => ([], self)
  | Some client_channels =>
      if is_empty (benchmarks self) then ([], self)
      else
        let cmp :=
          fold_left
            (fun (acc : list (string * comparison_dict))
                 (ck : string * kpi_dict) =>
               let (channel, client_kpi) := ck in
               let own :=
                 or_empty (Dict.lookup String.eqb (benchmarks self) channel) in
               let channel_bench :=
                 if is_empty own
                 then or_empty
                        (Dict.lookup String.eqb (benchmarks self) "overall")
                 else own in
               Dict.set String.eqb acc channel
                 (compare_dicts compare_channel_entry client_kpi
                                channel_bench))
            client_channels [] in
        (cmp,
         {| kpi_summary := kpi_summary self;
            benchmarks := benchmarks self;
            comparisons_overall := comparisons_overall self;
            comparisons_by_channel := Some cmp |})
  end.

Record strength : Type := {
  s_metric : string;
  s_client_value : float;
  s_benchmark_value : float;
  pct_above : float;
  s_tier : tier_t
}.

Record weakness : Type := {
  w_metric : string;
  w_client_value : float;
  w_benchmark_value : float;
  pct_below : float;
  w_tier : tier_t
}.

Definition get_strengths (self : analyzer) (min_pct_above : float)
  : list strength :=
  Py.sorted_desc pct_above
    (flat_map
       (fun md : string * comparison =>
          let (metric, data) := md in
          if pct_difference data >? min_pct_above then
            [{| s_metric := metric;
                s_client_value := client_value data;
                s_benchmark_value := benchmark_value data;
                pct_above := pct_difference data;
                s_tier := tier data |}]
          else [])
       (or_empty (comparisons_overall self))).

Definition get_weaknesses (self : analyzer) (max_pct_below : float)
  : list weakness :=
  Py.sorted_desc pct_below
    (flat_map
       (fun md : string * comparison =>
          let (metric, data) := md in
          if pct_difference data <? max_pct_below then
            [{| w_metric := metric;
                w_client_value := client_value data;
                w_benchmark_value := benchmark_value data;
                pct_below := abs (pct_difference data);
                w_tier := tier data |}]
          else [])
       (or_empty (comparisons_overall self))).

Inductive rec_type : Type :=
| improve_ctr
| reduce_cpc
| improve_cvr
| improve_roas
| scale_success.

Inductive priority : Type := p_high | p_medium.

Record recommendation : Type := {
  r_type : rec_type;
  r_priority : priority;
  r_metric : string;
  r_gap : float
}.

Definition weakness_recommendation (w : weakness) : list recommendation :=
  let metric := w_metric w in
  let gap := pct_below w in
  let make (t : rec_type) :=
    [{| r_type := t; r_priority := p_high; r_metric := metric;
        r_gap := gap |}] in
  if String.eqb metric "ctr" then make improve_ctr
  else if String.eqb metric "cpc" then make reduce_cpc
  else if String.eqb metric "cvr" then make improve_cvr
  else if String.eqb metric "roas" then make improve_roas
  else [].

Definition generate_benchmark_recommendations (self : analyzer)
  : list recommendation :=
  let weaknesses := get_weaknesses self (Fin (- 10)) in
  let strengths := get_strengths self (Fin 10) in
  (flat_map weakness_recommendation (firstn 3 weaknesses)
   ++ match strengths with
      | [] => []
      | s :: _ =>
          [{| r_type := scale_success; r_priority := p_medium;
              r_metric := s_metric s; r_gap := pct_above s |}]
      end)%list.

Definition is_weakness_rec (r : recommendation) : bool :=
  match r_type r with
  | scale_success => false
  | _ => true
  end.

(** *** Percentile rank, insights, the summary and the complete run *)

Inductive rank_t : Type :=
| Unknown
| Top_5 | Top_10 | Top_25 | Top_50
| Bottom_50 | Bottom_25 | Bottom_10 | Bottom_5.

(** The position of a rank, best first. *)
Definition rank_level (r : rank_t) : nat :=
  match r with
  | Top_5 => 8 | Top_10 => 7 | Top_25 => 6 | Top_50 => 5
  | Bottom_50 => 4 | Bottom_25 => 3 | Bottom_10 => 2 | Bottom_5 => 1
  | Unknown => 0
  end.

Definition rank_of (pct_diff : float) : rank_t :=
  if pct_diff >? Fin 30 then Top_5
  else if pct_diff >? Fin 20 then Top_10
  else if pct_diff >? Fin 10 then Top_25
  else if pct_diff >? Fin 0 then Top_50
  else if pct_diff >? Fin (- 10) then Bottom_50
  else if pct_diff >? Fin (- 20) then Bottom_25
  else if pct_diff >? Fin (- 30) then Bottom_10
  else Bottom_5.

Definition get_percentile_rank (self : analyzer) (metric : string)
  : rank_t :=
  match Dict.lookup String.eqb (or_empty (comparisons_overall self)) metric
  with
  | None => Unknown
  | Some data => rank_of (pct_difference data)
  end.

(** An insight: its type and the values its text is built from; the text
    itself, which upper-cases and joins the metric names, is left out. *)
Inductive insight : Type :=
| strong_performance (top_20_count : nat)
| weak_performance (bottom_20_count : nat)
| key_strengths (metrics : list string)
| key_weaknesses (metrics : list string).

Definition count_tier (t : tier_t) (cmp : comparison_dict) : nat :=
  List.length (filter (fun kv => tier_eqb (tier (snd kv)) t) cmp).

Definition generate_benchmark_insights (self : analyzer) : list insight :=
  let overall_comp := or_empty (comparisons_overall self) in
  let top := count_tier top_20 overall_comp in
  let bottom := count_tier bottom_20 overall_comp in
  let strengths := get_strengths self (Fin 10) in
  let weaknesses := get_weaknesses self (Fin (- 10)) in
  ((if (0 <? top)%nat then [strong_performance top] else [])
   ++ (if (0 <? bottom)%nat then [weak_performance bottom] else [])
   ++ match strengths with
      | [] => []
      | _ => [key_strengths (map s_metric (firstn 2 strengths))]
      end
   ++ match weaknesses with
      | [] => []
      | _ => [key_weaknesses (map w_metric (firstn 2 weaknesses))]
      end)%list.

Record summary : Type := {
  overall_comparison : comparison_dict;
  by_channel_comparison : list (string * comparison_dict);
  sum_strengths : list strength;
  sum_weaknesses : list weakness;
  sum_insights : list insight;
  sum_recommendations : list recommendation;
  benchmarks_loaded : bool
}.

(** The summary; [self.insights] and [self.recommendations] are passed
    in. *)
Definition get_summary (self : analyzer) (insights : list insight)
  (recommendations : list recommendation) : summary :=
  {| overall_comparison := or_empty (comparisons_overall self);
     by_channel_comparison := or_empty (comparisons_by_channel self);
     sum_strengths := get_strengths self (Fin 10);
     sum_weaknesses := get_weaknesses self (Fin (- 10));
     sum_insights := insights;
     sum_recommendations := recommendations;
     benchmarks_loaded := negb (is_empty (benchmarks self)) |}.

(** The complete run; without benchmarks it returns the empty dictionary
    ([None]). *)
Definition analyze_all (self : analyzer) : option summary * analyzer :=
  if is_empty (benchmarks self) then (None, self)
  else
    let self1 := snd (compare_overall_metrics self) in
    let self2 := snd (compare_by_channel self1) in
    (Some (get_summary self2 (generate_benchmark_insights self2)
                       (generate_benchmark_recommendations self2)),
     self2).

End BenchmarkAnalyzer.

(* ------------------------------------------------------------------------- *)
(** ** app.py: the upload filter *)

(** File names are strings of bytes (UTF-8).  [lower] maps the ASCII
    capitals and leaves every other byte; Python's [str.lower] differs on
    non-ASCII letters only, and no such letter lowercases to a string of
    the letters c, s and v, so the test against the allowed extensions is
    the same. *)
Module App.

Definition ALLOWED_EXTENSIONS : list string := ["csv"].

(** [c in s] for a one-character [c]. *)
Fixpoint contains (c : ascii) (s : string) : bool :=
  match s with
  | EmptyString => false
  | String d s' => Ascii.eqb d c || contains c s'
  end.

(** [s.rsplit(sep, 1)]: the string cut at its last separator, or the
    string alone when it has none. *)
Fixpoint rsplit_once (sep : ascii) (s : string) : list string :=
  match s with
  | EmptyString => [EmptyString]
  | String d s' =>
      match rsplit_once sep s' with
      | [head; tail] => [String d head; tail]
      | _ => if Ascii.eqb d sep then [EmptyString; s'] else [String d s']
      end
  end.

Definition lower_char (c : ascii) : ascii :=
  let n := nat_of_ascii c in
  if ((65 <=? n) && (n <=? 90))%nat then ascii_of_nat (n + 32) else c.

Fixpoint lower (s : string) : string :=
  match s with
  | EmptyString => EmptyString
  | String c s' => String (lower_char c) (lower s')
  end.

(** [allowed_file]; an index out of range is [None]. *)
Definition allowed_file (filename : string) : option bool :=
  if contains "." filename then
    match nth_error (rsplit_once "." filename) 1 with
    | Some ext => Some (existsb (String.eqb (lower ext)) ALLOWED_EXTENSIONS)
    | None => None
    end
  else Some false.

End App.

(* ------------------------------------------------------------------------- *)
(** ** Sample inputs *)

Module Samples.

Definition n (z : Z) : cell := Num (Fin (inject_Z z)).

(** One day with impressions and spend but no click and no conversion. *)
Definition no_click_day : DataFrame :=
  mkFrame
    ["date"; "channel"; "impressions"; "clicks"; "conversions"; "spend";
     "revenue"; "visits"]
    [[("date", Day 19000); ("channel", Str "email");
      ("impressions", n 100); ("clicks", n 0); ("conversions", n 0);
      ("spend", n 5); ("revenue", n 0); ("visits", n 0)]].

(** A frame with one channel and the given click counts. *)
Definition clicks_frame (l : list Z) : DataFrame :=
  mkFrame ["channel"; "clicks"]
          (map (fun z => [("channel", Str "email"); ("clicks", n z)]) l).

(** Mean 1, standard deviation 1/2: the first and the last row lie exactly
    two standard deviations from the mean. *)
Definition two_sigma : DataFrame := clicks_frame [0; 1; 1; 1; 1; 1; 1; 1; 2]%Z.

(** A constant series. *)
Definition constant : DataFrame := clicks_frame [5; 5; 5]%Z.

(** Two metrics, each with one outlying row. *)
Definition two_metrics : DataFrame :=
  mkFrame ["clicks"; "spend"]
          (map (fun cs : Z * Z =>
                  [("clicks", n (fst cs)); ("spend", n (snd cs))])
               [(100, 900); (100, 1); (100, 1); (100, 1); (100, 1);
                (100, 1); (100, 1); (100, 1); (100, 1); (10000, 1)]%Z).

(** Weather and conversions on three days, and a fourth, very hot day. *)
Definition weather_row (t r c : Z) : row :=
  [("temperature_c", n t); ("rainfall_mm", n r); ("conversions", n c)].

Definition weather_columns : list string :=
  ["temperature_c"; "rainfall_mm"; "conversions"].

Definition weather : DataFrame :=
  mkFrame weather_columns
          [weather_row 5 0 10; weather_row 12 2 20; weather_row 22 0 30].

Definition heat_wave : row := weather_row 55 0 1000.

(** Stand-ins for the library's correlation routine, returning a fixed
    coefficient and p-value. *)
Definition high_but_insignificant (_ _ : list float) : float * float :=
  (double_0_9, double_0_2).

Definition moderate_and_significant (_ _ : list float) : float * float :=
  (double_0_65, double_0_01).

(** A coefficient of exactly 0.6, the default threshold, and
    significant. *)
Definition exactly_sixty_percent (_ _ : list float) : float * float :=
  (double_0_6, double_0_01).

Definition exactly_minus_sixty_percent (_ _ : list float) : float * float :=
  (opp double_0_6, double_0_01).

(** A client 12% above the benchmark click-through rate, overall and on
    its one channel, with a cost per click twice the benchmark. *)
Definition twelve_percent : BenchmarkAnalyzer.analyzer :=
  BenchmarkAnalyzer.init
    {| BenchmarkAnalyzer.overall :=
         Some [("ctr", Fin 112); ("cpc", Fin 2); ("roas", Fin 3)];
       BenchmarkAnalyzer.by_channel :=
         Some [("email", [("ctr", Fin 112); ("cpc", Fin 2)])] |}
    [("overall", [("avg_ctr", Fin 100); ("avg_cpc", Fin 1);
                  ("avg_roas", Fin 2)])].

(** Two campaigns with the same traffic and spend; the first converts five
    times as well as the second. *)
Definition campaign_row (name : string) (conversions revenue : Z) : row :=
  [("date", Day 19000); ("campaign", Str name); ("impressions", n 100);
   ("clicks", n 10); ("conversions", n conversions); ("spend", n 10);
   ("revenue", n revenue); ("visits", n 20)].

Definition two_campaigns : DataFrame :=
  mkFrame
    ["date"; "campaign"; "impressions"; "clicks"; "conversions"; "spend";
     "revenue"; "visits"]
    [campaign_row "spring" 5 50; campaign_row "autumn" 1 20].


(** Eleven ordinary rows and one outlier, more than three standard
    deviations from the mean. *)
Definition spike : DataFrame :=
  mkFrame ["date"; "channel"; "clicks"]
          (map (fun dz : Z * Z =>
                  [("date", Day (fst dz)); ("channel", Str "email");
                   ("clicks", n (snd dz))])
               [(19000, 100); (19001, 100); (19002, 100); (19003, 100);
                (19004, 100); (19005, 100); (19006, 100); (19007, 100);
                (19008, 100); (19009, 100); (19010, 100);
                (19011, 10000)]%Z).


(** Two channels with weather but without a conversions column. *)
Definition weather_by_channel : DataFrame :=
  mkFrame ["channel"; "temperature_c"; "rainfall_mm"; "clicks"]
          [[("channel", Str "email"); ("temperature_c", n 5);
            ("rainfall_mm", n 0); ("clicks", n 10)];
           [("channel", Str "social"); ("temperature_c", n 12);
            ("rainfall_mm", n 2); ("clicks", n 20)]].


(** A client whose clicks cost half the benchmark and whose acquisitions
    cost half as much again as the benchmark; the email channel has
    benchmarks of its own, the search channel has none. *)
Definition cheap_clicks : BenchmarkAnalyzer.kpi_summary_t :=
  {| BenchmarkAnalyzer.overall :=
       Some [("ctr", Fin 3); ("cpc", Fin (1 # 2)); ("cvr", Fin 5);
             ("cpa", Fin 30); ("roas", Fin 1)];
     BenchmarkAnalyzer.by_channel :=
       Some [("email", [("ctr", Fin 3); ("cpc", Fin 1)]);
             ("search", [("ctr", Fin 1); ("cpc", Fin 2)])] |}.

Definition industry : list (string * BenchmarkAnalyzer.kpi_dict) :=
  [("overall", [("avg_ctr", Fin 2); ("avg_cpc", Fin 1);
                ("avg_conversion_rate", Fin 5); ("avg_cpa", Fin 20);
                ("avg_roas", Fin 2)]);
   ("email", [("avg_ctr", Fin 4); ("avg_cpc", Fin 1)])].


(** Five rows on three days, not in order of date, from two channels; the
    third row has no date. *)
Definition kpi_row (date channel : cell) (clicks : Z) : row :=
  [("date", date); ("channel", channel); ("impressions", n 100);
   ("clicks", n clicks); ("conversions", n 1); ("spend", n 10);
   ("revenue", n 20); ("visits", n 30)].

Definition kpi_columns : list string :=
  ["date"; "channel"; "impressions"; "clicks"; "conversions"; "spend";
   "revenue"; "visits"].

Definition mixed_days : DataFrame :=
  mkFrame kpi_columns
    [kpi_row (Day 19002) (Str "email") 10;
     kpi_row (Day 19000) (Str "search") 20;
     kpi_row (Num NaN) (Str "email") 30;
     kpi_row (Day 19001) (Str "search") 40;
     kpi_row (Day 19000) (Str "email") 50].

(** Three rows, the second without a channel. *)
Definition unlabelled_row : DataFrame :=
  mkFrame kpi_columns
    [kpi_row (Day 19000) (Str "email") 10;
     kpi_row (Day 19000) (Num NaN) 20;
     kpi_row (Day 19001) (Str "email") 30].

(** The five summed columns and nothing else. *)
Definition no_visits : DataFrame :=
  mkFrame ["impressions"; "clicks"; "conversions"; "spend"; "revenue"]
    [[("impressions", n 100); ("clicks", n 10); ("conversions", n 1);
      ("spend", n 10); ("revenue", n 20)];
     [("impressions", n 300); ("clicks", n 20); ("conversions", n 3);
      ("spend", n 30); ("revenue", n 40)]].


(** Weather and conversions of two channels: three days of email, one day
    of social. *)
Definition channel_weather_row (channel : string) (t r c : Z) : row :=
  [("channel", Str channel); ("temperature_c", n t); ("rainfall_mm", n r);
   ("conversions", n c)].

Definition weather_of_two_channels : DataFrame :=
  mkFrame ["channel"; "temperature_c"; "rainfall_mm"; "conversions"]
          [channel_weather_row "email" 5 0 10;
           channel_weather_row "social" 8 1 5;
           channel_weather_row "email" 12 2 20;
           channel_weather_row "email" 22 0 30].


End Samples.

(* ------------------------------------------------------------------------- *)
(** ** Facts about the number model *)

Module FloatFacts.

Lemma Qltb_true (a b : Q) : Qltb a b = true <-> (a < b)%Q.
Proof.
  unfold Qltb. rewrite negb_true_iff.
  split; intro H.
  - apply Qnot_le_lt. intro Hle. apply Qle_bool_iff in Hle. congruence.
  - destruct (Qle_bool b a) eqn:E; [|reflexivity].
    apply Qle_bool_iff in E. exfalso. apply (Qlt_not_le _ _ H E).
Qed.

Lemma Qltb_false (a b : Q) : Qltb a b = false <-> (b <= a)%Q.
Proof.
  unfold Qltb. rewrite negb_false_iff. apply Qle_bool_iff.
Qed.

Lemma Qeqb_true (a b : Q) : Qeq_bool a b = true <-> (a == b)%Q.
Proof. apply Qeq_bool_iff. Qed.

Lemma Qeqb_false (a b : Q) : Qeq_bool a b = false <-> ~ (a == b)%Q.
Proof.
  split; intro H.
  - intro E. apply Qeq_bool_iff in E. congruence.
  - destruct (Qeq_bool a b) eqn:E; [|reflexivity].
    apply Qeq_bool_iff in E. contradiction.
Qed.

(** Turns boolean comparisons of rationals, in the goal and in the
    hypotheses, into propositions, and strips the normalisations. *)
Ltac q_prop :=
  repeat match goal with
  | H : Qltb _ _ = true |- _ => apply Qltb_true in H
  | H : Qltb _ _ = false |- _ => apply Qltb_false in H
  | H : Qeq_bool _ _ = true |- _ => apply Qeqb_true in H
  | H : Qeq_bool _ _ = false |- _ => apply Qeqb_false in H
  | |- Qltb _ _ = true => apply Qltb_true
  | |- Qltb _ _ = false => apply Qltb_false
  | |- Qeq_bool _ _ = true => apply Qeqb_true
  | |- Qeq_bool _ _ = false => apply Qeqb_false
  end;
  repeat match goal with
  | H : context [Qred ?x] |- _ => rewrite (Qred_correct x) in H
  end;
  repeat rewrite Qred_correct.

Lemma ltb_irrefl (x : float) : (x <? x)%float = false.
Proof. destruct x; simpl; trivial. q_prop. lra. Qed.

Lemma ltb_asym (x y : float) :
  (x <? y)%float = true -> (y <? x)%float = false.
Proof. destruct x, y; simpl; trivial; try discriminate. intro. q_prop. lra. Qed.

Lemma ltb_trans (x y z : float) :
  (x <? y)%float = true -> (y <? z)%float = true -> (x <? z)%float = true.
Proof.
  destruct x, y, z; simpl; trivial; try discriminate.
  intros. q_prop. lra.
Qed.

Lemma eqb_not_gtb (x y : float) :
  (x ==? y)%float = true -> (x >? y)%float = false.
Proof.
  unfold gtb. destruct x, y; simpl; trivial; try discriminate.
  intro. q_prop. lra.
Qed.

Lemma gtb_not_eqb (x y : float) :
  (x >? y)%float = true -> (x ==? y)%float = false.
Proof.
  destruct (x ==? y)%float eqn:E; trivial.
  intro H. rewrite (eqb_not_gtb _ _ E) in H. discriminate.
Qed.

Lemma leb_ltb_trans (x y z : float) :
  (x <=? y)%float = true -> (y <? z)%float = true -> (x <? z)%float = true.
Proof.
  unfold leb. destruct x, y, z; simpl; trivial; try discriminate.
  intros H1 H2. apply orb_true_iff in H1. destruct H1; q_prop; lra.
Qed.

Lemma gtb_nan_l (y : float) : (NaN >? y)%float = false.
Proof. destruct y; reflexivity. Qed.

Lemma abs_nonneg (x : float) : (abs x <? zero)%float = false.
Proof.
  destruct x; simpl; trivial. q_prop. apply Qabs_nonneg.
Qed.

End FloatFacts.

(* ------------------------------------------------------------------------- *)
(** ** KPI aggregation: the zero-denominator policy *)

Module KPIFacts.

Import KPICalculator FloatFacts.
Local Open Scope float_scope.

(** A sum that equals zero is not greater than zero. *)
Lemma zero_sum_guard (x : float) : (x ==? zero) = true -> (x >? zero) = false.
Proof. apply eqb_not_gtb. Qed.

Ltac unfold_bind H :=
  repeat match type of H with
  | match ?e with Some _ => _ | None => _ end = Some _ =>
      destruct e eqn:?; [| discriminate H]
  end.

(** Each conjunct is a guarded ratio whose guard fails. *)
Ltac guard_cases :=
  repeat match goal with
  | |- _ /\ _ => split
  | |- _ = true -> _ =>
      let E := fresh "E" in
      intro E; apply zero_sum_guard in E; unfold gtb in E; simpl in E;
      rewrite ?E
  | |- _ = _ => reflexivity
  end.

(** Overall granularity: each of the five ratios is the literal 0 when its
    denominator sum is 0. *)
Lemma basic_kpis_zero_denominator (d : DataFrame) (k : overall_kpis) :
  calculate_basic_kpis d = Some k ->
  ((total_impressions k ==? zero) = true -> ctr k = zero) /\
  ((total_clicks k ==? zero) = true -> cpc k = zero /\ cvr k = zero) /\
  ((total_conversions k ==? zero) = true -> cpa k = zero) /\
  ((total_spend k ==? zero) = true -> roas k = zero).
Proof.
  unfold calculate_basic_kpis. intro H. unfold_bind H.
  injection H as <-. simpl.
  guard_cases.
Qed.

Lemma group_record_zero_denominator (d : DataFrame) (c : string) (v : cell)
  (k : group_kpi) :
  group_record d c v = Some k ->
  ((g_impressions k ==? zero) = true -> g_ctr k = zero) /\
  ((g_clicks k ==? zero) = true -> g_cpc k = zero /\ g_cvr k = zero) /\
  ((g_conversions k ==? zero) = true -> g_cpa k = zero) /\
  ((g_spend k ==? zero) = true -> g_roas k = zero).
Proof.
  unfold group_record. intro H. unfold_bind H.
  injection H as <-. simpl.
  guard_cases.
Qed.

Lemma for_each_In {A : Type} (f : cell -> option A) (keys : list cell)
  (out : list (cell * A)) :
  for_each f keys = Some out ->
  forall k a, In (k, a) out -> f k = Some a.
Proof.
  revert out. induction keys as [|x keys IH]; simpl; intros out H k a Hin.
  - injection H as <-. destruct Hin.
  - destruct (f x) eqn:Ef; [|discriminate].
    destruct (for_each f keys) eqn:Er; [|discriminate].
    injection H as <-. destruct Hin as [Heq|Hin].
    + injection Heq as <- <-. exact Ef.
    + eapply IH; eauto.
Qed.

(** Per channel and per campaign. *)
Lemma by_channel_zero_denominator (d : DataFrame)
  (out : list (cell * group_kpi)) (key : cell) (k : group_kpi) :
  calculate_by_channel d = Some out -> In (key, k) out ->
  ((g_impressions k ==? zero) = true -> g_ctr k = zero) /\
  ((g_clicks k ==? zero) = true -> g_cpc k = zero /\ g_cvr k = zero) /\
  ((g_conversions k ==? zero) = true -> g_cpa k = zero) /\
  ((g_spend k ==? zero) = true -> g_roas k = zero).
Proof.
  unfold calculate_by_channel. destruct (negb _).
  - intros [= <-] [].
  - intros H Hin.
    eapply group_record_zero_denominator, for_each_In; eauto.
Qed.

Lemma by_campaign_zero_denominator (d : DataFrame)
  (out : list (cell * group_kpi)) (key : cell) (k : group_kpi) :
  calculate_by_campaign d = Some out -> In (key, k) out ->
  ((g_impressions k ==? zero) = true -> g_ctr k = zero) /\
  ((g_clicks k ==? zero) = true -> g_cpc k = zero /\ g_cvr k = zero) /\
  ((g_conversions k ==? zero) = true -> g_cpa k = zero) /\
  ((g_spend k ==? zero) = true -> g_roas k = zero).
Proof.
  unfold calculate_by_campaign. destruct (negb _).
  - intros [= <-] [].
  - intros H Hin.
    eapply group_record_zero_denominator, for_each_In; eauto.
Qed.

(** Per city: the three ratios this granularity reports. *)
Lemma by_city_zero_denominator (d : DataFrame)
  (out : list (cell * city_kpi)) (key : cell) (k : city_kpi) :
  calculate_by_city d = Some out -> In (key, k) out ->
  ((c_visits k ==? zero) = true ->
   c_conversion_rate k = zero /\ c_revenue_per_visit k = zero) /\
  ((c_spend k ==? zero) = true -> c_roas k = zero).
Proof.
  unfold calculate_by_city. destruct (negb _).
  - intros [= <-] [].
  - intros H Hin. pose proof (for_each_In _ _ _ H _ _ Hin) as Hr.
    unfold city_record in Hr. unfold_bind Hr. injection Hr as <-. simpl.
    guard_cases.
Qed.

Lemma dow_loop_In (d : DataFrame) (days : list string)
  (out : list (string * dow_kpi)) :
  dow_loop d days = Some out ->
  forall day k, In (day, k) out -> exists sub, dow_record d day sub = Some k.
Proof.
  revert out. induction days as [|x days IH]; simpl; intros out H day k Hin.
  - injection H as <-. destruct Hin.
  - destruct (filter _ (rows d)) as [|r sub] eqn:Ef.
    + eapply IH; eauto.
    + destruct (dow_record d x (r :: sub)) eqn:Er; [|discriminate].
      destruct (dow_loop d days) eqn:El; [|discriminate].
      injection H as <-. destruct Hin as [Heq|Hin].
      * injection Heq as <- <-. eauto.
      * eapply IH; eauto.
Qed.

(** Per day of week: the three ratios this granularity reports. *)
Lemma day_of_week_zero_denominator (d : DataFrame)
  (out : list (string * dow_kpi)) (day : string) (k : dow_kpi) :
  get_day_of_week_analysis d = Some out -> In (day, k) out ->
  ((w_impressions k ==? zero) = true -> w_ctr k = zero) /\
  ((w_conversions k ==? zero) = true -> w_cpa k = zero) /\
  ((w_spend k ==? zero) = true -> w_roas k = zero).
Proof.
  unfold get_day_of_week_analysis. destruct (negb _).
  - intros [= <-] [].
  - intros H Hin. destruct (dow_loop_In _ _ _ H _ _ Hin) as [sub Hr].
    unfold dow_record in Hr. unfold_bind Hr. injection Hr as <-. simpl.
    guard_cases.
Qed.

(** Per calendar date, [0 / 0] is NaN and [fillna(0)] turns it into 0. *)
Lemma by_date_zero_over_zero (rs : list row) (day : Z) :
  let k := daily_record rs day in
  (d_clicks k ==? zero) = true -> (d_impressions k ==? zero) = true ->
  d_ctr k = zero.
Proof.
  simpl. generalize (Series.sum (series (select rs "date" (Day day)) "clicks")).
  generalize (Series.sum
                (series (select rs "date" (Day day)) "impressions")).
  intros i c Hc Hi. destruct c, i; try discriminate. simpl in *.
  rewrite Hi. unfold sign_of. q_prop.
  assert (Qltb 0 q = false) as -> by (q_prop; lra).
  assert (Qltb q 0 = false) as -> by (q_prop; lra).
  reflexivity.
Qed.

(** C1. The per-calendar-date aggregation divides column by column and only
    replaces NaN afterwards: on a day with spend but no click and no
    conversion, cost per click and cost per acquisition are infinite, while
    the per-channel aggregation of the same rows reports 0 for both. *)
Theorem by_date_zero_denominator_is_infinite :
  exists k g,
    calculate_by_date Samples.no_click_day = Some [k] /\
    (d_clicks k ==? zero) = true /\ d_cpc k = PInf /\
    (d_conversions k ==? zero) = true /\ d_cpa k = PInf /\
    calculate_by_channel Samples.no_click_day = Some [(Str "email", g)] /\
    (g_clicks g ==? zero) = true /\ g_cpc g = zero /\ g_cpa g = zero.
Proof.
  eexists. eexists. vm_compute. repeat split; reflexivity.
Qed.

End KPIFacts.

(* ------------------------------------------------------------------------- *)
(** ** Sorting and dictionaries *)

Module PyFacts.

Import FloatFacts.
Local Open Scope float_scope.

Section Keyed.
Context {A : Type} (key : A -> float).

Lemma insert_desc_hd (a b : A) (l : list A) :
  Py.desc key b a -> HdRel (Py.desc key) b l ->
  HdRel (Py.desc key) b (Py.insert_desc key a l).
Proof.
  intros Hba H. destruct l as [|c l]; simpl.
  - constructor. exact Hba.
  - inversion H; subst. destruct (key c >? key a); constructor; assumption.
Qed.

Lemma insert_desc_sorted (a : A) (l : list A) :
  Sorted (Py.desc key) l -> Sorted (Py.desc key) (Py.insert_desc key a l).
Proof.
  induction 1 as [|b l Hs IH Hh]; simpl.
  - repeat constructor.
  - destruct (key b >? key a) eqn:E.
    + constructor; [exact IH|]. apply insert_desc_hd; [|exact Hh].
      unfold Py.desc, gtb in *. apply ltb_asym. exact E.
    + constructor; [constructor; assumption|]. constructor. exact E.
Qed.

Lemma sorted_desc_sorted (l : list A) :
  Sorted (Py.desc key) (Py.sorted_desc key l).
Proof.
  induction l; simpl; [constructor|]. apply insert_desc_sorted.
  assumption.
Qed.

Lemma insert_desc_perm (a : A) (l : list A) :
  Permutation (Py.insert_desc key a l) (a :: l).
Proof.
  induction l as [|b l IH]; simpl; [reflexivity|].
  destruct (key b >? key a); [|reflexivity].
  rewrite IH. apply perm_swap.
Qed.

Lemma sorted_desc_perm (l : list A) : Permutation (Py.sorted_desc key l) l.
Proof.
  induction l as [|a l IH]; simpl; [constructor|].
  rewrite insert_desc_perm. constructor. exact IH.
Qed.


End Keyed.


End PyFacts.

(* ------------------------------------------------------------------------- *)
(** ** Anomaly detection *)

Module AnomalyFacts.

Import AnomalyDetector FloatFacts.
Local Open Scope float_scope.

Lemma ltb_leb_trans (x y z : float) :
  (x <? y) = true -> (y <=? z) = true -> (x <? z) = true.
Proof.
  unfold leb. destruct x, y, z; simpl; trivial; try discriminate.
  intros H1 H2. apply orb_true_iff in H2. destruct H2; q_prop; lra.
Qed.

Lemma gtb_leb (z c : float) :
  (z >? c) = false -> is_nan z = false -> is_nan c = false ->
  (z <=? c) = true.
Proof.
  unfold gtb, leb. destruct z, c; simpl; trivial; try discriminate.
  intros H _ _. apply orb_true_iff.
  destruct (Qeq_bool q q0) eqn:E; [right; trivial|left].
  q_prop. apply Qle_lteq in H. destruct H; [assumption|contradiction].
Qed.

Lemma leb_not_gtb (z c : float) : (z <=? c) = true -> (z >? c) = false.
Proof.
  unfold gtb, leb. destruct z, c; simpl; trivial; try discriminate.
  intro H. apply orb_true_iff in H. destruct H; q_prop; lra.
Qed.

Lemma gtb_not_nan (z c : float) : (z >? c) = true -> is_nan z = false.
Proof. destruct z; trivial. rewrite gtb_nan_l. discriminate. Qed.

Lemma within_group_flagged (self : detector) (gd : list row) (m : string)
  (gv : cell) (gc : string) :
  Forall (flagged_ok self) (_detect_within_group self gd m gv gc).
Proof.
  unfold _detect_within_group, _detect_within_group_with.
  fold group_z_scores. destruct (_ <? 3)%nat; [constructor|].
  apply Forall_flat_map, Forall_forall. intros [r z] _.
  destruct (z >? z_score_threshold self) eqn:E; constructor; [|constructor].
  repeat split; simpl; auto using gtb_not_eqb.
Qed.

Lemma by_metric_flagged (self : detector) (m : string) (g : option string) :
  Forall (flagged_ok self) (detect_anomalies_by_metric self m g).
Proof.
  unfold detect_anomalies_by_metric, detect_anomalies_by_metric_with.
  fold calculate_z_scores _detect_within_group.
  destruct (negb _); [constructor|].
  match goal with |- context [match ?o with Some _ => _ | None => _ end] =>
    destruct o end.
  - apply Forall_flat_map, Forall_forall. intros gv _.
    apply within_group_flagged.
  - apply Forall_flat_map, Forall_forall. intros [r z] _.
    destruct (z >? z_score_threshold self) eqn:E; constructor; [|constructor].
    repeat split; simpl; auto using gtb_not_eqb.
Qed.

Lemma severity_ladder (z : float) :
  (_calculate_severity z = critical <-> (z >? Fin 3) = true) /\
  (_calculate_severity z = warning <->
     (z <=? Fin 3) = true /\ (z >? Fin (5 # 2)) = true) /\
  (_calculate_severity z = info <-> (z >? Fin (5 # 2)) = false).
Proof.
  unfold _calculate_severity.
  assert (I : (z >? Fin 3) = true -> (z >? Fin (5 # 2)) = true).
  { unfold gtb. apply ltb_trans. reflexivity. }
  destruct (z >? Fin 3) eqn:E3; destruct (z >? Fin (5 # 2)) eqn:E2;
    try (specialize (I eq_refl); discriminate I);
    (split; [|split]); (split; intro H); try discriminate;
    try reflexivity;
    try (match type of H with
         | _ /\ _ => destruct H as [H1 H2]
         end;
         try discriminate; apply leb_not_gtb in H1; congruence).
  split; trivial. apply gtb_leb; trivial.
  eapply gtb_not_nan; eauto.
Qed.

Lemma severity_monotone (z1 z2 : float) :
  (z1 <=? z2) = true ->
  (severity_rank (_calculate_severity z1)
   <= severity_rank (_calculate_severity z2))%nat.
Proof.
  intro H. unfold _calculate_severity, gtb.
  destruct (Fin 3 <? z1) eqn:A1.
  - rewrite (ltb_leb_trans _ _ _ A1 H). simpl. lia.
  - destruct (Fin (5 # 2) <? z1) eqn:B1.
    + rewrite (ltb_leb_trans _ _ _ B1 H).
      destruct (Fin 3 <? z2); simpl; lia.
    + simpl. lia.
Qed.

Lemma z_scores_length (self : detector) (m : string) :
  calculate_z_scores self m = [] \/
  List.length (calculate_z_scores self m) = List.length (rows (df self)).
Proof.
  unfold calculate_z_scores, calculate_z_scores_with.
  destruct (negb _); [now left|].
  destruct (_ <? 2)%nat; [now left|]. right.
  destruct (_ ==? _); rewrite length_map; unfold series;
    apply length_map.
Qed.

Lemma map_snd_combine {A B : Type} (l : list A) (l' : list B) :
  List.length l' = List.length l -> map snd (combine l l') = l'.
Proof.
  revert l'. induction l as [|a l IH]; intros [|b l']; simpl;
    try discriminate; trivial.
  intros [= H]. f_equal. auto.
Qed.

(** Ungrouped mode flags exactly the Z-scores above the threshold. *)
Lemma ungrouped_flags (self : detector) (m : string) :
  map a_z_score (detect_anomalies_by_metric self m None)
  = filter (fun z => z >? z_score_threshold self)
           (calculate_z_scores self m).
Proof.
  unfold detect_anomalies_by_metric, detect_anomalies_by_metric_with.
  fold calculate_z_scores _detect_within_group.
  destruct (negb (has_col (df self) m)) eqn:Hc.
  - unfold calculate_z_scores, calculate_z_scores_with. rewrite Hc.
    reflexivity.
  - destruct (z_scores_length self m) as [-> | Hl].
    + rewrite combine_nil. reflexivity.
    + rewrite <- (map_snd_combine (rows (df self)) _ Hl) at 2.
      generalize (combine (rows (df self)) (calculate_z_scores self m)).
      induction l as [|[r z] l IH]; simpl; trivial.
      destruct (z >? z_score_threshold self); simpl; rewrite IH;
        reflexivity.
Qed.

(** *** A standard deviation of exactly 0 *)


(** C2. Flagging is a strict comparison with the configured threshold and
    the severity of a flagged value follows the exclusive ladder
    [z > 3.0] critical, [3.0 >= z > 2.5] warning, otherwise info, which is
    monotonic in [z].  A Z-score equal to the threshold is not flagged: the
    two rows of the sample that lie exactly two standard deviations out
    produce no anomaly at the default threshold. *)
Theorem strict_threshold_and_severity_ladder :
  (forall self metric by_group,
     Forall (fun a =>
               (a_z_score a >? z_score_threshold self) = true /\
               (a_z_score a ==? z_score_threshold self) = false /\
               a_severity a = _calculate_severity (a_z_score a))
            (detect_anomalies_by_metric self metric by_group)) /\
  (forall self metric,
     map a_z_score (detect_anomalies_by_metric self metric None)
     = filter (fun z => z >? z_score_threshold self)
              (calculate_z_scores self metric)) /\
  (forall z,
     (_calculate_severity z = critical <-> (z >? Fin 3) = true) /\
     (_calculate_severity z = warning <->
        (z <=? Fin 3) = true /\ (z >? Fin (5 # 2)) = true) /\
     (_calculate_severity z = info <-> (z >? Fin (5 # 2)) = false)) /\
  (forall z1 z2,
     (z1 <=? z2) = true ->
     (severity_rank (_calculate_severity z1)
      <= severity_rank (_calculate_severity z2))%nat) /\
  _calculate_severity (Fin (31 # 10)) = critical /\
  _calculate_severity (Fin (26 # 10)) = warning /\
  _calculate_severity (Fin (21 # 10)) = info /\
  (Fin 2 >? default_threshold) = false /\
  calculate_z_scores (init Samples.two_sigma default_threshold 7) "clicks"
  = [Fin 2; Fin 0; Fin 0; Fin 0; Fin 0; Fin 0; Fin 0; Fin 0; Fin 2] /\
  detect_anomalies_by_metric
    (init Samples.two_sigma default_threshold 7) "clicks" None = [] /\
  map a_severity
      (detect_anomalies_by_metric
         (init Samples.two_sigma (Fin (19 # 10)) 7) "clicks" None)
  = [info; info].
Proof.
  split; [exact by_metric_flagged|].
  split; [exact ungrouped_flags|].
  split; [exact severity_ladder|].
  split; [exact severity_monotone|].
  repeat (split; [vm_compute; reflexivity|]).
  vm_compute; reflexivity.
Qed.

Section ZeroDeviation.

Variables mean std : list float -> float.





End ZeroDeviation.



(** *** The aggregated state *)




End AnomalyFacts.

(* ------------------------------------------------------------------------- *)
(** ** Weather correlation *)

Module WeatherFacts.

Import WeatherAnalyzer FloatFacts.
Local Open Scope float_scope.

Section Correlation.

Variable pearsonr : list float -> list float -> float * float.

Lemma correlate_pair_In (self : analyzer) (perf w0 w : string)
  (d : correlation_result) :
  In (w, d) (correlate_pair pearsonr self perf w0) <->
  w = w0 /\
  (3 <= List.length (dropna2 (rows (df self)) perf w0))%nat /\
  d = (let (corr, p) :=
         pearsonr (series (dropna2 (rows (df self)) perf w0) w0)
                  (series (dropna2 (rows (df self)) perf w0) perf) in
       {| correlation := corr; p_value := p;
          significant := p <? double_0_05 |}).
Proof.
  unfold correlate_pair.
  destruct (2 <? _)%nat eqn:E.
  - apply Nat.ltb_lt in E. destruct (pearsonr _ _) as [corr p]. simpl.
    split.
    + intros [[= <- <-]|[]]. auto.
    + intros (-> & _ & ->). now left.
  - apply Nat.ltb_ge in E. simpl. split; [tauto|]. intros (_ & H & _). lia.
Qed.

Lemma table_reported (self : analyzer) (perf w : string)
  (d : correlation_result) :
  check_weather_data_available self = true ->
  reported (fst (calculate_correlations pearsonr self)) perf w d <->
  In perf performance_cols /\ has_col (df self) perf = true /\
  In w weather_cols /\ In (w, d) (correlate_pair pearsonr self perf w).
Proof.
  intro Ha. unfold calculate_correlations, reported. rewrite Ha.
  cbn [negb fst]. split.
  - intros (inner & Hin & Hw). apply in_map_iff in Hin.
    destruct Hin as (p & [= -> <-] & Hp). apply filter_In in Hp.
    assert (Hw' : exists w0, In w0 weather_cols /\
                   In (w, d) (correlate_pair pearsonr self perf w0)).
    { apply in_flat_map. exact Hw. }
    destruct Hw' as (w0 & Hw0 & Hd).
    pose proof (proj1 (correlate_pair_In _ _ _ _ _) Hd) as (-> & _).
    tauto.
  - intros (Hp & Hc & Hw & Hd). eexists. split.
    + apply in_map_iff. exists perf. split; [reflexivity|].
      apply filter_In. auto.
    + apply in_flat_map. eauto.
Qed.

(** C7. A pair of performance metric and weather variable has a
    correlation result exactly when weather data is available, the metric is
    one of the performance columns of the frame, and at least 3 rows hold
    both values; otherwise the pair has no entry at all. *)
Theorem correlation_needs_three_joint_rows (self : analyzer)
  (perf w : string) :
  (exists d, reported (fst (calculate_correlations pearsonr self)) perf w d)
  <->
  check_weather_data_available self = true /\
  In perf performance_cols /\ has_col (df self) perf = true /\
  In w weather_cols /\
  (3 <= List.length (dropna2 (rows (df self)) perf w))%nat.
Proof.
  destruct (check_weather_data_available self) eqn:Ha.
  - split.
    + intros [d H]. apply table_reported in H; [|exact Ha].
      destruct H as (Hp & Hc & Hw & Hd). apply correlate_pair_In in Hd.
      tauto.
    + intros (_ & Hp & Hc & Hw & Hl). eexists.
      apply table_reported; [exact Ha|].
      repeat (split; [assumption|]). apply correlate_pair_In.
      split; [reflexivity|]. split; [exact Hl|reflexivity].
  - unfold calculate_correlations, reported. rewrite Ha. simpl.
    split; [intros (d & inner & [] & _)|intros [H _]; discriminate].
Qed.

Lemma table_significant (self : analyzer) (perf w : string)
  (d : correlation_result) :
  reported (fst (calculate_correlations pearsonr self)) perf w d ->
  significant d = (p_value d <? double_0_05).
Proof.
  destruct (check_weather_data_available self) eqn:Ha.
  - intro H. apply table_reported in H; [|exact Ha].
    destruct H as (_ & _ & _ & Hd). apply correlate_pair_In in Hd.
    destruct Hd as (_ & _ & ->). destruct (pearsonr _ _). reflexivity.
  - unfold calculate_correlations, reported. rewrite Ha. simpl.
    intros (inner & [] & _).
Qed.

End Correlation.

Lemma strong_reported (self : analyzer) (threshold : float)
  (metric w : string) (d : correlation_result) :
  reported (get_strong_correlations self threshold) metric w d <->
  reported (correlations self) metric w d /\
  (abs (correlation d) >=? threshold) = true /\ significant d = true.
Proof.
  unfold reported, get_strong_correlations. split.
  - intros (inner & Hin & Hw). apply in_flat_map in Hin.
    destruct Hin as ([m wc] & Hm & Hk).
    destruct (filter _ wc) as [|x kept] eqn:Ef; [destruct Hk|].
    destruct Hk as [[= -> <-]|[]]. rewrite <- Ef in Hw.
    apply filter_In in Hw. destruct Hw as [Hw Hs]. unfold is_strong in Hs.
    simpl in Hs. apply andb_true_iff in Hs. split; [eauto|exact Hs].
  - intros ((inner & Hin & Hw) & Ht & Hs).
    exists (filter (fun wd => is_strong threshold (snd wd)) inner).
    assert (Hk : In (w, d)
                    (filter (fun wd => is_strong threshold (snd wd)) inner)).
    { apply filter_In. split; [exact Hw|]. unfold is_strong. simpl.
      now rewrite Ht, Hs. }
    split; [|exact Hk]. apply in_flat_map. exists (metric, inner).
    split; [exact Hin|].
    destruct (filter _ inner); [destruct Hk|now left].
Qed.

(** C6. After the correlations of a frame are computed, a pair is listed
    as strong exactly when it has a result with [|correlation| >= 0.6] and
    [p_value < 0.05], the bounds being the doubles the literals denote; for
    any threshold the test is the conjunction of the magnitude test and the
    stored significance flag.  A coefficient of 0.9 with p = 0.2 is not
    strong, 0.65 with p = 0.01 is, and so is a coefficient of exactly 0.6
    with p = 0.01: the bound is inclusive. *)
Theorem strong_iff_magnitude_and_significance :
  (forall self threshold metric w d,
     reported (get_strong_correlations self threshold) metric w d <->
     reported (correlations self) metric w d /\
     (abs (correlation d) >=? threshold) = true /\ significant d = true) /\
  (forall pearsonr d metric w data,
     let self := snd (calculate_correlations pearsonr (init d)) in
     reported (get_strong_correlations self default_strong_threshold)
              metric w data
     <->
     reported (correlations self) metric w data /\
     (abs (correlation data) >=? double_0_6) = true /\
     (p_value data <? double_0_05) = true) /\
  get_strong_correlations
    (snd (calculate_correlations Samples.high_but_insignificant
                                 (init Samples.weather)))
    default_strong_threshold = [] /\
  get_strong_correlations
    (snd (calculate_correlations Samples.moderate_and_significant
                                 (init Samples.weather)))
    default_strong_threshold
  = [("conversions",
      [("temperature_c",
        {| correlation := double_0_65; p_value := double_0_01;
           significant := true |});
       ("rainfall_mm",
        {| correlation := double_0_65; p_value := double_0_01;
           significant := true |})])] /\
  get_strong_correlations
    (snd (calculate_correlations Samples.exactly_sixty_percent
                                 (init Samples.weather)))
    default_strong_threshold
  = [("conversions",
      [("temperature_c",
        {| correlation := double_0_6; p_value := double_0_01;
           significant := true |});
       ("rainfall_mm",
        {| correlation := double_0_6; p_value := double_0_01;
           significant := true |})])].
Proof.
  split; [exact strong_reported|]. split.
  - intros pearsonr d metric w data self.
    rewrite strong_reported.
    assert (Hc : correlations self
                 = fst (calculate_correlations pearsonr (init d))).
    { unfold self, calculate_correlations.
      destruct (negb _); reflexivity. }
    rewrite Hc. split.
    + intros (Hr & Ht & Hs).
      rewrite (table_significant _ _ _ _ _ Hr) in Hs. auto.
    + intros (Hr & Ht & Hs).
      rewrite (table_significant _ _ _ _ _ Hr). auto.
  - repeat split; vm_compute; reflexivity.
Qed.

(** *** Temperature bands *)

Lemma below_every_band (r : row) :
  (num r "temperature_c" <? Fin 0) = true ->
  Forall (fun band : string * (float * float) =>
            in_range (fst (snd band)) (snd (snd band)) r = false)
         temp_ranges.
Proof.
  intro H. unfold in_range, geb, leb.
  destruct (num r "temperature_c") as [q| | |]; try discriminate H;
    repeat constructor; simpl in *; q_prop; apply andb_false_iff; left;
    apply orb_false_iff; split; q_prop; lra.
Qed.

Lemma above_every_band (r : row) :
  (num r "temperature_c" >=? Fin 50) = true ->
  Forall (fun band : string * (float * float) =>
            in_range (fst (snd band)) (snd (snd band)) r = false)
         temp_ranges.
Proof.
  intro H. unfold in_range, geb, leb in *.
  destruct (num r "temperature_c") as [q| | |]; try discriminate H;
    repeat constructor; simpl in *; try apply andb_false_r.
  all: apply andb_false_iff; right.
  all: apply orb_true_iff in H; destruct H; q_prop; lra.
Qed.

Lemma filter_skip {A : Type} (f : A -> bool) (l1 l2 : list A) (a : A) :
  f a = false -> filter f (l1 ++ a :: l2) = filter f (l1 ++ l2).
Proof. intro H. rewrite !filter_app. simpl. rewrite H. reflexivity. Qed.

Lemma flat_map_agree {A B : Type} (P : A -> Prop) (f g : A -> list B)
  (l : list A) :
  Forall P l -> (forall x, P x -> f x = g x) -> flat_map f l = flat_map g l.
Proof.
  intros H E. induction H as [|a l Ha _ IH]; simpl; [reflexivity|].
  rewrite (E a Ha), IH. reflexivity.
Qed.

Lemma bands_ignore_row (cols : list string) (c c' : correlation_table)
  (rs1 rs2 : list row) (r : row) :
  Forall (fun band : string * (float * float) =>
            in_range (fst (snd band)) (snd (snd band)) r = false)
         temp_ranges ->
  analyze_temperature_ranges
    {| df := mkFrame cols (rs1 ++ r :: rs2); correlations := c |}
  = analyze_temperature_ranges
      {| df := mkFrame cols (rs1 ++ rs2); correlations := c' |}.
Proof.
  intro H. unfold analyze_temperature_ranges, has_col. cbn [df columns rows].
  destruct (negb _); [reflexivity|].
  apply (flat_map_agree _ _ _ _ H).
  intros [name [lo hi]] Hb. cbn [fst snd] in Hb.
  rewrite (filter_skip _ _ _ _ Hb). reflexivity.
Qed.

(** C10. A row whose temperature is below 0 or at least 50 lies in none of
    the five bands; the band analysis, and with it the temperature-band
    insight and the temperature recommendation, is the same with the row as
    without it. *)
Theorem out_of_band_rows_ignored (cols : list string)
  (c c' : correlation_table) (rs1 rs2 : list row) (r : row) :
  (num r "temperature_c" <? Fin 0) = true
  \/ (num r "temperature_c" >=? Fin 50) = true ->
  let with_row :=
    {| df := mkFrame cols (rs1 ++ r :: rs2); correlations := c |} in
  let without :=
    {| df := mkFrame cols (rs1 ++ rs2); correlations := c' |} in
  Forall (fun band : string * (float * float) =>
            in_range (fst (snd band)) (snd (snd band)) r = false)
         temp_ranges /\
  analyze_temperature_ranges with_row = analyze_temperature_ranges without /\
  temperature_insights with_row = temperature_insights without /\
  temperature_recommendations with_row
  = temperature_recommendations without.
Proof.
  intros H with_row without.
  assert (Hb : Forall (fun band : string * (float * float) =>
                         in_range (fst (snd band)) (snd (snd band)) r
                         = false) temp_ranges).
  { destruct H; [apply below_every_band|apply above_every_band];
      assumption. }
  pose proof (bands_ignore_row cols c c' rs1 rs2 r Hb) as E.
  fold with_row without in E.
  split; [exact Hb|]. split; [exact E|].
  unfold temperature_insights, temperature_recommendations.
  rewrite E. split; reflexivity.
Qed.

Lemma out_of_band_rows_ignored_witness :
  let with_row :=
    {| df := mkFrame Samples.weather_columns
                     (rows Samples.weather ++ Samples.heat_wave :: []);
       correlations := [] |} in
  let without :=
    {| df := mkFrame Samples.weather_columns (rows Samples.weather ++ []);
       correlations := [] |} in
  Forall (fun band : string * (float * float) =>
            in_range (fst (snd band)) (snd (snd band)) Samples.heat_wave
            = false)
         temp_ranges /\
  analyze_temperature_ranges with_row = analyze_temperature_ranges without /\
  temperature_insights with_row = temperature_insights without /\
  temperature_recommendations with_row
  = temperature_recommendations without.
Proof.
  apply (out_of_band_rows_ignored Samples.weather_columns [] []
           (rows Samples.weather) [] Samples.heat_wave).
  right. reflexivity.
Defined.

End WeatherFacts.

(* ------------------------------------------------------------------------- *)
(** ** Benchmark comparison *)

Module BenchmarkFacts.

Import BenchmarkAnalyzer FloatFacts.
Local Open Scope float_scope.

(** Splits on every rational comparison of the goal and decides each
    resulting case by linear arithmetic. *)
Ltac ladder_cases q :=
  repeat match goal with
  | |- context [Qltb ?a ?b] => destruct (Qltb a b) eqn:?
  end;
  cbn [andb orb negb];
  repeat split; intros;
  repeat match goal with
  | H : _ /\ _ |- _ => destruct H
  end;
  try discriminate; try reflexivity;
  exfalso; q_prop;
  let Hsign := fresh "Hsign" in
  let Habs := fresh "Habs" in
  destruct (Qlt_le_dec q 0) as [Hsign|Hsign];
  [ pose proof (Qabs_neg q (Qlt_le_weak _ _ Hsign)) as Habs
  | pose proof (Qabs_pos q Hsign) as Habs ];
  lra.

Lemma overall_ladder (pct : float) :
  (overall_tier pct = in_line <-> (abs pct <? Fin 5) = true) /\
  (overall_tier pct = top_20 <-> (pct >? Fin 20) = true) /\
  (overall_tier pct = top_40 <->
     (pct >? Fin 10) = true /\ (pct >? Fin 20) = false) /\
  (overall_tier pct = bottom_20 <-> (pct <? Fin (- 20)) = true) /\
  (overall_tier pct = bottom_40 <->
     (pct <? Fin (- 10)) = true /\ (pct <? Fin (- 20)) = false) /\
  (overall_tier pct = average <->
     (abs pct <? Fin 5) = false /\ (pct >? Fin 10) = false /\
     (pct <? Fin (- 10)) = false).
Proof.
  unfold overall_tier, gtb.
  destruct pct as [q| | |]; cbn [abs ltb];
    [ladder_cases q | | |];
    repeat split; intros;
    repeat match goal with H : _ /\ _ |- _ => destruct H end;
    try discriminate; reflexivity.
Qed.

Lemma channel_ladder (pct : float) :
  (channel_tier pct = in_line <-> (abs pct <? Fin 5) = true) /\
  (channel_tier pct = top_20 <-> (pct >? Fin 15) = true) /\
  (channel_tier pct = top_40 <->
     (pct >? Fin 5) = true /\ (pct >? Fin 15) = false) /\
  (channel_tier pct = bottom_20 <-> (pct <? Fin (- 15)) = true) /\
  (channel_tier pct = bottom_40 <->
     (pct <? Fin (- 5)) = true /\ (pct <? Fin (- 15)) = false) /\
  (channel_tier pct = average <->
     (abs pct <? Fin 5) = false /\ (pct >? Fin 5) = false /\
     (pct <? Fin (- 5)) = false).
Proof.
  unfold channel_tier, gtb.
  destruct pct as [q| | |]; cbn [abs ltb];
    [ladder_cases q | | |];
    repeat split; intros;
    repeat match goal with H : _ /\ _ |- _ => destruct H end;
    try discriminate; reflexivity.
Qed.

Lemma compare_dicts_Forall (P : string -> comparison -> Prop)
  (entry : string -> float -> float -> comparison)
  (client bench : kpi_dict) :
  (forall name c b,
     In name ["ctr"; "cpc"; "cvr"; "cpa"; "roas"] -> P name (entry name c b))
  ->
  Forall (fun kv => P (fst kv) (snd kv)) (compare_dicts entry client bench).
Proof.
  intro H. unfold compare_dicts.
  apply Forall_flat_map, Forall_forall. intros [k b] Hin.
  apply (in_map fst) in Hin.
  change (In k ["ctr"; "cpc"; "cvr"; "cpa"; "roas"]) in Hin.
  destruct (Dict.lookup _ client k); [|constructor].
  destruct (Dict.lookup _ bench b); constructor; [|constructor].
  apply H, Hin.
Qed.

Lemma set_Forall {V : Type} (R : V -> Prop) (d : list (string * V))
  (k : string) (v : V) :
  Forall (fun kv => R (snd kv)) d -> R v ->
  Forall (fun kv => R (snd kv)) (Dict.set String.eqb d k v).
Proof.
  intros H Hv. induction H as [|[k' v'] d Hk Hd IH]; simpl.
  - repeat constructor. exact Hv.
  - destruct (String.eqb k' k); constructor; assumption.
Qed.

Lemma by_channel_Forall (R : comparison_dict -> Prop) (self : analyzer) :
  (forall client bench,
     R (compare_dicts compare_channel_entry client bench)) ->
  Forall (fun cc => R (snd cc)) (fst (compare_by_channel self)).
Proof.
  intro H. unfold compare_by_channel.
  destruct (by_channel (kpi_summary self)) as [chs|]; [|constructor].
  destruct (is_empty (benchmarks self)); [constructor|]. cbn [fst].
  assert (G : forall acc,
             Forall (fun cc : string * comparison_dict => R (snd cc)) acc ->
             Forall (fun cc : string * comparison_dict => R (snd cc))
               (fold_left
                  (fun (acc : list (string * comparison_dict))
                       (ck : string * kpi_dict) =>
                     let (channel, client_kpi) := ck in
                     let own :=
                       or_empty
                         (Dict.lookup String.eqb (benchmarks self) channel) in
                     let channel_bench :=
                       if is_empty own
                       then or_empty
                              (Dict.lookup String.eqb (benchmarks self)
                                           "overall")
                       else own in
                     Dict.set String.eqb acc channel
                       (compare_dicts compare_channel_entry client_kpi
                                      channel_bench))
                  chs acc)).
  { induction chs as [|[ch kp] chs IH]; intros acc Hacc; simpl;
      [exact Hacc|].
    apply IH. apply set_Forall; [exact Hacc|apply H]. }
  apply G. constructor.
Qed.

Lemma overall_Forall (P : string -> comparison -> Prop) (self : analyzer) :
  (forall name c b,
     In name ["ctr"; "cpc"; "cvr"; "cpa"; "roas"] ->
     P name (compare_overall_entry name c b)) ->
  Forall (fun kv => P (fst kv) (snd kv)) (fst (compare_overall_metrics self)).
Proof.
  intro H. unfold compare_overall_metrics.
  destruct (Dict.lookup _ (benchmarks self) "overall"); [|constructor].
  cbn [fst]. apply compare_dicts_Forall, H.
Qed.

Lemma eqb_twelve (pct : float) :
  (pct ==? Fin 12) = true ->
  overall_tier pct = top_40 /\ channel_tier pct = top_40.
Proof.
  intro H. destruct pct as [q| | |]; try discriminate H. cbn [eqb] in H.
  split.
  - apply (proj1 (proj2 (proj2 (overall_ladder (Fin q))))).
    unfold gtb. cbn [ltb]. split; q_prop; lra.
  - apply (proj1 (proj2 (proj2 (channel_ladder (Fin q))))).
    unfold gtb. cbn [ltb]. split; q_prop; lra.
Qed.

(** C4, as the code has it.  Each overall entry is tiered by the overall
    ladder and each channel entry by the channel ladder, and the ladders
    are the ones the claim lists.  A difference of 12% is [top_40] on both;
    the ladders part at 17%, which is [top_40] overall and [top_20] on a
    channel. *)
Theorem tier_ladders :
  (forall self,
     Forall (fun kv : string * comparison =>
               tier (snd kv) = overall_tier (pct_difference (snd kv)))
            (fst (compare_overall_metrics self))) /\
  (forall self,
     Forall (fun cc : string * comparison_dict =>
               Forall (fun kv : string * comparison =>
                         tier (snd kv)
                         = channel_tier (pct_difference (snd kv)))
                      (snd cc))
            (fst (compare_by_channel self))) /\
  (forall pct,
     (overall_tier pct = in_line <-> (abs pct <? Fin 5) = true) /\
     (overall_tier pct = top_20 <-> (pct >? Fin 20) = true) /\
     (overall_tier pct = top_40 <->
        (pct >? Fin 10) = true /\ (pct >? Fin 20) = false) /\
     (overall_tier pct = bottom_20 <-> (pct <? Fin (- 20)) = true) /\
     (overall_tier pct = bottom_40 <->
        (pct <? Fin (- 10)) = true /\ (pct <? Fin (- 20)) = false) /\
     (overall_tier pct = average <->
        (abs pct <? Fin 5) = false /\ (pct >? Fin 10) = false /\
        (pct <? Fin (- 10)) = false)) /\
  (forall pct,
     (channel_tier pct = in_line <-> (abs pct <? Fin 5) = true) /\
     (channel_tier pct = top_20 <-> (pct >? Fin 15) = true) /\
     (channel_tier pct = top_40 <->
        (pct >? Fin 5) = true /\ (pct >? Fin 15) = false) /\
     (channel_tier pct = bottom_20 <-> (pct <? Fin (- 15)) = true) /\
     (channel_tier pct = bottom_40 <->
        (pct <? Fin (- 5)) = true /\ (pct <? Fin (- 15)) = false) /\
     (channel_tier pct = average <->
        (abs pct <? Fin 5) = false /\ (pct >? Fin 5) = false /\
        (pct <? Fin (- 5)) = false)) /\
  (forall pct,
     (pct ==? Fin 12) = true ->
     overall_tier pct = top_40 /\ channel_tier pct = top_40) /\
  overall_tier (Fin 17) = top_40 /\ channel_tier (Fin 17) = top_20 /\
  map (fun kv : string * comparison =>
         (fst kv, pct_difference (snd kv), tier (snd kv)))
      (fst (compare_overall_metrics Samples.twelve_percent))
  = [("ctr", Fin 12, top_40); ("cpc", Fin 100, top_20);
     ("roas", Fin 50, top_20)].
Proof.
  split.
  { intro self.
    apply (overall_Forall
             (fun _ e => tier e = overall_tier (pct_difference e))).
    reflexivity. }
  split.
  { intro self.
    apply (by_channel_Forall
             (Forall (fun kv : string * comparison =>
                        tier (snd kv)
                        = channel_tier (pct_difference (snd kv))))).
    intros client bench.
    apply (compare_dicts_Forall
             (fun _ e => tier e = channel_tier (pct_difference e))).
    reflexivity. }
  split; [exact overall_ladder|].
  split; [exact channel_ladder|].
  split; [exact eqb_twelve|].
  repeat (split; [vm_compute; reflexivity|]).
  vm_compute; reflexivity.
Qed.

Lemma tier_ladders_witness :
  overall_tier (Fin (24 # 2)) = top_40 /\
  channel_tier (Fin (24 # 2)) = top_40.
Proof.
  apply (proj1 (proj2 (proj2 (proj2 (proj2 tier_ladders))))).
  reflexivity.
Defined.

(** C4 fails as stated: the channel comparison of a click-through rate 12%
    above the benchmark is tiered [top_40], not [top_20], since 12 is not
    above 15. *)
Lemma channel_twelve_counterexample :
  map (fun cc : string * comparison_dict =>
         (fst cc,
          map (fun kv : string * comparison =>
                 (fst kv, pct_difference (snd kv), tier (snd kv)))
              (snd cc)))
      (fst (compare_by_channel Samples.twelve_percent))
  = [("email", [("ctr", Fin 12, top_40); ("cpc", Fin 100, top_20)])] /\
  channel_tier (Fin 12) <> top_20.
Proof.
  split; [vm_compute; reflexivity|]. vm_compute. discriminate.
Qed.

(** C5, as the code has it.  In the overall comparison, status follows the
    sign of the difference alone, and performance is read the other way
    round for the cost metrics cpc and cpa.  The channel comparison stores
    neither a status nor a performance. *)
Theorem overall_status_and_performance :
  (forall self,
     Forall (fun kv : string * comparison => sign_rule (fst kv) (snd kv))
            (fst (compare_overall_metrics self))) /\
  (forall self,
     Forall (fun cc : string * comparison_dict =>
               Forall (fun kv : string * comparison =>
                         status (snd kv) = None
                         /\ performance (snd kv) = None)
                      (snd cc))
            (fst (compare_by_channel self))) /\
  map (fun kv : string * comparison =>
         (fst kv, status (snd kv), performance (snd kv)))
      (fst (compare_overall_metrics Samples.twelve_percent))
  = [("ctr", Some above, Some better); ("cpc", Some above, Some worse);
     ("roas", Some above, Some better)].
Proof.
  split.
  { intro self. apply (overall_Forall sign_rule).
    intros name c b Hin. unfold sign_rule, compare_overall_entry.
    cbn [difference client_value benchmark_value status performance].
    eexists. split; [reflexivity|]. split; [reflexivity|].
    split; [reflexivity|]. split; [|split; [|exact Hin]].
    - intros [<-|[<-|[]]]; reflexivity.
    - intros [<-|[<-|[<-|[]]]]; reflexivity. }
  split.
  { intro self.
    apply (by_channel_Forall
             (Forall (fun kv : string * comparison =>
                        status (snd kv) = None
                        /\ performance (snd kv) = None))).
    intros client bench.
    apply (compare_dicts_Forall
             (fun _ e => status e = None /\ performance e = None)).
    intros; split; reflexivity. }
  vm_compute; reflexivity.
Qed.

(** C5 fails as stated on the channel comparison: the cpc entry of a
    channel whose cost per click is above the benchmark has no performance
    and no status. *)
Lemma channel_performance_counterexample :
  exists e,
    fst (compare_by_channel Samples.twelve_percent)
    = [("email", [("ctr", compare_channel_entry "ctr" (Fin 112) (Fin 100));
                  ("cpc", e)])] /\
    (client_value e - benchmark_value e >? zero) = true /\
    performance e <> Some worse /\
    performance e = None /\ status e = None.
Proof.
  eexists. split; [vm_compute; reflexivity|].
  split; [vm_compute; reflexivity|].
  split; [discriminate|]. split; reflexivity.
Qed.

End BenchmarkFacts.

(* ------------------------------------------------------------------------- *)
(** ** Recommendation counts *)

Module RecommendationFacts.

Local Open Scope nat_scope.

Lemma flat_map_at_most_one {A B : Type} (f : A -> list B) (l : list A) :
  (forall x, List.length (f x) <= 1) ->
  List.length (flat_map f l) <= List.length l.
Proof.
  intro H. induction l as [|a l IH]; simpl; [lia|].
  rewrite length_app. specialize (H a). lia.
Qed.

Lemma filter_none {A : Type} (f : A -> bool) (l : list A) :
  Forall (fun x => f x = false) l -> filter f l = [].
Proof.
  induction 1 as [|a l Ha _ IH]; simpl; [reflexivity|].
  rewrite Ha. exact IH.
Qed.

Lemma filter_all {A : Type} (f : A -> bool) (l : list A) :
  Forall (fun x => f x = true) l -> filter f l = l.
Proof.
  induction 1 as [|a l Ha _ IH]; simpl; [reflexivity|].
  rewrite Ha, IH. reflexivity.
Qed.

Lemma spike_or_drop_count (self : AnomalyDetector.detector) :
  List.length
    (filter AnomalyDetector.is_spike_or_drop
            (AnomalyDetector.generate_anomaly_recommendations self))
  = Nat.min 3 (List.length (AnomalyDetector.get_critical_anomalies self)).
Proof.
  unfold AnomalyDetector.generate_anomaly_recommendations.
  rewrite !filter_app.
  rewrite (filter_none AnomalyDetector.is_spike_or_drop
             (match AnomalyDetector.get_critical_anomalies self with
              | [] => []
              | _ :: _ => _
              end)).
  2:{ destruct (AnomalyDetector.get_critical_anomalies self);
      repeat constructor. }
  rewrite (filter_none AnomalyDetector.is_spike_or_drop (flat_map _ _)).
  2:{ apply Forall_flat_map, Forall_forall. intros [m l] _.
      destruct (2 <? List.length l); repeat constructor. }
  rewrite filter_all.
  2:{ apply Forall_forall. intros r Hr. apply in_map_iff in Hr.
      destruct Hr as (a & <- & _).
      destruct (Float.gtb _ _); reflexivity. }
  cbn [app]. rewrite length_map, length_firstn. reflexivity.
Qed.

Lemma weakness_rec_count (self : BenchmarkAnalyzer.analyzer) :
  List.length
    (filter BenchmarkAnalyzer.is_weakness_rec
            (BenchmarkAnalyzer.generate_benchmark_recommendations self))
  <= 3.
Proof.
  unfold BenchmarkAnalyzer.generate_benchmark_recommendations.
  rewrite filter_app, length_app.
  assert (H1 : List.length
                 (filter BenchmarkAnalyzer.is_weakness_rec
                    (flat_map BenchmarkAnalyzer.weakness_recommendation
                       (firstn 3
                          (BenchmarkAnalyzer.get_weaknesses self
                             (Fin (- 10)))))) <= 3).
  { etransitivity; [apply filter_length_le|].
    etransitivity; [apply flat_map_at_most_one|].
    - intro w. unfold BenchmarkAnalyzer.weakness_recommendation.
      repeat match goal with
      | |- context [if ?b then _ else _] => destruct b
      end; simpl; lia.
    - rewrite length_firstn. lia. }
  assert (H2 : List.length
                 (filter BenchmarkAnalyzer.is_weakness_rec
                    match BenchmarkAnalyzer.get_strengths self (Fin 10) with
                    | [] => []
                    | s :: _ =>
                        [{| BenchmarkAnalyzer.r_type :=
                              BenchmarkAnalyzer.scale_success;
                            BenchmarkAnalyzer.r_priority :=
                              BenchmarkAnalyzer.p_medium;
                            BenchmarkAnalyzer.r_metric :=
                              BenchmarkAnalyzer.s_metric s;
                            BenchmarkAnalyzer.r_gap :=
                              BenchmarkAnalyzer.pct_above s |}]
                    end) = 0).
  { destruct (BenchmarkAnalyzer.get_strengths self (Fin 10)); reflexivity. }
  rewrite H2. lia.
Qed.

(** C9. Whatever the input, the anomaly pass emits one spike or drop
    recommendation for each of the first three critical anomalies and no
    other, hence at most 3, and the benchmark pass emits at most 3
    remediation recommendations for weaknesses. *)
Theorem recommendation_count_bounds :
  (forall self : AnomalyDetector.detector,
     List.length
       (filter AnomalyDetector.is_spike_or_drop
               (AnomalyDetector.generate_anomaly_recommendations self))
     = Nat.min 3
         (List.length (AnomalyDetector.get_critical_anomalies self))) /\
  (forall self : AnomalyDetector.detector,
     List.length
       (filter AnomalyDetector.is_spike_or_drop
               (AnomalyDetector.generate_anomaly_recommendations self))
     <= 3) /\
  (forall self : BenchmarkAnalyzer.analyzer,
     List.length
       (filter BenchmarkAnalyzer.is_weakness_rec
               (BenchmarkAnalyzer.generate_benchmark_recommendations self))
     <= 3).
Proof.
  split; [exact spike_or_drop_count|].
  split; [|exact weakness_rec_count].
  intro self. rewrite spike_or_drop_count. lia.
Qed.

End RecommendationFacts.

(* ------------------------------------------------------------------------- *)
(** ** KPI aggregation: errors, keys and dates *)

Module KPIShapeFacts.

Import KPICalculator FloatFacts.
Local Open Scope float_scope.

(** X1. On a frame whose summed columns hold numbers, the overall
    aggregation raises exactly when one of the five summed columns is
    missing from the frame; the visits column is optional, and its total
    is 0 when the frame has none. *)
Theorem basic_kpis_raise_on_missing_column (d : DataFrame) :
  numeric d (required_columns ++ ["visits"]) = true ->
  (calculate_basic_kpis d = None <->
   exists c, In c required_columns /\ has_col d c = false) /\
  (forall k, calculate_basic_kpis d = Some k ->
             has_col d "visits" = false -> total_visits k = zero).
Proof.
  intros _.
  unfold calculate_basic_kpis, col_sum, required_columns. split.
  - destruct (has_col d "impressions") eqn:E1;
      [|split; [intros _; exists "impressions"; simpl; tauto|reflexivity]].
    destruct (has_col d "clicks") eqn:E2;
      [|split; [intros _; exists "clicks"; simpl; tauto|reflexivity]].
    destruct (has_col d "conversions") eqn:E3;
      [|split; [intros _; exists "conversions"; simpl; tauto|reflexivity]].
    destruct (has_col d "spend") eqn:E4;
      [|split; [intros _; exists "spend"; simpl; tauto|reflexivity]].
    destruct (has_col d "revenue") eqn:E5;
      [|split; [intros _; exists "revenue"; simpl; tauto|reflexivity]].
    split; [discriminate|].
    intros (c & Hc & Hf). simpl in Hc.
    repeat (destruct Hc as [<-|Hc]; [congruence|]). destruct Hc.
  - intros k H Hv.
    repeat match type of H with
    | match (if ?b then _ else _) with _ => _ end = _ =>
        destruct b; [|discriminate H]
    end.
    injection H as <-. cbn [total_visits]. rewrite Hv. reflexivity.
Qed.

Lemma basic_kpis_raise_on_missing_column_witness :
  calculate_basic_kpis Samples.constant = None /\
  exists k,
    calculate_basic_kpis Samples.no_visits = Some k /\
    total_clicks k = Fin 30 /\ total_visits k = zero.
Proof.
  split.
  - apply (proj1 (basic_kpis_raise_on_missing_column Samples.constant
                    eq_refl)).
    exists "impressions". split; [now left|reflexivity].
  - eexists. split; [reflexivity|]. split; [reflexivity|].
    apply (proj2 (basic_kpis_raise_on_missing_column Samples.no_visits
                    eq_refl) _ eq_refl eq_refl).
Defined.

Ltac unfold_bind H :=
  repeat match type of H with
  | match ?e with Some _ => _ | None => _ end = Some _ =>
      destruct e eqn:?; [| discriminate H]
  end.

Lemma group_record_ratios (d : DataFrame) (c : string) (v : cell)
  (k : group_kpi) :
  group_record d c v = Some k ->
  g_key k = v /\
  g_ctr k = (if g_impressions k >? zero
             then g_clicks k / g_impressions k * hundred else zero) /\
  g_cpc k = (if g_clicks k >? zero
             then g_spend k / g_clicks k else zero) /\
  g_cvr k = (if g_clicks k >? zero
             then g_conversions k / g_clicks k * hundred else zero) /\
  g_cpa k = (if g_conversions k >? zero
             then g_spend k / g_conversions k else zero) /\
  g_roas k = (if g_spend k >? zero
              then g_revenue k / g_spend k else zero).
Proof.
  unfold group_record. intro H. unfold_bind H. injection H as <-.
  cbn [g_key g_ctr g_cpc g_cvr g_cpa g_roas g_impressions g_clicks
       g_conversions g_spend g_revenue].
  repeat split.
Qed.

(** *** Group keys *)

Lemma cell_same_refl (x : cell) : cell_same x x = true.
Proof.
  destruct x as [[q| | |]|s|z]; simpl; trivial.
  - apply Qeq_bool_iff. reflexivity.
  - apply String.eqb_refl.
  - apply Z.eqb_refl.
Qed.

Lemma cell_same_sym (x y : cell) : cell_same x y = cell_same y x.
Proof.
  destruct x as [[q| | |]|s|z], y as [[q'| | |]|s'|z']; simpl; trivial.
  - destruct (Qeq_bool q q') eqn:E.
    + symmetry. apply Qeq_bool_iff. apply Qeq_bool_iff in E.
      symmetry. exact E.
    + symmetry. apply Qeqb_false. apply Qeqb_false in E.
      intro E'. apply E. symmetry. exact E'.
  - apply String.eqb_sym.
  - apply Z.eqb_sym.
Qed.

Lemma unique_from_spec (seen l : list cell) :
  Forall (fun x => existsb (cell_same x) seen = false) (unique_from seen l)
  /\ distinct_keys (unique_from seen l)
  /\ Forall (fun x => existsb (cell_same x) seen = true
                      \/ existsb (cell_same x) (unique_from seen l) = true)
            l.
Proof.
  revert seen. induction l as [|x l IH]; intro seen; simpl.
  - repeat split; constructor.
  - destruct (existsb (cell_same x) seen) eqn:E.
    + destruct (IH seen) as (H1 & H2 & H3).
      repeat split; trivial. constructor; auto.
    + destruct (IH (x :: seen)) as (H1 & H2 & H3).
      split; [|split].
      * constructor; [exact E|].
        eapply Forall_impl; [|exact H1]. intros y Hy. simpl in Hy.
        apply orb_false_iff in Hy. apply Hy.
      * simpl. split; [|exact H2].
        destruct (existsb (cell_same x) (unique_from (x :: seen) l)) eqn:Ex;
          [|reflexivity].
        apply existsb_exists in Ex. destruct Ex as (y & Hy & Hxy).
        rewrite Forall_forall in H1. specialize (H1 y Hy). simpl in H1.
        apply orb_false_iff in H1. rewrite cell_same_sym in Hxy.
        destruct H1 as [H1 _]. congruence.
      * constructor.
        -- right. simpl. rewrite cell_same_refl. reflexivity.
        -- eapply Forall_impl; [|exact H3]. intros y [Hy|Hy].
           ++ simpl in Hy. apply orb_true_iff in Hy. destruct Hy as [Hy|Hy].
              ** right. simpl. rewrite Hy. reflexivity.
              ** now left.
           ++ right. simpl. rewrite Hy. apply orb_true_r.
Qed.

Lemma for_each_keys {A : Type} (f : cell -> option A) (keys : list cell)
  (out : list (cell * A)) :
  for_each f keys = Some out -> map fst out = keys.
Proof.
  revert out. induction keys as [|x keys IH]; simpl; intros out H.
  - injection H as <-. reflexivity.
  - destruct (f x); [|discriminate].
    destruct (for_each f keys); [|discriminate].
    injection H as <-. simpl. f_equal. auto.
Qed.

(** X3. The per-channel aggregation has one entry for each distinct
    channel, in order of first appearance: no two keys are the same, the
    channel of every row is a key, and each record carries its key.  A
    frame without a channel column gives the empty dictionary. *)
Theorem by_channel_keys (d : DataFrame) (out : list (cell * group_kpi)) :
  calculate_by_channel d = Some out ->
  (has_col d "channel" = false -> out = []) /\
  (has_col d "channel" = true ->
   map fst out = unique (rows d) "channel" /\
   distinct_keys (map fst out) /\
   Forall (fun r => existsb (cell_same (get r "channel")) (map fst out)
                    = true) (rows d) /\
   Forall (fun kv => g_key (snd kv) = fst kv) out).
Proof.
  unfold calculate_by_channel. intro H.
  destruct (has_col d "channel"); simpl in H.
  - split; [discriminate|]. intros _.
    pose proof (for_each_keys _ _ _ H) as Hk. rewrite Hk.
    unfold unique.
    destruct (unique_from_spec [] (map (fun r => get r "channel") (rows d)))
      as (_ & H2 & H3).
    split; [reflexivity|]. split; [exact H2|]. split.
    + rewrite Forall_map in H3.
      eapply Forall_impl; [|exact H3]. intros r [Hr|Hr];
        [discriminate Hr|exact Hr].
    + apply Forall_forall. intros [key k] Hin.
      apply (KPIFacts.for_each_In _ _ _ H) in Hin.
      apply (group_record_ratios _ _ _ _ Hin).
  - injection H as <-. split; [reflexivity|discriminate].
Qed.

Lemma by_channel_keys_witness :
  exists out,
    calculate_by_channel Samples.mixed_days = Some out /\
    map fst out = [Str "email"; Str "search"] /\
    map fst out = unique (rows Samples.mixed_days) "channel" /\
    distinct_keys (map fst out).
Proof.
  eexists. split; [reflexivity|]. split; [reflexivity|].
  destruct (proj2 (by_channel_keys Samples.mixed_days _ eq_refl) eq_refl)
    as (K & D & _).
  split; [exact K|exact D].
Defined.

(** *** Rows without a key *)

Lemma select_missing (rs : list row) (c : string) :
  select rs c (Num NaN) = [].
Proof.
  unfold select. induction rs as [|r rs IH]; simpl; [reflexivity|].
  destruct (get r c) as [[q| | |]|s|z]; exact IH.
Qed.

Lemma same_as_missing (x : cell) :
  cell_same (Num NaN) x = true -> x = Num NaN.
Proof. destruct x as [[q| | |]|s|z]; simpl; congruence. Qed.

Lemma missing_key_listed (rs : list row) (c : string) :
  (exists r, In r rs /\ get r c = Num NaN) -> In (Num NaN) (unique rs c).
Proof.
  intros (r & Hr & Hg). unfold unique.
  destruct (unique_from_spec [] (map (fun r => get r c) rs)) as (_ & _ & H).
  rewrite Forall_map, Forall_forall in H. specialize (H r Hr).
  rewrite Hg in H. destruct H as [H|H]; [discriminate H|].
  apply existsb_exists in H. destruct H as (x & Hx & Hs).
  apply same_as_missing in Hs. subst x. exact Hx.
Qed.

Lemma missing_key_record (d : DataFrame) (c : string) (k : group_kpi) :
  group_record d c (Num NaN) = Some k ->
  g_impressions k = zero /\ g_clicks k = zero /\ g_conversions k = zero /\
  g_spend k = zero /\ g_revenue k = zero /\
  g_ctr k = zero /\ g_cpc k = zero /\ g_cvr k = zero /\ g_cpa k = zero /\
  g_roas k = zero.
Proof.
  unfold group_record, col_sum. rewrite select_missing. intro H.
  unfold_bind H. injection H as <-.
  repeat match goal with
  | E : (if ?b then _ else _) = Some _ |- _ =>
      destruct b; [injection E as <-|discriminate E]
  end.
  repeat split.
Qed.

(** X2. Rows whose channel (or campaign) is missing are counted under no
    key.  When the frame has such a row the per-channel (per-campaign)
    dictionary gets an entry keyed by the missing value, and every total
    and every ratio of that entry is 0, whatever the rows hold. *)
Theorem missing_key_rows_are_dropped (d : DataFrame) (c : string)
  (out : list (cell * group_kpi)) :
  (c = "channel" /\ calculate_by_channel d = Some out)
  \/ (c = "campaign" /\ calculate_by_campaign d = Some out) ->
  has_col d c = true ->
  (exists r, In r (rows d) /\ get r c = Num NaN) ->
  exists k,
    In (Num NaN, k) out /\
    g_impressions k = zero /\ g_clicks k = zero /\ g_conversions k = zero /\
    g_spend k = zero /\ g_revenue k = zero /\
    g_ctr k = zero /\ g_cpc k = zero /\ g_cvr k = zero /\ g_cpa k = zero /\
    g_roas k = zero.
Proof.
  intros H Hc Hr.
  assert (F : for_each (group_record d c) (unique (rows d) c) = Some out).
  { destruct H as [[-> H]|[-> H]];
      unfold calculate_by_channel, calculate_by_campaign in H;
      rewrite Hc in H; exact H. }
  pose proof (missing_key_listed _ _ Hr) as Hk.
  rewrite <- (for_each_keys _ _ _ F) in Hk.
  apply in_map_iff in Hk. destruct Hk as ([key k] & E & Hin).
  cbn [fst] in E. subst key. exists k. split; [exact Hin|].
  apply (missing_key_record d c).
  exact (KPIFacts.for_each_In _ _ _ F _ _ Hin).
Qed.

Lemma missing_key_rows_are_dropped_witness :
  exists k,
    map fst (match calculate_by_channel Samples.unlabelled_row with
             | Some out => out
             | None => []
             end) = [Str "email"; Num NaN] /\
    In (Num NaN, k)
       (match calculate_by_channel Samples.unlabelled_row with
        | Some out => out
        | None => []
        end) /\
    g_clicks k = zero /\ g_spend k = zero /\ g_cpc k = zero.
Proof.
  destruct (missing_key_rows_are_dropped Samples.unlabelled_row "channel"
              _ (or_introl (conj eq_refl eq_refl)) eq_refl)
    as (k & Hin & _ & Hc & _ & Hs & _ & _ & Hp & _).
  - eexists. split; [right; left; reflexivity|reflexivity].
  - exists k. split; [reflexivity|]. split; [exact Hin|]. auto.
Defined.


(** *** Calendar dates *)

Lemma insert_day_In (x day : Z) (l : list Z) :
  In x (insert_day day l) <-> x = day \/ In x l.
Proof.
  induction l as [|e l IH]; simpl.
  - intuition.
  - destruct (day <? e)%Z eqn:E1; [simpl; intuition|].
    destruct (day =? e)%Z eqn:E2.
    + apply Z.eqb_eq in E2. subst. simpl. intuition.
    + simpl. rewrite IH. intuition.
Qed.

Lemma insert_day_sorted (day : Z) (l : list Z) :
  StronglySorted Z.lt l -> StronglySorted Z.lt (insert_day day l).
Proof.
  induction 1 as [|e l Hs IH Hl]; simpl.
  - repeat constructor.
  - destruct (day <? e)%Z eqn:E1.
    + apply Z.ltb_lt in E1. constructor; [constructor; assumption|].
      constructor; [exact E1|].
      eapply Forall_impl; [|exact Hl]. intros; lia.
    + destruct (day =? e)%Z eqn:E2; [constructor; assumption|].
      apply Z.ltb_ge in E1. apply Z.eqb_neq in E2.
      constructor; [exact IH|].
      apply Forall_forall. intros x Hx. apply insert_day_In in Hx.
      destruct Hx as [->|Hx]; [lia|].
      rewrite Forall_forall in Hl. auto.
Qed.

Lemma group_days_spec (rs : list row) (acc : list Z) :
  StronglySorted Z.lt acc ->
  let out :=
    fold_left (fun acc r => match get r "date" with
                            | Day d => insert_day d acc
                            | _ => acc
                            end) rs acc in
  StronglySorted Z.lt out /\
  (forall day, In day out <->
               In day acc \/ exists r, In r rs /\ get r "date" = Day day).
Proof.
  revert acc. induction rs as [|r rs IH]; simpl; intros acc Hs.
  - split; [exact Hs|]. intro day. split; [auto|].
    intros [H|(r & [] & _)]. exact H.
  - destruct (get r "date") as [x|s|day0] eqn:E.
    + destruct (IH acc Hs) as [H1 H2]. split; [exact H1|].
      intro day. rewrite H2. split.
      * intros [H|(r' & Hr & Hd)]; eauto.
      * intros [H|(r' & [<-|Hr] & Hd)]; eauto. congruence.
    + destruct (IH acc Hs) as [H1 H2]. split; [exact H1|].
      intro day. rewrite H2. split.
      * intros [H|(r' & Hr & Hd)]; eauto.
      * intros [H|(r' & [<-|Hr] & Hd)]; eauto. congruence.
    + destruct (IH _ (insert_day_sorted day0 acc Hs)) as [H1 H2].
      split; [exact H1|].
      intro day. rewrite H2, insert_day_In. split.
      * intros [[->|H]|(r' & Hr & Hd)]; eauto.
      * intros [H|(r' & [<-|Hr] & Hd)]; eauto.
        left. left. congruence.
Qed.

Lemma fillna0_not_nan (x : float) : is_nan (fillna0 x) = false.
Proof. destruct x; reflexivity. Qed.

(** X4. The per-date aggregation lists every date of the frame once, in
    strictly increasing order, rows without a date belonging to no entry;
    none of the five daily ratios is ever NaN. *)
Theorem by_date_days (d : DataFrame) (out : list daily_kpi) :
  has_col d "date" = true ->
  calculate_by_date d = Some out ->
  StronglySorted Z.lt (map d_date out) /\
  (forall day,
     In day (map d_date out) <->
     exists r, In r (rows d) /\ get r "date" = Day day) /\
  Forall (fun k =>
            is_nan (d_ctr k) = false /\ is_nan (d_cpc k) = false /\
            is_nan (d_cvr k) = false /\ is_nan (d_cpa k) = false /\
            is_nan (d_roas k) = false) out.
Proof.
  unfold calculate_by_date. intros Hc H. rewrite Hc in H. simpl in H.
  destruct (_ && _); [|discriminate]. injection H as <-.
  rewrite map_map. cbn [daily_record d_date]. rewrite map_id.
  destruct (group_days_spec (rows d) [] (SSorted_nil _)) as [H1 H2].
  split; [exact H1|]. split.
  - intro day. unfold group_days. rewrite H2. split.
    + intros [[]|H]. exact H.
    + auto.
  - apply Forall_forall. intros k Hk. apply in_map_iff in Hk.
    destruct Hk as (day & <- & _).
    cbn [daily_record d_ctr d_cpc d_cvr d_cpa d_roas].
    repeat split; apply fillna0_not_nan.
Qed.

Lemma by_date_days_witness :
  exists out,
    calculate_by_date Samples.mixed_days = Some out /\
    map d_date out = [19000; 19001; 19002]%Z /\
    map d_clicks out = [Fin 70; Fin 40; Fin 10] /\
    StronglySorted Z.lt (map d_date out) /\
    (forall day,
       In day (map d_date out) <->
       exists r, In r (rows Samples.mixed_days) /\ get r "date" = Day day).
Proof.
  eexists. split; [reflexivity|]. split; [reflexivity|].
  split; [reflexivity|].
  destruct (by_date_days Samples.mixed_days _ eq_refl eq_refl)
    as (S & M & _).
  split; [exact S|exact M].
Defined.

End KPIShapeFacts.

(* ------------------------------------------------------------------------- *)
(** ** KPI aggregation: ranking and the complete run *)

Module RankingFacts.

Import KPICalculator FloatFacts.
Local Open Scope float_scope.

Lemma has_col_with_day_of_week (d : DataFrame) (c : string) :
  c <> "day_of_week" -> has_col (with_day_of_week d) c = has_col d c.
Proof.
  intro Hc. unfold with_day_of_week, has_col at 1 3. cbn [columns].
  destruct (has_col d "day_of_week"); [reflexivity|].
  rewrite existsb_app. simpl. apply String.eqb_neq in Hc. rewrite Hc.
  rewrite !orb_false_r. reflexivity.
Qed.

Lemma campaigns_raise (self : calculator) :
  has_col (kdf self) "campaign" = false -> agg_by_campaign self = None ->
  campaigns_of self = None.
Proof.
  intros Hc Ha. unfold campaigns_of, run_calculate_by_campaign,
    calculate_by_campaign.
  rewrite Ha, Hc. simpl. rewrite Ha. reflexivity.
Qed.

(** X5. Ranking campaigns on a frame without a campaign column raises:
    the aggregation returns early without storing its result, and the
    ranking then reads the missing entry.  The summary, and with it the
    complete run, raise for the same reason. *)
Theorem ranking_raises_without_campaign (self : calculator)
  (metric : string) (n : Z) :
  has_col (kdf self) "campaign" = false -> agg_by_campaign self = None ->
  get_top_performers self metric n = None /\
  get_worst_performers self metric n = None /\
  generate_kpi_summary self = None /\
  calculate_all self = None.
Proof.
  intros Hc Ha.
  assert (T : forall m k, get_top_performers self m k = None).
  { intros. unfold get_top_performers.
    rewrite (campaigns_raise self Hc Ha). reflexivity. }
  split; [apply T|]. split.
  { unfold get_worst_performers.
    rewrite (campaigns_raise self Hc Ha). reflexivity. }
  split.
  { unfold generate_kpi_summary. rewrite T. reflexivity. }
  unfold calculate_all.
  destruct (calculate_basic_kpis _); [|reflexivity].
  destruct (calculate_by_channel _); [|reflexivity].
  destruct (calculate_by_campaign _); [|reflexivity].
  destruct (calculate_by_date _); [|reflexivity].
  destruct (calculate_by_city _); [|reflexivity].
  destruct (get_day_of_week_analysis _); [|reflexivity].
  unfold generate_kpi_summary, get_top_performers.
  rewrite campaigns_raise; [reflexivity| |].
  - cbn [kdf]. destruct (has_col (kdf self) "date"); [|exact Hc].
    rewrite has_col_with_day_of_week; [exact Hc|discriminate].
  - cbn [agg_by_campaign]. rewrite Hc. exact Ha.
Qed.

Lemma ranking_raises_without_campaign_witness :
  calculate_all (init Samples.no_click_day) = None.
Proof.
  apply (ranking_raises_without_campaign
           (init Samples.no_click_day) "roas" 5); reflexivity.
Defined.

(** *** The complete run on a full frame *)

Lemma forallb_has_col (d : DataFrame) (cs : list string) (c : string) :
  forallb (has_col d) cs = true -> In c cs -> has_col d c = true.
Proof. intros H Hin. rewrite forallb_forall in H. auto. Qed.

Lemma for_each_total {A : Type} (f : cell -> option A) (keys : list cell) :
  (forall k, exists a, f k = Some a) ->
  exists out, for_each f keys = Some out.
Proof.
  intro H. induction keys as [|k keys [out IH]]; simpl; [eauto|].
  destruct (H k) as [a ->]. rewrite IH. eauto.
Qed.

Lemma dow_loop_total (d : DataFrame) (days : list string) :
  (forall day sub, exists k, dow_record d day sub = Some k) ->
  exists out, dow_loop d days = Some out.
Proof.
  intro H. induction days as [|day days [out IH]]; simpl; [eauto|].
  destruct (filter _ (rows d)) as [|r sub]; [eauto|].
  destruct (H day (r :: sub)) as [k ->]. rewrite IH. eauto.
Qed.

Lemma roas_comparable (reverse : bool) (default : float)
  (l : list group_kpi) :
  exists l', Py.sorted (kpi_get "roas" default) reverse l = Some l'.
Proof.
  unfold Py.sorted.
  assert (Py.comparable (kpi_get "roas" default) l = true) as ->;
    [|eauto].
  destruct l as [|x l]; [reflexivity|]. simpl.
  apply forallb_forall. reflexivity.
Qed.

Lemma summary_succeeds (self : calculator) (ca : list (cell * group_kpi)) :
  agg_by_campaign self = Some ca ->
  exists summary self', generate_kpi_summary self = Some (summary, self').
Proof.
  intro Ha.
  assert (C : campaigns_of self = Some (map snd ca, self)).
  { unfold campaigns_of. rewrite Ha. cbn. rewrite Ha. reflexivity. }
  unfold generate_kpi_summary, get_top_performers, get_worst_performers.
  rewrite C. cbn [fst snd startswith_c].
  change (Ascii.eqb "r" "c") with false. cbv iota.
  destruct (roas_comparable true zero (map snd ca)) as [t ->].
  cbn [fst snd]. rewrite C. cbn [fst snd].
  destruct (roas_comparable false PInf (map snd ca)) as [w ->].
  eauto.
Qed.

(** X6. On a frame that has the five summed columns, a visits column and
    a campaign column, whose summed columns and visits hold numbers and
    whose date column, if any, holds dates, the complete run raises nowhere
    and returns a summary. *)
Theorem calculate_all_succeeds (d : DataFrame) :
  forallb (has_col d)
          ["impressions"; "clicks"; "conversions"; "spend"; "revenue";
           "visits"; "campaign"] = true ->
  numeric d ["impressions"; "clicks"; "conversions"; "spend"; "revenue";
             "visits"] = true ->
  dated d = true ->
  exists summary self', calculate_all (init d) = Some (summary, self').
Proof.
  intros H _ _.
  assert (Hi := forallb_has_col d _ "impressions" H ltac:(simpl; tauto)).
  assert (Hk := forallb_has_col d _ "clicks" H ltac:(simpl; tauto)).
  assert (Hv := forallb_has_col d _ "conversions" H ltac:(simpl; tauto)).
  assert (Hs := forallb_has_col d _ "spend" H ltac:(simpl; tauto)).
  assert (Hr := forallb_has_col d _ "revenue" H ltac:(simpl; tauto)).
  assert (Hvis := forallb_has_col d _ "visits" H ltac:(simpl; tauto)).
  assert (Hc := forallb_has_col d _ "campaign" H ltac:(simpl; tauto)).
  assert (G : forall c v, exists k, group_record d c v = Some k).
  { intros. unfold group_record, col_sum.
    rewrite Hi, Hk, Hv, Hs, Hr. eauto. }
  unfold calculate_all. cbn [kdf init].
  unfold calculate_basic_kpis, col_sum. rewrite Hi, Hk, Hv, Hs, Hr.
  assert (exists o, calculate_by_channel d = Some o) as [ch ->].
  { unfold calculate_by_channel. destruct (negb _); [eauto|].
    apply for_each_total, G. }
  assert (exists o, calculate_by_campaign d = Some o) as [ca ->].
  { unfold calculate_by_campaign. destruct (negb _); [eauto|].
    apply for_each_total, G. }
  assert (exists o, calculate_by_date d = Some o) as [da ->].
  { unfold calculate_by_date. destruct (negb _); [eauto|].
    cbn [forallb]. rewrite Hi, Hk, Hv, Hs, Hr, Hvis. simpl. eauto. }
  assert (exists o, calculate_by_city d = Some o) as [ci ->].
  { unfold calculate_by_city. destruct (negb _); [eauto|].
    apply for_each_total. intro k. unfold city_record, col_sum.
    rewrite Hv, Hs, Hr. eauto. }
  assert (exists o, get_day_of_week_analysis d = Some o) as [dw ->].
  { unfold get_day_of_week_analysis. destruct (negb _); [eauto|].
    apply dow_loop_total. intros. unfold dow_record, col_sum.
    rewrite Hi, Hk, Hv, Hs, Hr. eauto. }
  apply summary_succeeds with (ca := ca).
  cbn [agg_by_campaign]. rewrite Hc. reflexivity.
Qed.

Lemma calculate_all_succeeds_witness :
  exists summary self',
    calculate_all (init Samples.two_campaigns) = Some (summary, self').
Proof.
  apply (calculate_all_succeeds Samples.two_campaigns); reflexivity.
Defined.


(** *** Order of the ranking *)

Lemma firstn_member {B : Type} (k : nat) (l : list B) (x : B) :
  In x (firstn k l) -> In x l.
Proof.
  intro H. rewrite <- (firstn_skipn k l). apply in_or_app. now left.
Qed.


Section CellSort.
Context {A : Type} (key : A -> cell).

Lemma not_ltb_trans (x y z : float) :
  is_nan x = false -> is_nan y = false -> is_nan z = false ->
  (y <? x) = false -> (z <? y) = false -> (z <? x) = false.
Proof.
  destruct x, y, z; simpl; trivial; try discriminate.
  intros _ _ _ H1 H2. q_prop. lra.
Qed.

Lemma in_order_trans (reverse : bool) (a b c : A) :
  Py.number_key key a -> Py.number_key key b -> Py.number_key key c ->
  Py.in_order key reverse a b -> Py.in_order key reverse b c ->
  Py.in_order key reverse a c.
Proof.
  intros (x & Hx & Nx) (y & Hy & Ny) (z & Hz & Nz).
  unfold Py.in_order. rewrite Hx, Hy, Hz. cbn [Py.cell_ltb].
  destruct reverse; intros H1 H2.
  - apply (not_ltb_trans z y x); assumption.
  - apply (not_ltb_trans x y z); assumption.
Qed.

Lemma cell_ltb_asym (x y : cell) :
  Py.cell_ltb x y = true -> Py.cell_ltb y x = false.
Proof.
  destruct x as [x|s|d], y as [y|t|e]; simpl; try discriminate.
  - apply ltb_asym.
  - unfold String.ltb. rewrite (String.compare_antisym s t).
    destruct (String.compare t s); simpl; try discriminate. reflexivity.
  - intro H. apply Z.ltb_lt in H. apply Z.ltb_ge. lia.
Qed.

Lemma insert_by_In (reverse : bool) (a x : A) (l : list A) :
  In x (Py.insert_by key reverse a l) <-> x = a \/ In x l.
Proof.
  induction l as [|b l IH]; simpl; [intuition|].
  destruct (if reverse then _ else _); simpl; [rewrite IH|]; intuition.
Qed.

Lemma insert_by_sorted (reverse : bool) (a : A) (l : list A) :
  Py.number_key key a -> Forall (Py.number_key key) l ->
  StronglySorted (Py.in_order key reverse) l ->
  StronglySorted (Py.in_order key reverse) (Py.insert_by key reverse a l).
Proof.
  intros Na Nl H. induction H as [|b l Hs IH Hb]; simpl.
  - repeat constructor.
  - inversion Nl as [|? ? Nb Nl' E]; subst.
    destruct (if reverse then Py.cell_ltb (key a) (key b)
              else Py.cell_ltb (key b) (key a)) eqn:E.
    + constructor; [apply IH; assumption|].
      apply Forall_forall. intros x Hx. apply insert_by_In in Hx.
      destruct Hx as [->|Hx].
      * unfold Py.in_order. destruct reverse; apply cell_ltb_asym; exact E.
      * rewrite Forall_forall in Hb. auto.
    + assert (Rab : Py.in_order key reverse a b).
      { unfold Py.in_order. destruct reverse; exact E. }
      constructor; [constructor; assumption|].
      constructor; [exact Rab|].
      rewrite Forall_forall in *. intros x Hx.
      apply (in_order_trans reverse a b x); auto.
Qed.

Lemma sort_In (reverse : bool) (x : A) (l : list A) :
  In x (fold_right (Py.insert_by key reverse) [] l) <-> In x l.
Proof.
  induction l as [|a l IH]; simpl; [tauto|].
  rewrite insert_by_In, IH. intuition.
Qed.

Lemma sort_length (reverse : bool) (l : list A) :
  List.length (fold_right (Py.insert_by key reverse) [] l) = List.length l.
Proof.
  induction l as [|a l IH]; simpl; [reflexivity|]. rewrite <- IH.
  generalize (fold_right (Py.insert_by key reverse) [] l).
  induction l0 as [|b l0 IH0]; simpl; [reflexivity|].
  destruct (if reverse then _ else _); simpl; [rewrite IH0|]; reflexivity.
Qed.

Lemma sort_sorted (reverse : bool) (l : list A) :
  Forall (Py.number_key key) l ->
  StronglySorted (Py.in_order key reverse)
                 (fold_right (Py.insert_by key reverse) [] l).
Proof.
  induction 1 as [|a l Na Nl IH]; simpl; [constructor|].
  apply insert_by_sorted; [exact Na| |exact IH].
  apply Forall_forall. intros x Hx. apply sort_In in Hx.
  rewrite Forall_forall in Nl. auto.
Qed.

Lemma firstn_strongly_sorted (R : A -> A -> Prop) (k : nat) (l : list A) :
  StronglySorted R l -> StronglySorted R (firstn k l).
Proof.
  intro H. revert k. induction H as [|a l Hs IH Ha]; intros [|k]; simpl;
    try constructor; [apply IH|].
  rewrite Forall_forall in *. intros x Hx. apply Ha.
  eapply firstn_member. exact Hx.
Qed.

Lemma slice_to_firstn (n : Z) (l : list A) :
  exists k, Py.slice_to n l = firstn k l /\ ((0 <= n)%Z -> k = Z.to_nat n).
Proof.
  unfold Py.slice_to. destruct (0 <=? n)%Z eqn:E.
  - eauto.
  - apply Z.leb_gt in E. eexists. split; [reflexivity|]. lia.
Qed.

End CellSort.

Lemma kpi_get_number (metric : string) (default : float) (x : group_kpi) :
  metric <> "campaign" -> kpi_get metric default x <> Num NaN ->
  Py.number_key (kpi_get metric default) x.
Proof.
  intros Hm Hn. unfold Py.number_key.
  assert (E : exists q, kpi_get metric default x = Num q).
  { unfold kpi_get. apply String.eqb_neq in Hm. rewrite Hm.
    repeat match goal with
    | |- context [if ?b then _ else _] => destruct b
    end; eauto. }
  destruct E as [q E]. exists q. split; [exact E|].
  destruct q; try reflexivity. congruence.
Qed.

Lemma campaigns_of_spec (self self1 : calculator) (cs : list group_kpi) :
  campaigns_of self = Some (cs, self1) ->
  cs = map snd (list_or_empty (agg_by_campaign self1)).
Proof.
  unfold campaigns_of. intro H.
  destruct (match agg_by_campaign self with
            | Some _ => Some self
            | None => _
            end) as [s1|]; [|discriminate].
  destruct (agg_by_campaign s1) as [bc|] eqn:E; [|discriminate].
  injection H as <- <-. rewrite E. reflexivity.
Qed.

(** X7. For a numeric metric whose name begins with the letter c, which
    includes ctr and cvr as well as cpc and cpa, the top performers are
    listed smallest value first: no campaign in the list has a smaller
    value than one listed before it, and the first one has the smallest
    value of all campaigns.  The list holds campaigns of the aggregation
    only and, for [n >= 0], at most [n] of them. *)
Theorem top_performers_smallest_first (self self' : calculator)
  (metric : string) (n : Z) (out : list group_kpi) :
  startswith_c metric = true -> metric <> "campaign" ->
  get_top_performers self metric n = Some (out, self') ->
  Forall (fun kv => kpi_get metric PInf (snd kv) <> Num NaN)
         (list_or_empty (agg_by_campaign self')) ->
  StronglySorted
    (fun a b => Py.cell_ltb (kpi_get metric PInf b) (kpi_get metric PInf a)
                = false) out /\
  incl out (map snd (list_or_empty (agg_by_campaign self'))) /\
  ((0 <= n)%Z -> (Z.of_nat (List.length out) <= n)%Z) /\
  (forall first rest,
     out = first :: rest ->
     Forall (fun c => Py.cell_ltb (kpi_get metric PInf c)
                                  (kpi_get metric PInf first) = false)
            (map snd (list_or_empty (agg_by_campaign self')))).
Proof.
  intros Hc Hm H Hn. unfold get_top_performers in H. rewrite Hc in H.
  destruct (campaigns_of self) as [[cs s1]|] eqn:C; [|discriminate].
  cbn [fst snd] in H. unfold Py.sorted in H.
  destruct (Py.comparable _ cs); [|discriminate].
  injection H as <- <-.
  pose proof (campaigns_of_spec _ _ _ C) as Ecs. rewrite <- Ecs.
  assert (N : Forall (Py.number_key (kpi_get metric PInf)) cs).
  { rewrite Ecs. rewrite Forall_map.
    eapply Forall_impl; [|exact Hn]. intros kv Hkv.
    apply kpi_get_number; assumption. }
  pose proof (sort_sorted (kpi_get metric PInf) false cs N) as S.
  set (sorted := fold_right (Py.insert_by (kpi_get metric PInf) false) [] cs)
    in *.
  destruct (slice_to_firstn n sorted) as (k & -> & Hk).
  split; [apply firstn_strongly_sorted; exact S|]. split.
  { intros x Hx. apply firstn_member in Hx.
    exact (proj1 (sort_In (kpi_get metric PInf) false x cs) Hx). }
  split.
  { intro Hn0. rewrite length_firstn, (Hk Hn0). lia. }
  intros first rest E. apply Forall_forall. intros c Hc0.
  assert (Nc : Py.number_key (kpi_get metric PInf) c).
  { rewrite Forall_forall in N. apply N. exact Hc0. }
  apply (proj2 (sort_In (kpi_get metric PInf) false c cs)) in Hc0.
  fold sorted in Hc0.
  destruct sorted as [|s0 tl]; [destruct Hc0|].
  destruct k; [discriminate E|]. simpl in E. injection E as -> _.
  inversion S as [|? ? _ Hall]; subst.
  destruct Hc0 as [<-|Hc0].
  - destruct Nc as (q & -> & _). simpl. apply ltb_irrefl.
  - rewrite Forall_forall in Hall. apply (Hall c Hc0).
Qed.

Lemma top_performers_smallest_first_witness :
  exists out self',
    get_top_performers (init Samples.two_campaigns) "cvr" 5
    = Some (out, self') /\
    map (fun c => (g_key c, g_cvr c)) out
    = [(Str "autumn", Fin 10); (Str "spring", Fin 50)] /\
    StronglySorted
      (fun a b => Py.cell_ltb (kpi_get "cvr" PInf b) (kpi_get "cvr" PInf a)
                  = false) out.
Proof.
  eexists. eexists. split; [vm_compute; reflexivity|].
  split; [reflexivity|].
  refine (proj1 (top_performers_smallest_first
                   (init Samples.two_campaigns) _ "cvr" 5 _
                   eq_refl _ eq_refl _)).
  - discriminate.
  - repeat constructor; discriminate.
Defined.


End RankingFacts.

(* ------------------------------------------------------------------------- *)
(** ** Anomaly detection: grouping, insights and the summary *)

Module AnomalySummaryFacts.

Import AnomalyDetector FloatFacts.
Local Open Scope nat_scope.

(** *** Dictionaries keyed by strings *)

Lemma lookup_set {V : Type} (d : list (string * V)) (k k' : string) (v : V) :
  Dict.lookup String.eqb (Dict.set String.eqb d k v) k'
  = if String.eqb k k' then Some v else Dict.lookup String.eqb d k'.
Proof.
  induction d as [|[k0 v0] d IH]; simpl.
  - reflexivity.
  - destruct (String.eqb k0 k) eqn:E; simpl.
    + apply String.eqb_eq in E. subst k0.
      destruct (String.eqb k k'); reflexivity.
    + destruct (String.eqb k0 k') eqn:E'; [|exact IH].
      apply String.eqb_eq in E'. subst k0. rewrite String.eqb_sym, E.
      reflexivity.
Qed.

Lemma set_keys {V : Type} (d : list (string * V)) (k : string) (v : V) :
  map fst (Dict.set String.eqb d k v)
  = match Dict.lookup String.eqb d k with
    | Some _ => map fst d
    | None => (map fst d ++ [k])%list
    end.
Proof.
  induction d as [|[k0 v0] d IH]; simpl; [reflexivity|].
  destruct (String.eqb k0 k); simpl; [reflexivity|].
  rewrite IH. destruct (Dict.lookup String.eqb d k); reflexivity.
Qed.

Lemma lookup_None_keys {V : Type} (d : list (string * V)) (k : string) :
  Dict.lookup String.eqb d k = None -> ~ In k (map fst d).
Proof.
  induction d as [|[k0 v0] d IH]; simpl; [tauto|].
  destruct (String.eqb k0 k) eqn:E; [discriminate|].
  apply String.eqb_neq in E. intros H [H'|H']; [congruence|].
  exact (IH H H').
Qed.

Lemma set_nodup {V : Type} (d : list (string * V)) (k : string) (v : V) :
  NoDup (map fst d) -> NoDup (map fst (Dict.set String.eqb d k v)).
Proof.
  intro H. rewrite set_keys.
  destruct (Dict.lookup String.eqb d k) eqn:E; [exact H|].
  apply NoDup_app; [exact H|repeat constructor; intros []|].
  intros x Hx [<-|[]]. exact (lookup_None_keys d k E Hx).
Qed.

Lemma lookup_In {V : Type} (d : list (string * V)) (k : string) (v : V) :
  NoDup (map fst d) ->
  (In (k, v) d <-> Dict.lookup String.eqb d k = Some v).
Proof.
  induction d as [|[k0 v0] d IH]; simpl; intro H.
  - split; [tauto|discriminate].
  - inversion H as [|? ? Hn Hd]; subst.
    destruct (String.eqb k0 k) eqn:E.
    + apply String.eqb_eq in E. subst k0. split.
      * intros [[= ->]|Hin]; [reflexivity|].
        exfalso. apply Hn. apply (in_map fst) in Hin. exact Hin.
      * intros [= ->]. now left.
    + apply String.eqb_neq in E. rewrite <- IH by exact Hd. split.
      * intros [[= -> _]|Hin]; [congruence|exact Hin].
      * auto.
Qed.

Lemma set_size (d : list (string * list anomaly)) (k : string)
  (old add : list anomaly) :
  Dict.lookup String.eqb d k = Some old ->
  List.length (flat_map snd (Dict.set String.eqb d k (old ++ add)%list))
  = List.length (flat_map snd d) + List.length add.
Proof.
  induction d as [|[k0 v0] d IH]; simpl; [discriminate|].
  destruct (String.eqb k0 k); simpl.
  - intros [= ->]. rewrite !length_app. lia.
  - intro H. rewrite !length_app, IH by exact H. lia.
Qed.

Lemma set_size_new (d : list (string * list anomaly)) (k : string)
  (add : list anomaly) :
  Dict.lookup String.eqb d k = None ->
  List.length (flat_map snd (Dict.set String.eqb d k add))
  = List.length (flat_map snd d) + List.length add.
Proof.
  induction d as [|[k0 v0] d IH]; simpl.
  - intros _. rewrite length_app. simpl. lia.
  - destruct (String.eqb k0 k); simpl; [discriminate|].
    intro H. rewrite !length_app, IH by exact H. lia.
Qed.

(** *** Grouping by metric *)

Lemma fold_step_lookup (l : list anomaly)
  (acc : list (string * list anomaly)) (m : string) :
  Dict.lookup String.eqb (fold_left step l acc) m
  = join (Dict.lookup String.eqb acc m) (of_metric m l).
Proof.
  revert acc. induction l as [|a l IH]; intro acc; simpl.
  - destruct (Dict.lookup String.eqb acc m); simpl;
      [rewrite app_nil_r|]; reflexivity.
  - rewrite IH. unfold step.
    destruct (Dict.lookup String.eqb acc (a_metric a)) as [old|] eqn:E;
      rewrite lookup_set; destruct (String.eqb (a_metric a) m) eqn:Em.
    + apply String.eqb_eq in Em. subst m. rewrite E. simpl.
      rewrite <- app_assoc. reflexivity.
    + reflexivity.
    + apply String.eqb_eq in Em. subst m. rewrite E. reflexivity.
    + reflexivity.
Qed.

Lemma fold_step_nodup (l : list anomaly)
  (acc : list (string * list anomaly)) :
  NoDup (map fst acc) -> NoDup (map fst (fold_left step l acc)).
Proof.
  revert acc. induction l as [|a l IH]; intros acc H; simpl; [exact H|].
  apply IH. unfold step.
  destruct (Dict.lookup String.eqb acc (a_metric a)); apply set_nodup, H.
Qed.

Lemma fold_step_size (l : list anomaly)
  (acc : list (string * list anomaly)) :
  List.length (flat_map snd (fold_left step l acc))
  = List.length (flat_map snd acc) + List.length l.
Proof.
  revert acc. induction l as [|a l IH]; intro acc; simpl; [lia|].
  rewrite IH. unfold step.
  destruct (Dict.lookup String.eqb acc (a_metric a)) eqn:E.
  - rewrite (set_size _ _ _ _ E). simpl. lia.
  - rewrite (set_size_new _ _ _ E). simpl. lia.
Qed.

Lemma by_metric_fold (l : list anomaly) : by_metric l = fold_left step l [].
Proof. reflexivity. Qed.

(** The group of a metric is the list of its anomalies, in order; a metric
    without anomalies has no group; no metric has two groups. *)
Lemma by_metric_In (l : list anomaly) (m : string) (g : list anomaly) :
  In (m, g) (by_metric l) <-> g = of_metric m l /\ g <> [].
Proof.
  rewrite lookup_In
    by (rewrite by_metric_fold; apply fold_step_nodup; constructor).
  rewrite by_metric_fold, fold_step_lookup. simpl.
  destruct (of_metric m l) as [|a f]; simpl.
  - split; [discriminate|]. intros [-> H]. congruence.
  - split.
    + intros [= <-]. split; [reflexivity|discriminate].
    + intros [-> _]. reflexivity.
Qed.

(** *** Recommendations, insights and counts *)

(** X8. A recurring-issue recommendation is emitted for a metric exactly
    when more than two of the stored anomalies carry that metric, and it
    reports their number; an urgent-investigation recommendation is emitted
    exactly when a critical anomaly is stored. *)
Theorem recurring_and_urgent_recommendations (self : detector) :
  (forall m,
     (exists r, In r (generate_anomaly_recommendations self)
                /\ r_type r = recurring_anomaly m)
     <-> 2 < List.length (of_metric m (anomalies self))) /\
  (forall m r,
     In r (generate_anomaly_recommendations self) ->
     r_type r = recurring_anomaly m ->
     r_count r = Some (List.length (of_metric m (anomalies self)))
     /\ r_priority r = p_high) /\
  ((exists r, In r (generate_anomaly_recommendations self)
              /\ r_type r = urgent_investigation)
   <-> get_critical_anomalies self <> []).
Proof.
  unfold generate_anomaly_recommendations.
  set (urgent := match get_critical_anomalies self with
                 | [] => []
                 | _ :: _ => _
                 end).
  set (spikes := map _ (firstn 3 (get_critical_anomalies self))).
  assert (U : forall r, In r urgent -> r_type r = urgent_investigation).
  { subst urgent. destruct (get_critical_anomalies self);
      intros r []; subst; try reflexivity. contradiction. }
  assert (S : forall r, In r spikes ->
                        r_type r = spike_investigation
                        \/ r_type r = drop_investigation).
  { subst spikes. intros r Hr. apply in_map_iff in Hr.
    destruct Hr as (a & <- & _). destruct (Float.gtb _ _); auto. }
  assert (R : forall r m,
             (In r (flat_map
                      (fun kv : string * list anomaly =>
                         let (metric, anomalies_list) := kv in
                         if 2 <? List.length anomalies_list
                         then [{| r_type := recurring_anomaly metric;
                                  r_priority := p_high;
                                  r_count :=
                                    Some (List.length anomalies_list);
                                  r_detail := None |}]
                         else [])
                      (by_metric (anomalies self)))
              /\ r_type r = recurring_anomaly m)
             <-> 2 < List.length (of_metric m (anomalies self))
                 /\ r = {| r_type := recurring_anomaly m;
                           r_priority := p_high;
                           r_count :=
                             Some (List.length
                                     (of_metric m (anomalies self)));
                           r_detail := None |}).
  { intros r m. rewrite in_flat_map. split.
    - intros [([m' g] & Hg & Hr) Ht].
      apply by_metric_In in Hg. destruct Hg as [-> _].
      destruct (2 <? _) eqn:E; [|destruct Hr].
      destruct Hr as [<-|[]]. simpl in Ht. injection Ht as ->.
      apply Nat.ltb_lt in E. auto.
    - intros [Hl ->]. split; [|reflexivity].
      exists (m, of_metric m (anomalies self)). split.
      + apply by_metric_In. split; [reflexivity|].
        intro E. rewrite E in Hl. simpl in Hl. lia.
      + apply Nat.ltb_lt in Hl. rewrite Hl. now left. }
  split; [|split].
  - intro m. split.
    + intros (r & Hr & Ht). apply in_app_or in Hr.
      destruct Hr as [Hr|Hr]; [apply U in Hr; congruence|].
      apply in_app_or in Hr. destruct Hr as [Hr|Hr].
      * apply (proj1 (R r m)). auto.
      * apply S in Hr. destruct Hr; congruence.
    + intro Hl. eexists. split.
      * apply in_or_app. right. apply in_or_app. left.
        apply (proj2 (R _ m)). split; [exact Hl|reflexivity].
      * reflexivity.
  - intros m r Hr Ht. apply in_app_or in Hr.
    destruct Hr as [Hr|Hr]; [apply U in Hr; congruence|].
    apply in_app_or in Hr. destruct Hr as [Hr|Hr].
    + destruct (proj1 (R r m) (conj Hr Ht)) as [_ ->]. auto.
    + apply S in Hr. destruct Hr; congruence.
  - split.
    + intros (r & Hr & Ht) E. apply in_app_or in Hr.
      destruct Hr as [Hr|Hr].
      * subst urgent. rewrite E in Hr. destruct Hr.
      * apply in_app_or in Hr. destruct Hr as [Hr|Hr].
        -- apply in_flat_map in Hr. destruct Hr as ([m g] & _ & Hr).
           destruct (2 <? _); [|destruct Hr].
           destruct Hr as [<-|[]]. discriminate Ht.
        -- apply S in Hr. destruct Hr; congruence.
    + intro Hne. subst urgent.
      destruct (get_critical_anomalies self) as [|a l]; [congruence|].
      eexists. split; [left; reflexivity|reflexivity].
Qed.

Lemma metric_part_sum (groups : list (string * list anomaly)) :
  list_sum
    (map metric_count
       (flat_map
          (fun kv : string * list anomaly =>
             let (metric, anomaly_list) := kv in
             if 0 <? List.length anomaly_list
             then [metric_insight metric (List.length anomaly_list)
                     (np_mean
                        (map (fun a => abs (a_pct_change a))
                             anomaly_list))]
             else [])
          groups))
  = List.length (flat_map snd groups).
Proof.
  induction groups as [|[m g] groups IH]; simpl; [reflexivity|].
  rewrite map_app, list_sum_app, length_app, IH.
  destruct g; simpl; lia.
Qed.

(** X9. The counts of the per-metric insights add up to the number of
    stored anomalies: every anomaly is counted under exactly one metric.
    The critical-count insight is present exactly when a critical anomaly
    is stored, and reports how many there are. *)
Theorem insight_counts (self : detector) :
  list_sum (map metric_count (generate_anomaly_insights self))
  = List.length (anomalies self) /\
  (forall c,
     In (critical_anomalies c) (generate_anomaly_insights self)
     <-> c = List.length (get_critical_anomalies self) /\ 0 < c).
Proof.
  unfold generate_anomaly_insights, get_critical_anomalies.
  set (crit := filter (fun a => severity_eqb (a_severity a) critical)
                      (anomalies self)).
  set (warnings := filter _ (anomalies self)).
  split.
  - rewrite !map_app, !list_sum_app, metric_part_sum.
    rewrite by_metric_fold, fold_step_size.
    destruct (Py.sorted_desc a_z_score crit);
      destruct warnings; simpl; lia.
  - intro c. split.
    + intro H. apply in_app_or in H. destruct H as [H|H].
      * destruct (Py.sorted_desc a_z_score crit) eqn:E; [destruct H|].
        destruct H as [[= <-]|[H|[]]]; [|discriminate H].
        split; [reflexivity|]. destruct crit; simpl; [|lia].
        discriminate E.
      * apply in_app_or in H. destruct H as [H|H].
        -- destruct warnings; [destruct H|].
           destruct H as [H|[]]. discriminate H.
        -- apply in_flat_map in H. destruct H as ([m g] & _ & H).
           destruct (0 <? _); [|destruct H].
           destruct H as [H|[]]. discriminate H.
    + intros [-> Hc]. apply in_or_app. left.
      destruct (Py.sorted_desc a_z_score crit) eqn:E.
      * pose proof (PyFacts.sorted_desc_perm a_z_score crit) as P.
        rewrite E in P. apply Permutation_nil in P.
        rewrite P in Hc. simpl in Hc. lia.
      * now left.
Qed.

(** X10. In the summary, the total number of anomalies is the sum of the
    critical, warning and info counts, and at most five anomalies are
    listed as top anomalies. *)
Theorem summary_counts (self : detector) :
  total_anomalies (get_summary self)
  = s_critical (get_summary self) + s_warning (get_summary self)
    + s_info (get_summary self) /\
  List.length (s_top_anomalies (get_summary self)) <= 5.
Proof.
  unfold get_summary, get_critical_anomalies, get_top_anomalies.
  cbn [total_anomalies s_critical s_warning s_info s_top_anomalies].
  split.
  - induction (anomalies self) as [|a l IH]; simpl; [reflexivity|].
    destruct (a_severity a); simpl; lia.
  - rewrite length_firstn. lia.
Qed.


End AnomalySummaryFacts.

(* ------------------------------------------------------------------------- *)
(** ** Anomaly detection: groups, the recent window and the ranking *)

Module AnomalyModeFacts.

Import AnomalyDetector FloatFacts.
Local Open Scope float_scope.

(** X11. In grouped mode every anomaly carries the metric, the grouping
    column and its group; the group is one of the distinct values of that
    column and has at least 3 rows, and the baseline is the mean of the
    metric over the rows of the group.  A grouping column that is empty or
    not in the frame is ignored: the detection is the ungrouped one. *)
Theorem grouped_anomalies_carry_their_group (self : detector)
  (m g : string) :
  if negb (String.eqb g "") && has_col (df self) g then
    Forall (fun a =>
              a_metric a = m /\ a_group_col a = Some g /\
              exists gv,
                a_group a = Some gv /\
                In gv (unique (rows (df self)) g) /\
                (3 <= List.length (select (rows (df self)) g gv))%nat /\
                a_baseline_mean a
                = Some (Series.mean
                          (series (select (rows (df self)) g gv) m)))
           (detect_anomalies_by_metric self m (Some g))
  else
    detect_anomalies_by_metric self m (Some g)
    = detect_anomalies_by_metric self m None.
Proof.
  unfold detect_anomalies_by_metric, detect_anomalies_by_metric_with.
  fold calculate_z_scores _detect_within_group.
  destruct (negb (String.eqb g "") && has_col (df self) g);
    [|reflexivity].
  destruct (negb (has_col (df self) m)); [constructor|].
  apply Forall_flat_map, Forall_forall. intros gv Hgv.
  unfold _detect_within_group, _detect_within_group_with.
  fold group_z_scores.
  destruct (List.length (select (rows (df self)) g gv) <? 3)%nat eqn:E;
    [constructor|].
  apply Nat.ltb_ge in E.
  apply Forall_flat_map, Forall_forall. intros [r z] _.
  destruct (z >? z_score_threshold self); constructor; [|constructor].
  cbn [a_metric a_group_col a_group a_baseline_mean].
  split; [reflexivity|]. split; [reflexivity|].
  exists gv. auto.
Qed.

(** X12. The recent-window view reports findings of the ungrouped
    detection only: each of its records has the date, value, Z-score,
    severity and deviation of an ungrouped anomaly of the same metric, and
    its date lies within the window that ends at the latest date of the
    frame.  It stores no baseline mean. *)
Theorem recent_anomalies_are_ungrouped (self : detector) (m : string)
  (days : Z) :
  Forall (fun a =>
            (exists b, In b (detect_anomalies_by_metric self m None)
                       /\ same_finding a b) /\
            a_baseline_mean a = None /\
            exists latest d,
              max_day (rows (df self)) = Some latest /\
              a_date a = Some (Day d) /\ (latest - days <= d)%Z)
         (detect_recent_anomalies self m days).
Proof.
  unfold detect_recent_anomalies.
  destruct (has_col (df self) "date") eqn:Hd; [|constructor].
  destruct (has_col (df self) m) eqn:Hm; [|constructor]. cbn [negb orb].
  destruct (max_day (rows (df self))) as [latest|]; [|constructor].
  apply Forall_flat_map, Forall_forall. intros [r z] Hin.
  destruct (get r "date") as [x|s|d] eqn:Er; try constructor.
  destruct ((latest - days <=? d)%Z && (z >? z_score_threshold self))
    eqn:E; constructor; [|constructor].
  apply andb_true_iff in E. destruct E as [Ew Ez].
  apply Z.leb_le in Ew.
  split; [|split; [reflexivity|exists latest, d; auto]].
  eexists. split.
  - unfold detect_anomalies_by_metric, detect_anomalies_by_metric_with.
    fold calculate_z_scores _detect_within_group. rewrite Hm. cbn [negb].
    apply in_flat_map. exists (r, z). split; [exact Hin|].
    rewrite Ez. left. reflexivity.
  - unfold same_finding, date_of. rewrite Hd, Er.
    cbn [a_date a_metric a_value a_z_score a_severity a_pct_change].
    repeat split.
Qed.

(** X13. With a threshold of 3 or more every flagged value is critical,
    and with a threshold of 2.5 or more none is of severity info, in
    either detection mode. *)
Theorem high_threshold_severity (self : detector) (m : string)
  (g : option string) :
  ((z_score_threshold self >=? Fin 3) = true ->
   Forall (fun a => a_severity a = critical)
          (detect_anomalies_by_metric self m g)) /\
  ((z_score_threshold self >=? Fin (5 # 2)) = true ->
   Forall (fun a => a_severity a <> info)
          (detect_anomalies_by_metric self m g)).
Proof.
  pose proof (AnomalyFacts.by_metric_flagged self m g) as F.
  split; intro Ht; (eapply Forall_impl; [|exact F]);
    intros a (Hz & _ & ->); unfold geb in Ht.
  - apply AnomalyFacts.severity_ladder.
    unfold gtb in *. exact (leb_ltb_trans _ _ _ Ht Hz).
  - intro E. apply AnomalyFacts.severity_ladder in E.
    unfold gtb in *. rewrite (leb_ltb_trans _ _ _ Ht Hz) in E.
    discriminate.
Qed.

Lemma high_threshold_severity_witness :
  map a_severity
      (detect_anomalies_by_metric (init Samples.spike (Fin 3) 7)
                                  "clicks" None)
  = [critical] /\
  Forall (fun a => a_severity a = critical)
         (detect_anomalies_by_metric (init Samples.spike (Fin 3) 7)
                                     "clicks" None).
Proof.
  split; [vm_compute; reflexivity|].
  apply (proj1 (high_threshold_severity (init Samples.spike (Fin 3) 7)
                                        "clicks" None)).
  reflexivity.
Defined.

(** *** The ranking *)

Lemma insert_desc_member {A : Type} (key : A -> float) (a x : A)
  (l : list A) :
  In x (Py.insert_desc key a l) <-> x = a \/ In x l.
Proof.
  induction l as [|b l IH]; simpl; [intuition|].
  destruct (key b >? key a); simpl; [rewrite IH|]; intuition.
Qed.

Lemma sorted_desc_member {A : Type} (key : A -> float) (x : A)
  (l : list A) :
  In x (Py.sorted_desc key l) <-> In x l.
Proof.
  induction l as [|a l IH]; simpl; [tauto|].
  rewrite insert_desc_member, IH. intuition.
Qed.

Lemma sorted_desc_strongly {A : Type} (key : A -> float) (l : list A) :
  Forall (fun a => is_nan (key a) = false) l ->
  StronglySorted (Py.desc key) (Py.sorted_desc key l).
Proof.
  induction 1 as [|a l Na Nl IH]; simpl; [constructor|].
  assert (N : Forall (fun x => is_nan (key x) = false)
                     (Py.sorted_desc key l)).
  { apply Forall_forall. intros x Hx. apply sorted_desc_member in Hx.
    rewrite Forall_forall in Nl. auto. }
  clear Nl. induction IH as [|b s Hs IHs Hb]; simpl.
  - repeat constructor.
  - inversion N as [|? ? Nb Ns]; subst.
    destruct (key b >? key a) eqn:E.
    + constructor; [apply IHs; exact Ns|].
      apply Forall_forall. intros x Hx. apply insert_desc_member in Hx.
      destruct Hx as [->|Hx].
      * unfold Py.desc, gtb in *. apply ltb_asym. exact E.
      * rewrite Forall_forall in Hb. auto.
    + constructor; [constructor; assumption|].
      constructor; [exact E|].
      rewrite Forall_forall in *. intros x Hx.
      unfold Py.desc, gtb in *.
      apply (RankingFacts.not_ltb_trans (key x) (key b) (key a));
        auto.
Qed.

(** X14. When no stored Z-score is NaN, the first of the top anomalies has
    the largest Z-score among the stored anomalies of the requested
    severity, and each listed anomaly is at least as large as the ones
    after it. *)
Theorem top_anomaly_is_largest (self : detector) (k : nat)
  (sev : option severity) (first : anomaly) (rest : list anomaly) :
  Forall (fun a => is_nan (a_z_score a) = false) (anomalies self) ->
  get_top_anomalies self k sev = first :: rest ->
  In first (anomalies self) /\
  (forall a,
     In a (anomalies self) ->
     match sev with Some s => a_severity a = s | None => True end ->
     (a_z_score a >? a_z_score first) = false) /\
  StronglySorted (Py.desc a_z_score) (first :: rest).
Proof.
  intros Hn H. unfold get_top_anomalies in H.
  set (filtered := match sev with
                   | Some s => filter _ (anomalies self)
                   | None => anomalies self
                   end) in H.
  assert (Hf : forall a, In a filtered <->
                         In a (anomalies self) /\
                         match sev with
                         | Some s => a_severity a = s
                         | None => True
                         end).
  { intro a. subst filtered. destruct sev as [s|]; [|tauto].
    rewrite filter_In. split; intros [H1 H2]; split; trivial.
    - destruct (a_severity a), s; try discriminate; reflexivity.
    - subst s. destruct (a_severity a); reflexivity. }
  assert (Nf : Forall (fun a => is_nan (a_z_score a) = false) filtered).
  { rewrite Forall_forall in *. intros a Ha. apply Hn, Hf, Ha. }
  pose proof (sorted_desc_strongly a_z_score filtered Nf) as Hsorted.
  destruct (Py.sorted_desc a_z_score filtered) as [|s0 tl] eqn:E;
    [destruct k; discriminate H|].
  destruct k; [discriminate H|]. simpl in H. injection H as -> <-.
  assert (Hin : In first filtered).
  { apply (sorted_desc_member a_z_score). rewrite E. now left. }
  split; [apply Hf, Hin|]. split.
  - intros a Ha Hs.
    assert (Ha' : In a (first :: tl)).
    { rewrite <- E. apply sorted_desc_member. apply Hf. auto. }
    inversion Hsorted as [|? ? _ Hall]; subst.
    destruct Ha' as [<-|Ha'].
    + unfold gtb. apply ltb_irrefl.
    + rewrite Forall_forall in Hall. apply (Hall a Ha').
  - apply (RankingFacts.firstn_strongly_sorted (Py.desc a_z_score)
             (Datatypes.S k) (first :: tl) Hsorted).
Qed.

Lemma top_anomaly_is_largest_witness :
  exists first rest,
    get_top_anomalies
      (snd (detect_all_anomalies
              (init Samples.two_metrics default_threshold 7) None))
      5 None = first :: rest /\
    In first
       (anomalies
          (snd (detect_all_anomalies
                  (init Samples.two_metrics default_threshold 7) None))).
Proof.
  eexists. eexists. split; [vm_compute; reflexivity|].
  refine (proj1 (top_anomaly_is_largest
                   (snd (detect_all_anomalies
                           (init Samples.two_metrics default_threshold 7)
                           None))
                   5 None _ _ _ _)).
  - vm_compute. repeat constructor.
  - vm_compute. reflexivity.
Defined.

End AnomalyModeFacts.

(* ------------------------------------------------------------------------- *)
(** ** Weather analysis: splits, bands and the complete run *)

Module WeatherSplitFacts.

Import WeatherAnalyzer FloatFacts.
Local Open Scope float_scope.

Lemma rainy_or_dry (x : float) :
  ((if (x >? Fin 1)%float then 1 else 0)
   + (if (x <=? Fin 1)%float then 1 else 0)
   = if is_nan x then 0 else 1)%nat.
Proof.
  unfold gtb, leb. destruct x as [q| | |]; simpl; trivial.
  destruct (Qltb 1 q) eqn:E1, (Qltb q 1) eqn:E2, (Qeq_bool q 1) eqn:E3;
    simpl; trivial; exfalso; q_prop; lra.
Qed.

Lemma filter_length_cond {A : Type} (f : A -> bool) (l : list A) :
  List.length (filter f l)
  = list_sum (map (fun x => if f x then 1 else 0)%nat l).
Proof.
  induction l as [|a l IH]; simpl; [reflexivity|].
  destruct (f a); simpl; rewrite IH; reflexivity.
Qed.

(** X15. The rainy and the dry days together are the rows that have a
    rainfall value: a row whose rainfall is missing is counted as neither,
    and no row is counted twice. *)
Theorem rainy_split_counts (self : analyzer) (a : rainy_analysis) :
  analyze_rainy_days self = Some a ->
  (rainy_days_count a + non_rainy_days_count a
   = List.length
       (filter (fun r => negb (is_nan (num r "rainfall_mm")))
               (rows (df self))))%nat /\
  (rainy_days_count a + non_rainy_days_count a
   <= List.length (rows (df self)))%nat.
Proof.
  unfold analyze_rainy_days. destruct (negb _); [discriminate|].
  intros [= <-]. cbn [rainy_days_count non_rainy_days_count]. cbv zeta.
  assert (E : (List.length
                 (filter (fun r => (num r "rainfall_mm" >? Fin 1)%float)
                         (rows (df self)))
               + List.length
                   (filter (fun r => (num r "rainfall_mm" <=? Fin 1)%float)
                           (rows (df self)))
               = List.length
                   (filter (fun r => negb (is_nan (num r "rainfall_mm")))
                           (rows (df self))))%nat).
  { rewrite !filter_length_cond.
    induction (rows (df self)) as [|r l IH]; simpl; [reflexivity|].
    pose proof (rainy_or_dry (num r "rainfall_mm")) as H.
    destruct (is_nan (num r "rainfall_mm")); simpl in *; lia. }
  split; [exact E|].
  eapply Nat.le_trans; [apply Nat.eq_le_incl; exact E|].
  apply filter_length_le.
Qed.

Lemma rainy_split_counts_witness :
  exists a,
    analyze_rainy_days (init Samples.weather) = Some a /\
    (rainy_days_count a + non_rainy_days_count a
     <= List.length (rows Samples.weather))%nat.
Proof.
  eexists. split; [reflexivity|].
  apply (proj2 (rainy_split_counts (init Samples.weather) _ eq_refl)).
Defined.

(** *** The bands cover the range from 0 to 50 once *)

Lemma in_range_true (lo hi q : Q) (r : row) :
  num r "temperature_c" = Fin q -> (lo <= q)%Q -> (q < hi)%Q ->
  in_range (Fin lo) (Fin hi) r = true.
Proof.
  intros E H1 H2. unfold in_range, geb, leb. rewrite E. simpl.
  apply andb_true_iff. split; [|q_prop; exact H2].
  destruct (Qeq_bool lo q) eqn:Eq; [apply orb_true_r|].
  apply orb_true_iff. left. q_prop.
  apply Qle_lteq in H1. destruct H1 as [H1|H1]; [exact H1|contradiction].
Qed.

Lemma in_range_false (lo hi q : Q) (r : row) :
  num r "temperature_c" = Fin q -> (q < lo)%Q \/ (hi <= q)%Q ->
  in_range (Fin lo) (Fin hi) r = false.
Proof.
  intros E H. unfold in_range, geb, leb. rewrite E. simpl.
  apply andb_false_iff. destruct H as [H|H].
  - left. apply orb_false_iff. split; q_prop; lra.
  - right. q_prop. exact H.
Qed.

Ltac band lo hi q E :=
  first [ rewrite (in_range_true lo hi q _ E) by lra
        | rewrite (in_range_false lo hi q _ E) by lra ].

Lemma one_band (r : row) :
  ((if in_range (Fin 0) (Fin 10) r then 1 else 0)
   + (if in_range (Fin 10) (Fin 15) r then 1 else 0)
   + (if in_range (Fin 15) (Fin 20) r then 1 else 0)
   + (if in_range (Fin 20) (Fin 25) r then 1 else 0)
   + (if in_range (Fin 25) (Fin 50) r then 1 else 0)
   = if in_range (Fin 0) (Fin 50) r then 1 else 0)%nat.
Proof.
  destruct (num r "temperature_c") as [q| | |] eqn:E;
    try (unfold in_range, geb, leb; rewrite E; reflexivity).
  destruct (Qlt_le_dec q 0);
    [|destruct (Qlt_le_dec q 10);
      [|destruct (Qlt_le_dec q 15);
        [|destruct (Qlt_le_dec q 20);
          [|destruct (Qlt_le_dec q 25);
            [|destruct (Qlt_le_dec q 50)]]]]];
    band 0 10 q E; band 10 15 q E; band 15 20 q E; band 20 25 q E;
    band 25 50 q E; band 0 50 q E; reflexivity.
Qed.

Lemma band_count (d : DataFrame) (ms : list string) (name : string)
  (lo hi : float) :
  band_rows
    (match filter (in_range lo hi) (rows d) with
     | [] => []
     | _ :: _ =>
         [(name,
           {| count := List.length (filter (in_range lo hi) (rows d));
              metrics :=
                map (fun metric =>
                       (metric,
                        {| avg := Series.mean
                                    (series (filter (in_range lo hi)
                                                    (rows d)) metric);
                           total := Series.sum
                                      (series (filter (in_range lo hi)
                                                      (rows d)) metric);
                           max := Series.max
                                    (series (filter (in_range lo hi)
                                                    (rows d)) metric);
                           min := Series.min
                                    (series (filter (in_range lo hi)
                                                    (rows d)) metric) |}))
                    ms |})]
     end)
  = List.length (filter (in_range lo hi) (rows d)).
Proof.
  unfold band_rows.
  destruct (filter (in_range lo hi) (rows d)); simpl; lia.
Qed.

(** X16. The five temperature bands cover the range from 0 up to, but not
    including, 50 exactly once: the row counts of the reported bands add up
    to the number of rows whose temperature lies in that range.  Every
    reported band has at least one row, and the bands are reported in the
    order cold, cool, mild, warm, hot. *)
Theorem temperature_bands_partition (self : analyzer) :
  has_col (df self) "temperature_c" = true ->
  band_rows (analyze_temperature_ranges self)
  = List.length (filter (in_range (Fin 0) (Fin 50)) (rows (df self))) /\
  Forall (fun item => (0 < count (snd item))%nat)
         (analyze_temperature_ranges self) /\
  exists keep,
    map fst (analyze_temperature_ranges self)
    = filter keep (map fst temp_ranges).
Proof.
  intro Hc. unfold analyze_temperature_ranges. rewrite Hc. cbn [negb].
  split; [|split].
  - unfold temp_ranges. cbn [flat_map]. unfold band_rows.
    rewrite !map_app, !list_sum_app. fold (band_rows []).
    repeat match goal with
    | |- context [list_sum (map _ ?l)] =>
        change (list_sum (map (fun item => count (snd item)) l))
          with (band_rows l)
    end.
    rewrite !band_count. change (band_rows []) with 0%nat.
    rewrite !filter_length_cond.
    induction (rows (df self)) as [|r l IH]; simpl; [reflexivity|].
    pose proof (one_band r) as H.
    destruct (in_range (Fin 0) (Fin 10) r),
             (in_range (Fin 10) (Fin 15) r),
             (in_range (Fin 15) (Fin 20) r),
             (in_range (Fin 20) (Fin 25) r),
             (in_range (Fin 25) (Fin 50) r),
             (in_range (Fin 0) (Fin 50) r); simpl in *; lia.
  - apply Forall_flat_map, Forall_forall. intros [name [lo hi]] _.
    destruct (filter (in_range lo hi) (rows (df self)));
      constructor; [simpl; lia|constructor].
  - unfold temp_ranges. cbn [flat_map].
    repeat match goal with
    | |- context [filter (in_range ?lo ?hi) ?l] =>
        destruct (filter (in_range lo hi) l)
    end;
    cbn [app map fst];
    match goal with
    | |- exists keep, ?names = _ =>
        exists (fun name => existsb (String.eqb name) names)
    end;
    vm_compute; reflexivity.
Qed.

Lemma temperature_bands_partition_witness :
  band_rows (analyze_temperature_ranges (init Samples.weather)) = 3%nat.
Proof.
  rewrite (proj1 (temperature_bands_partition (init Samples.weather)
                    eq_refl)).
  reflexivity.
Defined.

(** *** Strong pairs and what is recommended for them *)

Lemma leb_trans (x y z : float) :
  (x <=? y) = true -> (y <=? z) = true -> (x <=? z) = true.
Proof.
  unfold leb. destruct x, y, z; simpl; trivial; try discriminate.
  intros H1 H2. apply orb_true_iff in H1. apply orb_true_iff in H2.
  destruct (Qeq_bool q q1) eqn:E; [apply orb_true_r|].
  apply orb_true_iff. left.
  destruct H1, H2; q_prop; lra.
Qed.

(** X17. Raising the threshold can only remove strong pairs: a pair that
    is strong at a threshold is strong at every lower one, and every strong
    pair is a pair of the correlation table with the same result. *)
Theorem strong_pairs_shrink_with_threshold (self : analyzer)
  (t1 t2 : float) (m w : string) (d : correlation_result) :
  (t1 <=? t2) = true ->
  reported (get_strong_correlations self t2) m w d ->
  reported (get_strong_correlations self t1) m w d /\
  reported (correlations self) m w d.
Proof.
  intros Ht H. apply WeatherFacts.strong_reported in H.
  destruct H as (Hr & Hc & Hs). split; [|exact Hr].
  apply WeatherFacts.strong_reported. split; [exact Hr|].
  split; [|exact Hs]. unfold geb in *. exact (leb_trans _ _ _ Ht Hc).
Qed.

Lemma strong_pairs_shrink_with_threshold_witness :
  let self :=
    snd (calculate_correlations Samples.moderate_and_significant
                                (init Samples.weather)) in
  let d := {| correlation := double_0_65; p_value := double_0_01;
              significant := true |} in
  reported (get_strong_correlations self double_0_6)
           "conversions" "rainfall_mm" d /\
  reported (correlations self) "conversions" "rainfall_mm" d.
Proof.
  apply (strong_pairs_shrink_with_threshold _ double_0_6
           double_0_65).
  - reflexivity.
  - eexists. split; [left; reflexivity|]. right. left. reflexivity.
Defined.

Lemma flat_map_snd_length {K V W : Type} (f : K -> V -> W)
  (t : list (K * list V)) :
  List.length
    (flat_map (fun kv : K * list V => map (f (fst kv)) (snd kv)) t)
  = List.length (flat_map snd t).
Proof.
  induction t as [|[k l] t IH]; simpl; [reflexivity|].
  rewrite !length_app, length_map, IH. reflexivity.
Qed.

Lemma flat_map_le {A B : Type} (f : A -> list B) (l : list A) :
  (forall x, (List.length (f x) <= 1)%nat) ->
  (List.length (flat_map f l) <= List.length l)%nat.
Proof.
  intro H. induction l as [|a l IH]; simpl; [lia|].
  rewrite length_app. specialize (H a). lia.
Qed.

(** X18. Every strong pair gets one correlation insight.  A budget
    recommendation is made for a strong pair only when its coefficient is
    above 0.6 (increase) or below -0.6 (shift to digital), the bounds being
    the doubles the literals denote.  A strong pair whose coefficient is
    exactly 0.6 or -0.6 gets an insight and no recommendation: on the
    sample frame, a correlation routine that returns exactly 0.6, or
    exactly -0.6, gives two insights and no recommendation. *)
Theorem strong_pair_recommendations :
  (forall self : analyzer,
     List.length (correlation_insights self)
     = List.length
         (flat_map snd
                   (get_strong_correlations self default_strong_threshold))
     /\
     (List.length (correlation_recommendations self)
      <= List.length
           (flat_map snd
                     (get_strong_correlations self
                                              default_strong_threshold)))%nat
     /\
     (forall m w,
        In (increase_budget_when_favorable w m)
           (correlation_recommendations self)
        <-> exists d,
              reported
                (get_strong_correlations self default_strong_threshold)
                m w d
              /\ (correlation d >? double_0_6) = true) /\
     (forall m w,
        In (shift_to_digital_when_unfavorable w m)
           (correlation_recommendations self)
        <-> exists d,
              reported
                (get_strong_correlations self default_strong_threshold)
                m w d
              /\ (correlation d >? double_0_6) = false
              /\ (correlation d <? opp double_0_6) = true)) /\
  (let self :=
     snd (calculate_correlations Samples.exactly_sixty_percent
                                 (init Samples.weather)) in
   map fst (flat_map snd
              (get_strong_correlations self default_strong_threshold))
   = ["temperature_c"; "rainfall_mm"] /\
   List.length (correlation_insights self) = 2%nat /\
   correlation_recommendations self = []) /\
  (let self :=
     snd (calculate_correlations Samples.exactly_minus_sixty_percent
                                 (init Samples.weather)) in
   map fst (flat_map snd
              (get_strong_correlations self default_strong_threshold))
   = ["temperature_c"; "rainfall_mm"] /\
   List.length (correlation_insights self) = 2%nat /\
   correlation_recommendations self = []).
Proof.
  split; [|split; cbv zeta; repeat split; vm_compute; reflexivity].
  intro self.
  unfold correlation_insights, correlation_recommendations.
  generalize (get_strong_correlations self default_strong_threshold).
  intro strong. split; [|split; [|split]].
  - apply (flat_map_snd_length
             (fun (m : string) (wd : string * correlation_result) =>
                correlation_insight m (fst wd) (correlation (snd wd))
                  (correlation (snd wd) >? zero)
                  (abs (correlation (snd wd)) >? double_0_7))).
  - induction strong as [|[m l] strong IH]; [simpl; lia|].
    cbn [flat_map fst snd]. rewrite !length_app.
    apply Nat.add_le_mono; [|exact IH].
    apply flat_map_le. intro wd.
    destruct (_ >? _)%float; [simpl; lia|].
    destruct (_ <? _)%float; simpl; lia.
  - intros m w. unfold reported. rewrite in_flat_map. split.
    + intros ([m' inner] & Hin & H). apply in_flat_map in H.
      destruct H as ([w' d] & Hd & H). cbn [fst snd] in H.
      destruct (correlation d >? double_0_6) eqn:E.
      * destruct H as [[= -> ->]|[]]. eauto 6.
      * destruct (correlation d <? opp double_0_6);
          [destruct H as [H|[]]; discriminate H|destruct H].
    + intros (d & (inner & Hin & Hd) & E).
      exists (m, inner). split; [exact Hin|].
      apply in_flat_map. exists (w, d). split; [exact Hd|].
      cbn [fst snd]. rewrite E. now left.
  - intros m w. unfold reported. rewrite in_flat_map. split.
    + intros ([m' inner] & Hin & H). apply in_flat_map in H.
      destruct H as ([w' d] & Hd & H). cbn [fst snd] in H.
      destruct (correlation d >? double_0_6) eqn:E.
      * destruct H as [H|[]]. discriminate H.
      * destruct (correlation d <? opp double_0_6) eqn:E'; [|destruct H].
        destruct H as [[= -> ->]|[]]. eauto 7.
    + intros (d & (inner & Hin & Hd) & E & E').
      exists (m, inner). split; [exact Hin|].
      apply in_flat_map. exists (w, d). split; [exact Hd|].
      cbn [fst snd]. rewrite E, E'. now left.
Qed.

(** *** Per-channel impact and the complete run *)

Section Impact.

Variable pearsonr : list float -> list float -> float * float.

Lemma impact_loop_raises (self : analyzer) (channels : list cell) :
  impact_loop pearsonr self channels = None <->
  has_col (df self) "conversions" = false /\ channels <> [].
Proof.
  induction channels as [|c cs IH]; simpl.
  - split; [discriminate|]. intros [_ H]. congruence.
  - destruct (has_col (df self) "conversions") eqn:E; simpl.
    + destruct (impact_loop pearsonr self cs) as [rest|].
      * split; [|intros [H _]; discriminate].
        destruct (2 <? _)%nat; [|discriminate].
        destruct (pearsonr _ _), (pearsonr _ _). discriminate.
      * destruct (proj1 IH eq_refl) as [H _]. discriminate.
    + split; [|reflexivity]. intros _. split; [reflexivity|discriminate].
Qed.

Lemma impact_loop_entries (self : analyzer) (channels : list cell)
  (out : list (cell * channel_impact)) (ch : cell) :
  impact_loop pearsonr self channels = Some out ->
  ((exists imp, In (ch, imp) out) <->
   In ch channels /\
   (3 <= List.length
           (dropna3 (select (rows (df self)) "channel" ch)
                    "conversions" "temperature_c" "rainfall_mm"))%nat).
Proof.
  revert out. induction channels as [|c cs IH]; simpl; intros out H.
  - injection H as <-. split; [intros [? []]|intros [[] _]].
  - destruct (negb (has_col (df self) "conversions")); [discriminate|].
    destruct (impact_loop pearsonr self cs) as [rest|]; [|discriminate].
    specialize (IH rest eq_refl).
    destruct (2 <? _)%nat eqn:E.
    + apply Nat.ltb_lt in E.
      destruct (pearsonr _ _) as [tc tp], (pearsonr _ _) as [rc rp].
      injection H as <-. split.
      * intros [imp [[= <- _]|Hin]]; [split; [now left|lia]|].
        destruct (proj1 IH (ex_intro _ imp Hin)). auto.
      * intros [[<-|Hin] Hl]; [eexists; left; reflexivity|].
        destruct (proj2 IH (conj Hin Hl)) as [imp Himp].
        exists imp. now right.
    + apply Nat.ltb_ge in E. injection H as <-. rewrite IH. split.
      * intros [Hin Hl]. auto.
      * intros [[<-|Hin] Hl]; [lia|auto].
Qed.

Lemma unique_nonempty (rs : list row) (c : string) :
  unique rs c = [] <-> rs = [].
Proof.
  unfold unique. destruct rs; simpl; split; trivial; discriminate.
Qed.

Lemma channel_impact_raises (self : analyzer) :
  get_by_channel_weather_impact pearsonr self = None <->
  has_col (df self) "channel" = true /\
  check_weather_data_available self = true /\
  has_col (df self) "conversions" = false /\ rows (df self) <> [].
Proof.
  unfold get_by_channel_weather_impact.
  destruct (has_col (df self) "channel");
    destruct (check_weather_data_available self); cbn [negb orb].
  - rewrite impact_loop_raises, unique_nonempty. tauto.
  - split; [discriminate|intros (_ & H & _); discriminate].
  - split; [discriminate|intros (H & _); discriminate].
  - split; [discriminate|intros (H & _); discriminate].
Qed.

(** X19. On a frame whose conversions and weather columns hold numbers,
    the per-channel weather impact raises exactly when the frame has rows,
    a channel column and both weather columns but no conversions column.
    When it returns, it has an entry for a channel exactly when at least 3
    rows of the channel hold conversions, temperature and rainfall
    together. *)
Theorem channel_impact_entries (self : analyzer) :
  numeric (df self) ["conversions"; "temperature_c"; "rainfall_mm"] = true ->
  (get_by_channel_weather_impact pearsonr self = None <->
   has_col (df self) "channel" = true /\
   check_weather_data_available self = true /\
   has_col (df self) "conversions" = false /\ rows (df self) <> []) /\
  (forall out ch,
     get_by_channel_weather_impact pearsonr self = Some out ->
     ((exists imp, In (ch, imp) out) <->
      has_col (df self) "channel" = true /\
      check_weather_data_available self = true /\
      In ch (unique (rows (df self)) "channel") /\
      (3 <= List.length
              (dropna3 (select (rows (df self)) "channel" ch)
                       "conversions" "temperature_c" "rainfall_mm"))%nat)).
Proof.
  intros _.
  split; [apply channel_impact_raises|].
  unfold get_by_channel_weather_impact.
  destruct (has_col (df self) "channel");
    destruct (check_weather_data_available self); cbn [negb orb].
  - intros out ch H. rewrite (impact_loop_entries _ _ _ ch H). tauto.
  - intros out ch [= <-].
    split; [intros [? []]|intros (_ & H & _); discriminate].
  - intros out ch [= <-].
    split; [intros [? []]|intros (H & _); discriminate].
  - intros out ch [= <-].
    split; [intros [? []]|intros (H & _); discriminate].
Qed.

Lemma correlations_keep_frame (self : analyzer) :
  df (snd (calculate_correlations pearsonr self)) = df self.
Proof.
  unfold calculate_correlations. destruct (negb _); reflexivity.
Qed.

(** X20. The complete weather run returns the empty result, and leaves
    the analyzer as it was, when a weather column is missing.  With both
    weather columns, on a frame whose weather and performance columns hold
    numbers, it raises exactly when the frame has rows and a channel
    column but no conversions column; in every other case it returns a
    summary. *)
Theorem weather_run_outcomes (self : analyzer) :
  numeric (df self) (weather_cols ++ performance_cols) = true ->
  (check_weather_data_available self = false ->
   analyze_all pearsonr self = Some (None, self)) /\
  (check_weather_data_available self = true ->
   (analyze_all pearsonr self = None <->
    has_col (df self) "channel" = true /\
    has_col (df self) "conversions" = false /\ rows (df self) <> []) /\
   (analyze_all pearsonr self <> None ->
    exists summary,
      analyze_all pearsonr self
      = Some (Some summary, snd (calculate_correlations pearsonr self))
      /\ data_available summary = true)).
Proof.
  intros _.
  unfold analyze_all. split; intro Ha; rewrite Ha; cbn [negb];
    [reflexivity|].
  unfold generate_summary.
  set (self1 := snd (calculate_correlations pearsonr self)).
  assert (Hd : df self1 = df self) by apply correlations_keep_frame.
  assert (Ha1 : check_weather_data_available self1 = true).
  { unfold check_weather_data_available in *. rewrite Hd. exact Ha. }
  pose proof (channel_impact_raises self1) as R.
  rewrite Ha1, Hd in R.
  destruct (get_by_channel_weather_impact pearsonr self1) as [imp|].
  - split.
    + split; [discriminate|]. intro H.
      assert (E : Some imp = None) by (apply R; tauto).
      discriminate E.
    + intros _. eexists. split; [reflexivity|].
      cbn [data_available]. exact Ha1.
  - split.
    + split; [|reflexivity]. intros _.
      destruct (proj1 R eq_refl) as (H1 & _ & H2 & H3). auto.
    + intro H. contradiction.
Qed.

End Impact.

Lemma channel_impact_entries_witness :
  get_by_channel_weather_impact Samples.moderate_and_significant
                                (init Samples.weather_by_channel) = None /\
  exists out,
    get_by_channel_weather_impact Samples.moderate_and_significant
                                  (init Samples.weather_of_two_channels)
    = Some out /\
    map fst out = [Str "email"] /\
    ~ (exists imp, In (Str "social", imp) out).
Proof.
  split.
  - apply (proj1 (channel_impact_entries Samples.moderate_and_significant
                    (init Samples.weather_by_channel) eq_refl)).
    repeat split; discriminate.
  - eexists. split; [reflexivity|]. split; [reflexivity|].
    intro H.
    apply (proj2 (channel_impact_entries Samples.moderate_and_significant
                    (init Samples.weather_of_two_channels) eq_refl)
                 _ (Str "social") eq_refl) in H.
    destruct H as (_ & _ & _ & H). vm_compute in H. lia.
Defined.

Lemma weather_run_outcomes_witness :
  analyze_all Samples.high_but_insignificant
              (init Samples.weather_by_channel) = None /\
  analyze_all Samples.high_but_insignificant
              (init Samples.no_click_day)
  = Some (None, init Samples.no_click_day) /\
  exists summary self',
    analyze_all Samples.high_but_insignificant
                (init Samples.weather_of_two_channels)
    = Some (Some summary, self').
Proof.
  split; [|split].
  - apply (proj1 (proj2 (weather_run_outcomes
                           Samples.high_but_insignificant
                           (init Samples.weather_by_channel) eq_refl)
                        eq_refl)).
    repeat split; discriminate.
  - apply (proj1 (weather_run_outcomes Samples.high_but_insignificant
                                       (init Samples.no_click_day)
                                       eq_refl)).
    reflexivity.
  - destruct (proj2 (proj2 (weather_run_outcomes
                              Samples.high_but_insignificant
                              (init Samples.weather_of_two_channels)
                              eq_refl)
                           eq_refl)) as (summary & E & _).
    + intro H.
      apply (proj1 (proj2 (weather_run_outcomes
                             Samples.high_but_insignificant
                             (init Samples.weather_of_two_channels)
                             eq_refl)
                          eq_refl)) in H.
      destruct H as (_ & H & _). discriminate H.
    + eauto.
Defined.


(** *** Temperature insight and recommendation *)

(** X21. Whenever the insights name a best and a worst temperature band,
    the two bands differ, at least two bands have rows, and the
    recommendations advise planning for that same best band. *)
Theorem temperature_insight_has_recommendation (self : analyzer)
  (best worst : string) :
  In (temperature_range best worst) (generate_weather_insights self) ->
  In (optimize_for_best_temperature best) (generate_recommendations self)
  /\ best <> worst
  /\ (2 <= List.length (analyze_temperature_ranges self))%nat.
Proof.
  unfold generate_weather_insights, generate_recommendations.
  intro H. apply in_app_or in H. destruct H as [H|H].
  { unfold correlation_insights in H. apply in_flat_map in H.
    destruct H as (mw & _ & H). apply in_map_iff in H.
    destruct H as (wd & H & _). discriminate H. }
  apply in_app_or in H. destruct H as [H|H].
  { unfold rainy_insights in H.
    destruct (analyze_rainy_days self); [|destruct H].
    apply in_flat_map in H. destruct H as (md & _ & H).
    destruct (_ >? _); [|destruct H]. destruct H as [H|[]].
    discriminate H. }
  unfold temperature_insights in H.
  unfold temperature_recommendations.
  destruct (analyze_temperature_ranges self) as [|x [|y l]].
  - destruct H.
  - simpl in H. rewrite String.eqb_refl in H. destruct H.
  - set (analysis := x :: y :: l) in *.
    assert (exists b, Py.max_by conversions_avg analysis = Some b)
      as [b Eb] by (eexists; reflexivity).
    assert (exists w, Py.min_by conversions_avg analysis = Some w)
      as [w Ew] by (eexists; reflexivity).
    rewrite Eb, Ew in H. rewrite Eb.
    destruct (String.eqb (fst b) (fst w)) eqn:E; [destruct H|].
    destruct H as [[= <- <-]|[]].
    split; [|split].
    + apply in_or_app. right. apply in_or_app. right.
      subst analysis. cbn [List.length Nat.ltb Nat.leb]. now left.
    + apply String.eqb_neq. exact E.
    + subst analysis. simpl. lia.
Qed.

Lemma temperature_insight_has_recommendation_witness :
  In (optimize_for_best_temperature "warm")
     (generate_recommendations (init Samples.weather))
  /\ "warm" <> "cold"
  /\ (2 <= List.length
             (analyze_temperature_ranges (init Samples.weather)))%nat.
Proof.
  apply (temperature_insight_has_recommendation
           (init Samples.weather) "warm" "cold").
  vm_compute. auto.
Defined.


End WeatherSplitFacts.

(* ------------------------------------------------------------------------- *)
(** ** Benchmark comparison: guards, lists and the complete run *)

Module BenchmarkRunFacts.

Import BenchmarkAnalyzer FloatFacts.
Local Open Scope float_scope.

Lemma pct_of_zero_benchmark (diff bench : float) :
  (bench ==? zero) = true -> pct_of diff bench = zero.
Proof. intro H. unfold pct_of, neb. rewrite H. reflexivity. Qed.

(** X22. A benchmark value of zero is never divided by: at both
    granularities the entry reports a difference of 0 % and the tier
    in_line, whatever the client's value. *)
Theorem zero_benchmark_is_in_line (self : analyzer) :
  let guarded (kv : string * comparison) :=
    (benchmark_value (snd kv) ==? zero) = true ->
    pct_difference (snd kv) = zero /\ tier (snd kv) = in_line in
  Forall guarded (fst (compare_overall_metrics self))
  /\ Forall (fun cc => Forall guarded (snd cc))
            (fst (compare_by_channel self)).
Proof.
  intro guarded. split.
  - apply (BenchmarkFacts.overall_Forall
             (fun _ e => (benchmark_value e ==? zero) = true ->
                         pct_difference e = zero /\ tier e = in_line)).
    intros name c b _ H. cbn [compare_overall_entry benchmark_value
      pct_difference tier] in *.
    rewrite (pct_of_zero_benchmark _ _ H). split; reflexivity.
  - apply (BenchmarkFacts.by_channel_Forall (Forall guarded)).
    intros client bench.
    apply (BenchmarkFacts.compare_dicts_Forall
             (fun _ e => (benchmark_value e ==? zero) = true ->
                         pct_difference e = zero /\ tier e = in_line)).
    intros name c b _ H. cbn [compare_channel_entry benchmark_value
      pct_difference tier] in *.
    rewrite (pct_of_zero_benchmark _ _ H). split; reflexivity.
Qed.

(** *** The lists of strengths and weaknesses *)

Lemma run_comparison (summary : kpi_summary_t)
  (loaded : list (string * kpi_dict)) :
  or_empty (comparisons_overall
              (snd (compare_overall_metrics (init summary loaded))))
  = fst (compare_overall_metrics (init summary loaded)).
Proof.
  unfold compare_overall_metrics. cbn [init benchmarks].
  destruct (Dict.lookup String.eqb loaded "overall"); reflexivity.
Qed.

Lemma strength_In (self : analyzer) (t : float) (s : strength) :
  In s (get_strengths self t) ->
  exists e,
    In (s_metric s, e) (or_empty (comparisons_overall self))
    /\ (pct_difference e >? t) = true
    /\ pct_above s = pct_difference e /\ s_tier s = tier e.
Proof.
  unfold get_strengths. intro H.
  apply (Permutation_in _ (PyFacts.sorted_desc_perm _ _)) in H.
  apply in_flat_map in H. destruct H as [[m e] [Hin H]].
  destruct (pct_difference e >? t) eqn:E; [|destruct H].
  destruct H as [<-|[]]. exists e. cbn. auto.
Qed.

Lemma weakness_In (self : analyzer) (t : float) (w : weakness) :
  In w (get_weaknesses self t) ->
  exists e,
    In (w_metric w, e) (or_empty (comparisons_overall self))
    /\ (pct_difference e <? t) = true
    /\ pct_below w = abs (pct_difference e) /\ w_tier w = tier e.
Proof.
  unfold get_weaknesses. intro H.
  apply (Permutation_in _ (PyFacts.sorted_desc_perm _ _)) in H.
  apply in_flat_map in H. destruct H as [[m e] [Hin H]].
  destruct (pct_difference e <? t) eqn:E; [|destruct H].
  destruct H as [<-|[]]. exists e. cbn. auto.
Qed.

Lemma compare_dicts_keys (entry : string -> float -> float -> comparison)
  (client bench : kpi_dict) :
  NoDup (map fst (compare_dicts entry client bench)).
Proof.
  unfold compare_dicts.
  assert (G : forall l : list (string * string),
             NoDup (map fst l) ->
             NoDup (map fst
                      (flat_map
                         (fun kb : string * string =>
                            let (kpi_name, bench_name) := kb in
                            match Dict.lookup String.eqb client kpi_name,
                                  Dict.lookup String.eqb bench bench_name
                            with
                            | Some c, Some b =>
                                [(kpi_name, entry kpi_name c b)]
                            | _, _ => []
                            end) l))
             /\ forall k,
                  In k (map fst
                      (flat_map
                         (fun kb : string * string =>
                            let (kpi_name, bench_name) := kb in
                            match Dict.lookup String.eqb client kpi_name,
                                  Dict.lookup String.eqb bench bench_name
                            with
                            | Some c, Some b =>
                                [(kpi_name, entry kpi_name c b)]
                            | _, _ => []
                            end) l)) -> In k (map fst l)).
  { induction l as [|[k b] l IH]; cbn [flat_map map fst]; intro N.
    - split; [constructor|auto].
    - inversion N as [|? ? Hk Hl]; subst. destruct (IH Hl) as [IH1 IH2].
      destruct (Dict.lookup String.eqb client k);
        [destruct (Dict.lookup String.eqb bench b)|];
        cbn [app map fst]; split;
        try exact IH1; try (intros k' H; right; apply IH2, H).
      + constructor; [|exact IH1]. intro H. apply Hk, IH2, H.
      + intros k' [<-|H]; [now left|right; apply IH2, H]. }
  apply G. unfold kpi_bench_map. cbn [map fst].
  repeat constructor; cbn [In]; intuition discriminate.
Qed.

Lemma run_keys (summary : kpi_summary_t)
  (loaded : list (string * kpi_dict)) :
  NoDup (map fst (fst (compare_overall_metrics (init summary loaded)))).
Proof.
  unfold compare_overall_metrics.
  destruct (Dict.lookup _ _ "overall"); cbn [fst map];
    [apply compare_dicts_keys|constructor].
Qed.

Lemma In_same_key {V : Type} (d : list (string * V)) (k : string)
  (v v' : V) :
  NoDup (map fst d) -> In (k, v) d -> In (k, v') d -> v = v'.
Proof.
  intros N H H'.
  apply (AnomalySummaryFacts.lookup_In d k v N) in H.
  apply (AnomalySummaryFacts.lookup_In d k v' N) in H'.
  congruence.
Qed.

Lemma run_tiers (summary : kpi_summary_t)
  (loaded : list (string * kpi_dict)) :
  Forall (fun kv => tier (snd kv) = overall_tier (pct_difference (snd kv)))
         (fst (compare_overall_metrics (init summary loaded))).
Proof.
  apply (BenchmarkFacts.overall_Forall
           (fun _ e => tier e = overall_tier (pct_difference e))).
  reflexivity.
Qed.

Lemma gtb_ten_tier (pct : float) :
  (pct >? Fin 10) = true ->
  overall_tier pct = top_20 \/ overall_tier pct = top_40.
Proof.
  intro H. destruct (BenchmarkFacts.overall_ladder pct)
    as (_ & T20 & T40 & _).
  destruct (pct >? Fin 20) eqn:E; [left; apply T20|right; apply T40]; auto.
Qed.

Lemma ltb_minus_ten_tier (pct : float) :
  (pct <? Fin (- 10)) = true ->
  overall_tier pct = bottom_20 \/ overall_tier pct = bottom_40.
Proof.
  intro H. destruct (BenchmarkFacts.overall_ladder pct)
    as (_ & _ & _ & B20 & B40 & _).
  destruct (pct <? Fin (- 20)) eqn:E; [left; apply B20|right; apply B40];
    auto.
Qed.

Lemma not_above_and_below (pct : float) :
  (pct >? Fin 10) = true -> (pct <? Fin (- 10)) = true -> False.
Proof.
  unfold gtb. destruct pct; simpl; try discriminate.
  intros. q_prop. lra.
Qed.

(** X23. After the overall comparison of a fresh analyzer, with the default
    cut-offs: every strength is tiered top_20 or top_40 and every weakness
    bottom_20 or bottom_40, no metric is both a strength and a weakness,
    and each list is ordered by decreasing gap. *)
Theorem strengths_and_weaknesses_tiers (summary : kpi_summary_t)
  (loaded : list (string * kpi_dict)) :
  let self := snd (compare_overall_metrics (init summary loaded)) in
  let strengths := get_strengths self (Fin 10) in
  let weaknesses := get_weaknesses self (Fin (- 10)) in
  Forall (fun s => s_tier s = top_20 \/ s_tier s = top_40) strengths
  /\ Forall (fun w => w_tier w = bottom_20 \/ w_tier w = bottom_40)
            weaknesses
  /\ (forall s w, In s strengths -> In w weaknesses ->
                  s_metric s <> w_metric w)
  /\ Sorted (Py.desc pct_above) strengths
  /\ Sorted (Py.desc pct_below) weaknesses.
Proof.
  intros self strengths weaknesses.
  pose proof (run_tiers summary loaded) as T.
  rewrite Forall_forall in T.
  split; [|split; [|split; [|split]]].
  - apply Forall_forall. intros s Hs.
    apply strength_In in Hs. destruct Hs as (e & Hin & Hp & _ & ->).
    unfold self in Hin. rewrite run_comparison in Hin.
    pose proof (T _ Hin) as Ht. cbn [snd] in Ht. rewrite Ht.
    apply gtb_ten_tier, Hp.
  - apply Forall_forall. intros w Hw.
    apply weakness_In in Hw. destruct Hw as (e & Hin & Hp & _ & ->).
    unfold self in Hin. rewrite run_comparison in Hin.
    pose proof (T _ Hin) as Ht. cbn [snd] in Ht. rewrite Ht.
    apply ltb_minus_ten_tier, Hp.
  - intros s w Hs Hw E.
    apply strength_In in Hs. destruct Hs as (e & Hin & Hp & _).
    apply weakness_In in Hw. destruct Hw as (e' & Hin' & Hp' & _).
    unfold self in Hin, Hin'. rewrite run_comparison in Hin, Hin'.
    rewrite E in Hin.
    pose proof (In_same_key _ _ _ _ (run_keys summary loaded) Hin Hin')
      as ->.
    exact (not_above_and_below _ Hp Hp').
  - apply PyFacts.sorted_desc_sorted.
  - apply PyFacts.sorted_desc_sorted.
Qed.


(** *** Sign of the gap and the performance label *)

Lemma lookup_Some_In {V : Type} (d : list (string * V)) (k : string)
  (v : V) :
  Dict.lookup String.eqb d k = Some v -> In (k, v) d.
Proof.
  induction d as [|[k0 v0] d IH]; simpl; [discriminate|].
  destruct (String.eqb k0 k) eqn:E.
  - apply String.eqb_eq in E. intros [= ->]. left. congruence.
  - intro H. right. apply IH, H.
Qed.

Lemma compare_dicts_In (entry : string -> float -> float -> comparison)
  (client bench : kpi_dict) (m : string) (e : comparison) :
  In (m, e) (compare_dicts entry client bench) ->
  exists c b bench_name,
    In (m, bench_name) kpi_bench_map
    /\ Dict.lookup String.eqb client m = Some c
    /\ Dict.lookup String.eqb bench bench_name = Some b
    /\ e = entry m c b.
Proof.
  unfold compare_dicts. intro H. apply in_flat_map in H.
  destruct H as [[k bn] [Hin H]].
  destruct (Dict.lookup String.eqb client k) as [c|] eqn:Ec; [|destruct H].
  destruct (Dict.lookup String.eqb bench bn) as [b|] eqn:Eb; [|destruct H].
  destruct H as [[= <- <-]|[]]. exists c, b, bn. auto.
Qed.

Lemma positive_not_zero (b : float) :
  (b >? zero) = true -> (b !=? zero) = true.
Proof.
  intro H. unfold neb. rewrite (gtb_not_eqb _ _ H). reflexivity.
Qed.

Lemma Qdiv_pos (d b : Q) : (0 < b -> 0 < d -> 0 < d / b)%Q.
Proof.
  intros Hb Hd. apply Qlt_shift_div_l; [exact Hb|]. lra.
Qed.

Lemma Qdiv_nonpos (d b : Q) : (0 < b -> d <= 0 -> d / b <= 0)%Q.
Proof.
  intros Hb Hd. apply Qle_shift_div_r; [exact Hb|]. lra.
Qed.

(** With a positive benchmark, a gap below -10 % means the client's value
    is not above the benchmark, and a gap above 10 % means it is. *)
Lemma gap_sign (c b : float) :
  (b >? zero) = true ->
  ((pct_of (c - b) b <? Fin (- 10)) = true -> (c - b >? zero) = false)
  /\ ((pct_of (c - b) b >? Fin 10) = true -> (c - b >? zero) = true).
Proof.
  intro Hb. unfold pct_of. rewrite (positive_not_zero _ Hb).
  unfold gtb, hundred, zero in *.
  destruct c as [c| | |], b as [b| | |]; try discriminate Hb;
    cbn [sub add opp div mul hundred zero ltb] in *;
    try (split; intro; (reflexivity || discriminate)).
  - assert (Hpos : (0 < b)%Q) by (q_prop; exact Hb).
    destruct (Qeq_bool b 0) eqn:Ez; [q_prop; lra|].
    cbn [mul ltb]. split; intro H.
    + destruct (Qltb 0 (Qred (c + Qred (- b)))) eqn:E; [|reflexivity].
      exfalso. q_prop.
      pose proof (Qdiv_pos (c + - b) b Hpos E) as D.
      remember ((c + - b) / b)%Q as x. lra.
    + destruct (Qltb 0 (Qred (c + Qred (- b)))) eqn:E; [reflexivity|].
      exfalso. q_prop.
      pose proof (Qdiv_nonpos (c + - b) b Hpos E) as D.
      remember ((c + - b) / b)%Q as x. lra.
  - destruct (Qltb b 0) eqn:E; [q_prop; lra|].
    split; intro; (reflexivity || discriminate).
  - destruct (Qltb b 0) eqn:E; [q_prop; lra|].
    split; intro; (reflexivity || discriminate).
Qed.

(** X24. With positive overall benchmarks, every weakness is a metric
    whose value is not above its benchmark and every strength one whose
    value is above it.  A cost metric (cpc, cpa) listed as a weakness is
    therefore labelled as the better performance, and one listed as a
    strength as the worse. *)
Theorem weakness_sign_and_performance (summary : kpi_summary_t)
  (loaded : list (string * kpi_dict)) (bench : kpi_dict) :
  Dict.lookup String.eqb loaded "overall" = Some bench ->
  Forall (fun kv => (snd kv >? zero) = true) bench ->
  let cmp := fst (compare_overall_metrics (init summary loaded)) in
  let self := snd (compare_overall_metrics (init summary loaded)) in
  Forall (fun w =>
            exists e,
              In (w_metric w, e) cmp /\ status e = Some below
              /\ performance e
                 = Some (if is_cost (w_metric w) then better else worse))
         (get_weaknesses self (Fin (- 10)))
  /\ Forall (fun s =>
               exists e,
                 In (s_metric s, e) cmp /\ status e = Some above
                 /\ performance e
                    = Some (if is_cost (s_metric s) then worse else better))
            (get_strengths self (Fin 10)).
Proof.
  intros Hl Hpos cmp self.
  rewrite Forall_forall in Hpos.
  assert (Hcmp : cmp = compare_dicts compare_overall_entry
                         (or_empty (overall summary)) bench).
  { unfold cmp, compare_overall_metrics. cbn [init benchmarks kpi_summary].
    rewrite Hl. reflexivity. }
  split; apply Forall_forall.
  - intros w Hw. apply weakness_In in Hw.
    destruct Hw as (e & Hin & Hp & _).
    unfold self in Hin. rewrite run_comparison in Hin.
    exists e. split; [exact Hin|].
    fold cmp in Hin. rewrite Hcmp in Hin.
    apply compare_dicts_In in Hin.
    destruct Hin as (c & b & bn & _ & _ & Hb & ->).
    apply lookup_Some_In in Hb. apply Hpos in Hb. cbn [snd] in Hb.
    cbn [compare_overall_entry pct_difference status performance] in *.
    destruct (gap_sign c b Hb) as [G _]. rewrite (G Hp).
    destruct (is_cost (w_metric w)); auto.
  - intros s Hs. apply strength_In in Hs.
    destruct Hs as (e & Hin & Hp & _).
    unfold self in Hin. rewrite run_comparison in Hin.
    exists e. split; [exact Hin|].
    fold cmp in Hin. rewrite Hcmp in Hin.
    apply compare_dicts_In in Hin.
    destruct Hin as (c & b & bn & _ & _ & Hb & ->).
    apply lookup_Some_In in Hb. apply Hpos in Hb. cbn [snd] in Hb.
    cbn [compare_overall_entry pct_difference status performance] in *.
    destruct (gap_sign c b Hb) as [_ G]. rewrite (G Hp).
    destruct (is_cost (s_metric s)); auto.
Qed.

Lemma weakness_sign_and_performance_witness :
  let cmp :=
    fst (compare_overall_metrics
           (init Samples.cheap_clicks Samples.industry)) in
  let self :=
    snd (compare_overall_metrics
           (init Samples.cheap_clicks Samples.industry)) in
  Forall (fun w =>
            exists e,
              In (w_metric w, e) cmp /\ status e = Some below
              /\ performance e
                 = Some (if is_cost (w_metric w) then better else worse))
         (get_weaknesses self (Fin (- 10)))
  /\ Forall (fun s =>
               exists e,
                 In (s_metric s, e) cmp /\ status e = Some above
                 /\ performance e
                    = Some (if is_cost (s_metric s) then worse else better))
            (get_strengths self (Fin 10)).
Proof.
  apply (weakness_sign_and_performance Samples.cheap_clicks Samples.industry
           [("avg_ctr", Fin 2); ("avg_cpc", Fin 1);
            ("avg_conversion_rate", Fin 5); ("avg_cpa", Fin 20);
            ("avg_roas", Fin 2)]).
  - reflexivity.
  - repeat constructor.
Defined.


(** *** The percentile rank *)

Lemma rank_of_known (pct : float) : (1 <= rank_level (rank_of pct))%nat.
Proof.
  unfold rank_of.
  repeat match goal with
  | |- context [if ?c then _ else _] => destruct c
  end; simpl; lia.
Qed.

Lemma rank_top (pct : float) :
  (pct >? Fin 20) = true <-> rank_of pct = Top_5 \/ rank_of pct = Top_10.
Proof.
  unfold rank_of. destruct (pct >? Fin 30) eqn:E30.
  - split; [auto|]. intros _. unfold gtb in *.
    apply (ltb_trans (Fin 20) (Fin 30)); [reflexivity|exact E30].
  - destruct (pct >? Fin 20) eqn:E20; [tauto|].
    split; [discriminate|].
    repeat match goal with
    | |- context [if ?c then _ else _] => destruct c
    end; intros [H|H]; discriminate H.
Qed.

Lemma rank_bottom (pct : float) :
  (pct <? Fin (- 20)) = true ->
  rank_of pct = Bottom_5 \/ rank_of pct = Bottom_10.
Proof.
  unfold rank_of, gtb. destruct pct as [q| | |]; cbn [ltb];
    try discriminate; auto.
  intro H.
  destruct (Qltb 30 q) eqn:E1; [exfalso; q_prop; lra|].
  destruct (Qltb 20 q) eqn:E2; [exfalso; q_prop; lra|].
  destruct (Qltb 10 q) eqn:E3; [exfalso; q_prop; lra|].
  destruct (Qltb 0 q) eqn:E4; [exfalso; q_prop; lra|].
  destruct (Qltb (- 10) q) eqn:E5; [exfalso; q_prop; lra|].
  destruct (Qltb (- 20) q) eqn:E6; [exfalso; q_prop; lra|].
  destruct (Qltb (- 30) q); auto.
Qed.

Lemma rank_in_line (pct : float) :
  (abs pct <? Fin 5) = true ->
  rank_of pct = Top_50 \/ rank_of pct = Bottom_50.
Proof.
  unfold rank_of, gtb. destruct pct as [q| | |]; cbn [abs ltb];
    try discriminate.
  intro H. q_prop.
  assert (B : (- 5 < q /\ q < 5)%Q).
  { destruct (Qlt_le_dec q 0) as [Hs|Hs];
      [pose proof (Qabs_neg q (Qlt_le_weak _ _ Hs)) as Ha
      |pose proof (Qabs_pos q Hs) as Ha]; lra. }
  destruct B as [B1 B2].
  destruct (Qltb 30 q) eqn:E1; [exfalso; q_prop; lra|].
  destruct (Qltb 20 q) eqn:E2; [exfalso; q_prop; lra|].
  destruct (Qltb 10 q) eqn:E3; [exfalso; q_prop; lra|].
  destruct (Qltb 0 q) eqn:E4; [auto|].
  destruct (Qltb (- 10) q) eqn:E5; [auto|].
  exfalso. q_prop. lra.
Qed.

(** X25. After the overall comparison of a fresh analyzer, the percentile
    rank of a metric is Unknown exactly when the metric was not compared.
    For a compared metric the rank is Top 5 % or Top 10 % exactly when its
    tier is top_20; a bottom_20 tier gives Bottom 5 % or Bottom 10 %, and
    an in_line tier gives Top 50 % or Bottom 50 %. *)
Theorem percentile_rank_and_tier (summary : kpi_summary_t)
  (loaded : list (string * kpi_dict)) (metric : string) :
  let cmp := fst (compare_overall_metrics (init summary loaded)) in
  let self := snd (compare_overall_metrics (init summary loaded)) in
  let rank := get_percentile_rank self metric in
  (rank = Unknown <-> ~ In metric (map fst cmp))
  /\ forall e, In (metric, e) cmp ->
       (tier e = top_20 <-> rank = Top_5 \/ rank = Top_10)
       /\ (tier e = bottom_20 -> rank = Bottom_5 \/ rank = Bottom_10)
       /\ (tier e = in_line -> rank = Top_50 \/ rank = Bottom_50).
Proof.
  intros cmp self rank.
  unfold rank, get_percentile_rank, self. rewrite run_comparison.
  fold cmp. split.
  - destruct (Dict.lookup String.eqb cmp metric) as [e|] eqn:E.
    + split.
      * intro H. pose proof (rank_of_known (pct_difference e)) as K.
        rewrite H in K. simpl in K. lia.
      * intro H. exfalso. apply H.
        apply lookup_Some_In in E. apply (in_map fst) in E. exact E.
    + split; [|reflexivity]. intros _.
      apply AnomalySummaryFacts.lookup_None_keys, E.
  - intros e Hin.
    pose proof (run_tiers summary loaded) as T.
    rewrite Forall_forall in T. specialize (T _ Hin). cbn [snd] in T.
    apply (AnomalySummaryFacts.lookup_In cmp metric e
             (run_keys summary loaded)) in Hin.
    rewrite Hin, T.
    destruct (BenchmarkFacts.overall_ladder (pct_difference e))
      as (L0 & L1 & _ & L3 & _).
    split; [|split].
    + rewrite L1. apply rank_top.
    + intro H. apply rank_bottom, L3, H.
    + intro H. apply rank_in_line, L0, H.
Qed.


Lemma rank_of_fin (q : Q) :
  (30 < q /\ rank_of (Fin q) = Top_5)%Q
  \/ (20 < q <= 30 /\ rank_of (Fin q) = Top_10)%Q
  \/ (10 < q <= 20 /\ rank_of (Fin q) = Top_25)%Q
  \/ (0 < q <= 10 /\ rank_of (Fin q) = Top_50)%Q
  \/ (- 10 < q <= 0 /\ rank_of (Fin q) = Bottom_50)%Q
  \/ (- 20 < q <= - 10 /\ rank_of (Fin q) = Bottom_25)%Q
  \/ (- 30 < q <= - 20 /\ rank_of (Fin q) = Bottom_10)%Q
  \/ (q <= - 30 /\ rank_of (Fin q) = Bottom_5)%Q.
Proof.
  unfold rank_of, gtb. cbn [ltb].
  destruct (Qltb 30 q) eqn:E1; [left; q_prop; auto|].
  destruct (Qltb 20 q) eqn:E2; [right; left; q_prop; auto|].
  destruct (Qltb 10 q) eqn:E3; [do 2 right; left; q_prop; auto|].
  destruct (Qltb 0 q) eqn:E4; [do 3 right; left; q_prop; auto|].
  destruct (Qltb (- 10) q) eqn:E5; [do 4 right; left; q_prop; auto|].
  destruct (Qltb (- 20) q) eqn:E6; [do 5 right; left; q_prop; auto|].
  destruct (Qltb (- 30) q) eqn:E7; [do 6 right; left; q_prop; auto|].
  do 7 right. q_prop. auto.
Qed.

Lemma rank_of_monotone (p1 p2 : float) :
  (p1 <=? p2) = true ->
  (rank_level (rank_of p1) <= rank_level (rank_of p2))%nat.
Proof.
  unfold leb. intro H. apply orb_true_iff in H.
  destruct p1 as [a| | |], p2 as [b| | |];
    try (destruct H as [H|H]; discriminate H);
    try (vm_compute; lia);
    try (apply (rank_of_known (Fin b)));
    try (change (rank_of PInf) with Top_5;
         destruct (rank_of (Fin a)); simpl; lia).
  assert (Hab : (a <= b)%Q).
  { destruct H as [H|H]; cbn [ltb eqb] in H; q_prop; lra. }
  destruct (rank_of_fin a) as [[Ha ->]|[[Ha ->]|[[Ha ->]|[[Ha ->]|
    [[Ha ->]|[[Ha ->]|[[Ha ->]|[Ha ->]]]]]]]];
  destruct (rank_of_fin b) as [[Hb ->]|[[Hb ->]|[[Hb ->]|[[Hb ->]|
    [[Hb ->]|[[Hb ->]|[[Hb ->]|[Hb ->]]]]]]]];
  simpl; try lia; exfalso; lra.
Qed.

(** X26. The percentile rank follows the gap: of two compared metrics, the
    one with the smaller percentage difference never gets the better
    rank. *)
Theorem percentile_rank_monotone (self : analyzer) (m1 m2 : string)
  (e1 e2 : comparison) :
  Dict.lookup String.eqb (or_empty (comparisons_overall self)) m1 = Some e1 ->
  Dict.lookup String.eqb (or_empty (comparisons_overall self)) m2 = Some e2 ->
  (pct_difference e1 <=? pct_difference e2) = true ->
  (rank_level (get_percentile_rank self m1)
   <= rank_level (get_percentile_rank self m2))%nat.
Proof.
  intros H1 H2 H. unfold get_percentile_rank. rewrite H1, H2.
  apply rank_of_monotone, H.
Qed.

Lemma percentile_rank_monotone_witness :
  let self :=
    snd (compare_overall_metrics
           (init Samples.cheap_clicks Samples.industry)) in
  (rank_level (get_percentile_rank self "cpc")
   <= rank_level (get_percentile_rank self "ctr"))%nat.
Proof.
  intro self.
  apply (percentile_rank_monotone self "cpc" "ctr"
           (compare_overall_entry "cpc" (Fin (1 # 2)) (Fin 1))
           (compare_overall_entry "ctr" (Fin 3) (Fin 2)));
    reflexivity.
Defined.


(** *** The comparison by channel *)

Lemma not_in_lookup_None {V : Type} (d : list (string * V)) (k : string) :
  ~ In k (map fst d) -> Dict.lookup String.eqb d k = None.
Proof.
  intro H. destruct (Dict.lookup String.eqb d k) as [v|] eqn:E;
    [|reflexivity].
  exfalso. apply H. apply lookup_Some_In in E.
  apply (in_map fst) in E. exact E.
Qed.

Section FoldSet.
Context {A V : Type} (f : string -> A -> V).

Local Notation "'assign'" :=
  (fun (acc : list (string * V)) (ka : string * A) =>
     let (k, a) := ka in Dict.set String.eqb acc k (f k a)).

Lemma fold_assign (l : list (string * A)) :
  NoDup (map fst l) ->
  forall acc : list (string * V),
    (forall k, In k (map fst l) -> ~ In k (map fst acc)) ->
    map fst (fold_left assign l acc) = (map fst acc ++ map fst l)%list
    /\ (forall k a, In (k, a) l ->
          Dict.lookup String.eqb (fold_left assign l acc) k = Some (f k a))
    /\ (forall k, ~ In k (map fst l) ->
          Dict.lookup String.eqb (fold_left assign l acc) k
          = Dict.lookup String.eqb acc k).
Proof.
  induction l as [|[k a] l IH]; cbn [fold_left map fst]; intros N acc Hacc.
  - rewrite app_nil_r. repeat split; auto. intros k a [].
  - inversion N as [|? ? Hk Hl]; subst.
    assert (Ek : Dict.lookup String.eqb acc k = None).
    { apply not_in_lookup_None, Hacc. now left. }
    assert (Hkeys : map fst (Dict.set String.eqb acc k (f k a))
                    = (map fst acc ++ [k])%list).
    { rewrite AnomalySummaryFacts.set_keys, Ek. reflexivity. }
    destruct (IH Hl (Dict.set String.eqb acc k (f k a))) as (K & L & O).
    { intros k' Hk'. rewrite Hkeys. intro H. apply in_app_or in H.
      destruct H as [H|[<-|[]]]; [|exact (Hk Hk')].
      apply (Hacc k'); [now right|exact H]. }
    split; [|split].
    + rewrite K, Hkeys, <- app_assoc. reflexivity.
    + intros k' a' [[= <- <-]|Hin]; [|apply L, Hin].
      rewrite (O k Hk).
      rewrite AnomalySummaryFacts.lookup_set, String.eqb_refl. reflexivity.
    + intros k' Hk'. rewrite O by (intro H; apply Hk'; now right).
      rewrite AnomalySummaryFacts.lookup_set.
      destruct (String.eqb k k') eqn:E; [|reflexivity].
      apply String.eqb_eq in E. exfalso. apply Hk'. now left.
Qed.

End FoldSet.

(** X27. With benchmarks loaded and distinct client channels, the channel
    comparison has one entry per client channel, in the client's order.  A
    channel is compared with its own benchmarks when the file has a
    non-empty entry for it, and with the overall benchmarks otherwise. *)
Theorem channel_comparison_per_channel (self : analyzer)
  (chans : list (string * kpi_dict)) :
  by_channel (kpi_summary self) = Some chans ->
  benchmarks self <> [] ->
  NoDup (map fst chans) ->
  let out := fst (compare_by_channel self) in
  map fst out = map fst chans
  /\ forall ch kpis, In (ch, kpis) chans ->
       exists bench,
         Dict.lookup String.eqb out ch
         = Some (compare_dicts compare_channel_entry kpis bench)
         /\ match Dict.lookup String.eqb (benchmarks self) ch with
            | Some (b :: own) => bench = b :: own
            | _ =>
                bench
                = or_empty (Dict.lookup String.eqb (benchmarks self)
                                        "overall")
            end.
Proof.
  intros Hc Hb N out. unfold out, compare_by_channel. rewrite Hc.
  destruct (benchmarks self) as [|b0 bs] eqn:Eb; [contradiction|].
  cbn [is_empty fst]. rewrite <- Eb.
  pose (f := fun (channel : string) (client_kpi : kpi_dict) =>
               compare_dicts compare_channel_entry client_kpi
                 (if is_empty
                       (or_empty
                          (Dict.lookup String.eqb (benchmarks self) channel))
                  then or_empty
                         (Dict.lookup String.eqb (benchmarks self) "overall")
                  else or_empty
                         (Dict.lookup String.eqb (benchmarks self) channel))).
  destruct (fold_assign f chans N []) as (K & L & _).
  { intros k _ []. }
  split; [exact K|].
  intros ch kpis Hin. eexists. split; [exact (L ch kpis Hin)|].
  destruct (Dict.lookup String.eqb (benchmarks self) ch) as [[|b own]|];
    reflexivity.
Qed.

Lemma channel_comparison_per_channel_witness :
  let self := init Samples.cheap_clicks Samples.industry in
  let out := fst (compare_by_channel self) in
  map fst out = ["email"; "search"]
  /\ forall ch kpis,
       In (ch, kpis)
          [("email", [("ctr", Fin 3); ("cpc", Fin 1)]);
           ("search", [("ctr", Fin 1); ("cpc", Fin 2)])] ->
       exists bench,
         Dict.lookup String.eqb out ch
         = Some (compare_dicts compare_channel_entry kpis bench)
         /\ match Dict.lookup String.eqb (benchmarks self) ch with
            | Some (b :: own) => bench = b :: own
            | _ =>
                bench
                = or_empty (Dict.lookup String.eqb (benchmarks self)
                                        "overall")
            end.
Proof.
  intros self out.
  apply (channel_comparison_per_channel self
           [("email", [("ctr", Fin 3); ("cpc", Fin 1)]);
            ("search", [("ctr", Fin 1); ("cpc", Fin 2)])]).
  - reflexivity.
  - discriminate.
  - repeat constructor; cbn [In]; intuition discriminate.
Defined.


(** *** The complete run *)

Lemma by_channel_keeps_overall (self : analyzer) :
  comparisons_overall (snd (compare_by_channel self))
  = comparisons_overall self
  /\ benchmarks (snd (compare_by_channel self)) = benchmarks self.
Proof.
  unfold compare_by_channel.
  destruct (by_channel (kpi_summary self)); [|auto].
  destruct (is_empty (benchmarks self)); auto.
Qed.

Lemma overall_keeps_benchmarks (self : analyzer) :
  benchmarks (snd (compare_overall_metrics self)) = benchmarks self.
Proof.
  unfold compare_overall_metrics.
  destruct (Dict.lookup String.eqb (benchmarks self) "overall");
    reflexivity.
Qed.

(** After both comparisons of a fresh analyzer the stored overall
    comparison is the one [compare_overall_metrics] returned. *)
Lemma run_overall (summary : kpi_summary_t)
  (loaded : list (string * kpi_dict)) :
  or_empty
    (comparisons_overall
       (snd (compare_by_channel
               (snd (compare_overall_metrics (init summary loaded))))))
  = fst (compare_overall_metrics (init summary loaded)).
Proof.
  rewrite (proj1 (by_channel_keeps_overall _)). apply run_comparison.
Qed.

Lemma tier_eqb_eq (a b : tier_t) : tier_eqb a b = true <-> a = b.
Proof. destruct a, b; simpl; split; intro H; congruence. Qed.

Lemma sorted_desc_length {A : Type} (key : A -> float) (l : list A) :
  List.length (Py.sorted_desc key l) = List.length l.
Proof. apply Permutation_length, PyFacts.sorted_desc_perm. Qed.

Lemma top_20_are_strengths (self : analyzer) :
  Forall (fun kv => tier (snd kv) = overall_tier (pct_difference (snd kv)))
         (or_empty (comparisons_overall self)) ->
  (count_tier top_20 (or_empty (comparisons_overall self))
   <= List.length (get_strengths self (Fin 10)))%nat.
Proof.
  unfold count_tier, get_strengths. rewrite sorted_desc_length.
  induction 1 as [|[m e] l He Hl IH]; cbn [filter flat_map snd];
    [apply Nat.le_refl|].
  cbn [snd] in He. rewrite length_app.
  destruct (tier_eqb (tier e) top_20) eqn:E; [|lia].
  apply tier_eqb_eq in E. rewrite He in E.
  apply (proj1 (proj1 (proj2 (BenchmarkFacts.overall_ladder _)))) in E.
  assert (G : (pct_difference e >? Fin 10) = true).
  { unfold gtb in *.
    apply (ltb_trans (Fin 10) (Fin 20)); [reflexivity|exact E]. }
  rewrite G. cbn [List.length]. lia.
Qed.

Lemma bottom_20_are_weaknesses (self : analyzer) :
  Forall (fun kv => tier (snd kv) = overall_tier (pct_difference (snd kv)))
         (or_empty (comparisons_overall self)) ->
  (count_tier bottom_20 (or_empty (comparisons_overall self))
   <= List.length (get_weaknesses self (Fin (- 10))))%nat.
Proof.
  unfold count_tier, get_weaknesses. rewrite sorted_desc_length.
  induction 1 as [|[m e] l He Hl IH]; cbn [filter flat_map snd];
    [apply Nat.le_refl|].
  cbn [snd] in He. rewrite length_app.
  destruct (tier_eqb (tier e) bottom_20) eqn:E; [|lia].
  apply tier_eqb_eq in E. rewrite He in E.
  destruct (BenchmarkFacts.overall_ladder (pct_difference e))
    as (_ & _ & _ & B20 & _).
  apply B20 in E.
  assert (G : (pct_difference e <? Fin (- 10)) = true).
  { apply (ltb_trans _ (Fin (- 20))); [exact E|reflexivity]. }
  rewrite G. cbn [List.length]. lia.
Qed.

(** X28. The complete run of a fresh analyzer returns the empty result
    exactly when no benchmarks were loaded.  Otherwise the summary says the
    benchmarks are loaded, reports the comparisons the two comparison steps
    return, and, when the file has no overall entry, lists no strength,
    weakness, insight or recommendation. *)
Theorem benchmark_run_outcomes (summary : kpi_summary_t)
  (loaded : list (string * kpi_dict)) :
  let self := init summary loaded in
  let out := fst (analyze_all self) in
  (out = None <-> loaded = [])
  /\ forall s, out = Some s ->
       benchmarks_loaded s = true
       /\ overall_comparison s = fst (compare_overall_metrics self)
       /\ by_channel_comparison s = fst (compare_by_channel self)
       /\ (Dict.lookup String.eqb loaded "overall" = None ->
           overall_comparison s = [] /\ sum_strengths s = []
           /\ sum_weaknesses s = [] /\ sum_insights s = []
           /\ sum_recommendations s = []).
Proof.
  intros self out. unfold out, analyze_all, self. cbn [init benchmarks].
  destruct loaded as [|b0 bs] eqn:El; cbn [is_empty fst].
  - split; [tauto|discriminate].
  - rewrite <- El. split; [split; [discriminate|rewrite El; discriminate]|].
    intros s [= <-]. cbn [get_summary benchmarks_loaded overall_comparison
      by_channel_comparison sum_strengths sum_weaknesses sum_insights
      sum_recommendations].
    split; [|split; [|split]].
    + rewrite (proj2 (by_channel_keeps_overall _)),
        overall_keeps_benchmarks.
      cbn [init benchmarks]. rewrite El. reflexivity.
    + apply run_overall.
    + unfold compare_overall_metrics. cbn [init benchmarks].
      destruct (Dict.lookup String.eqb loaded "overall");
        cbn [snd]; unfold compare_by_channel;
        cbn [kpi_summary benchmarks init];
        destruct (by_channel summary); try reflexivity;
        rewrite El; reflexivity.
    + intro Hno.
      unfold generate_benchmark_insights,
        generate_benchmark_recommendations, get_strengths, get_weaknesses.
      rewrite run_overall. unfold compare_overall_metrics.
      cbn [init benchmarks]. rewrite Hno. cbn. auto.
Qed.

(** X29. In the summary of a complete run the insights agree with the
    lists: a reported number of top-20 % metrics is at least one and at
    most the number of strengths, a reported number of bottom-20 % metrics
    at least one and at most the number of weaknesses, and the key
    strengths (weaknesses) named are the metrics of the first two
    strengths (weaknesses). *)
Theorem insights_agree_with_lists (summary : kpi_summary_t)
  (loaded : list (string * kpi_dict)) (s : BenchmarkAnalyzer.summary) :
  fst (analyze_all (init summary loaded)) = Some s ->
  (forall n, In (strong_performance n) (sum_insights s) ->
             (1 <= n <= List.length (sum_strengths s))%nat)
  /\ (forall n, In (weak_performance n) (sum_insights s) ->
                (1 <= n <= List.length (sum_weaknesses s))%nat)
  /\ (forall ms, In (key_strengths ms) (sum_insights s) ->
                 ms <> [] /\ ms = map s_metric (firstn 2 (sum_strengths s)))
  /\ (forall ms, In (key_weaknesses ms) (sum_insights s) ->
                 ms <> []
                 /\ ms = map w_metric (firstn 2 (sum_weaknesses s))).
Proof.
  unfold analyze_all. cbn [init benchmarks].
  destruct (is_empty loaded); cbn [fst]; [discriminate|].
  intros [= <-]. cbn [get_summary sum_insights sum_strengths sum_weaknesses].
  set (self := snd (compare_by_channel
                      (snd (compare_overall_metrics (init summary loaded))))).
  assert (T : Forall (fun kv => tier (snd kv)
                                = overall_tier (pct_difference (snd kv)))
                     (or_empty (comparisons_overall self))).
  { unfold self. rewrite run_overall. apply run_tiers. }
  pose proof (top_20_are_strengths self T) as Ht.
  pose proof (bottom_20_are_weaknesses self T) as Hb.
  unfold generate_benchmark_insights.
  set (top := count_tier top_20 (or_empty (comparisons_overall self))) in *.
  set (bottom :=
         count_tier bottom_20 (or_empty (comparisons_overall self))) in *.
  set (strengths := get_strengths self (Fin 10)) in *.
  set (weaknesses := get_weaknesses self (Fin (- 10))) in *.
  assert (Hin : forall i,
            In i ((if (0 <? top)%nat then [strong_performance top] else [])
                  ++ (if (0 <? bottom)%nat then [weak_performance bottom]
                      else [])
                  ++ match strengths with
                     | [] => []
                     | _ :: _ =>
                         [key_strengths (map s_metric (firstn 2 strengths))]
                     end
                  ++ match weaknesses with
                     | [] => []
                     | _ :: _ =>
                         [key_weaknesses
                            (map w_metric (firstn 2 weaknesses))]
                     end)%list ->
            (i = strong_performance top /\ (0 < top)%nat)
            \/ (i = weak_performance bottom /\ (0 < bottom)%nat)
            \/ (i = key_strengths (map s_metric (firstn 2 strengths))
                /\ strengths <> [])
            \/ (i = key_weaknesses (map w_metric (firstn 2 weaknesses))
                /\ weaknesses <> [])).
  { intros i H. repeat (apply in_app_or in H; destruct H as [H|H]).
    - destruct (0 <? top)%nat eqn:E; [|destruct H].
      apply Nat.ltb_lt in E. destruct H as [<-|[]]. auto.
    - destruct (0 <? bottom)%nat eqn:E; [|destruct H].
      apply Nat.ltb_lt in E. destruct H as [<-|[]]. auto.
    - destruct strengths; [destruct H|]. destruct H as [<-|[]].
      right; right; left. split; [reflexivity|discriminate].
    - destruct weaknesses; [destruct H|]. destruct H as [<-|[]].
      right; right; right. split; [reflexivity|discriminate]. }
  split; [|split; [|split]]; intros x Hx; apply Hin in Hx;
    destruct Hx as [[E H]|[[E H]|[[E H]|[E H]]]];
    try discriminate E; injection E as ->; try lia.
  - split; [|reflexivity].
    destruct strengths; [contradiction|]. discriminate.
  - split; [|reflexivity].
    destruct weaknesses; [contradiction|]. discriminate.
Qed.

Lemma insights_agree_with_lists_witness :
  exists s,
    fst (analyze_all (init Samples.cheap_clicks Samples.industry)) = Some s
    /\ In (strong_performance 2) (sum_insights s)
    /\ (forall n, In (strong_performance n) (sum_insights s) ->
                  (1 <= n <= List.length (sum_strengths s))%nat).
Proof.
  eexists. split; [reflexivity|]. split.
  - vm_compute. auto.
  - apply (insights_agree_with_lists Samples.cheap_clicks Samples.industry).
    reflexivity.
Defined.


End BenchmarkRunFacts.

(* ------------------------------------------------------------------------- *)
(** ** The upload filter *)

Module UploadFacts.

Import App.

Lemma rsplit_no_sep (sep : ascii) (s : string) :
  contains sep s = false -> rsplit_once sep s = [s].
Proof.
  induction s as [|d s IH]; simpl; [reflexivity|].
  intro H. apply orb_false_iff in H. destruct H as [Hd Hs].
  rewrite (IH Hs), Hd. reflexivity.
Qed.

Lemma rsplit_at_last (sep : ascii) (base ext : string) :
  contains sep ext = false ->
  rsplit_once sep (base ++ String sep ext) = [base; ext].
Proof.
  intro H. induction base as [|d base IH]; simpl.
  - rewrite (rsplit_no_sep sep ext H), Ascii.eqb_refl. reflexivity.
  - rewrite IH. reflexivity.
Qed.

Lemma contains_cut (sep : ascii) (s : string) :
  contains sep s = true ->
  exists base ext,
    s = base ++ String sep ext /\ contains sep ext = false.
Proof.
  induction s as [|d s IH]; simpl; [discriminate|].
  destruct (contains sep s) eqn:Es.
  - intros _. destruct (IH eq_refl) as (base & ext & -> & Hext).
    exists (String d base), ext. auto.
  - rewrite orb_false_r. intro Hd. apply Ascii.eqb_eq in Hd. subst d.
    exists EmptyString, s. auto.
Qed.

Lemma contains_append (sep : ascii) (base ext : string) :
  contains sep (base ++ String sep ext) = true.
Proof.
  induction base as [|d base IH]; simpl.
  - rewrite Ascii.eqb_refl. reflexivity.
  - rewrite IH. apply orb_true_r.
Qed.

(** X30. The upload filter never fails, and it accepts a file name exactly
    when the name has a dot and the text after its last dot is csv in any
    letter case; what stands before that dot, even nothing, plays no
    part. *)
Theorem allowed_file_iff_csv_after_last_dot (filename : string) :
  exists b,
    allowed_file filename = Some b
    /\ (b = true <->
        exists base ext,
          filename = base ++ String "." ext
          /\ contains "." ext = false
          /\ lower ext = "csv").
Proof.
  unfold allowed_file. destruct (contains "." filename) eqn:E.
  - destruct (contains_cut _ _ E) as (base & ext & -> & Hext).
    rewrite (rsplit_at_last _ base ext Hext). cbn [nth_error].
    eexists. split; [reflexivity|]. cbn [existsb ALLOWED_EXTENSIONS].
    rewrite orb_false_r. split.
    + intro H. apply String.eqb_eq in H. exists base, ext. auto.
    + intros (base' & ext' & Heq & Hext' & Hl).
      apply (f_equal (rsplit_once ".")) in Heq.
      rewrite (rsplit_at_last _ base ext Hext),
        (rsplit_at_last _ base' ext' Hext') in Heq.
      injection Heq as _ ->. apply String.eqb_eq, Hl.
  - exists false. split; [reflexivity|]. split; [discriminate|].
    intros (base & ext & -> & _). rewrite contains_append in E.
    discriminate.
Qed.

End UploadFacts.
